(** * ha-glowmarkt: the polling core of the Glowmarkt integration

    A shallow embedding of [custom_components/glowmarkt/api.py],
    [models.py] and [sensor.py]: the API client, the daily usage
    calculator, the update gate, the usage sensor, the tariff coordinator
    and its dependents, followed by the properties the specification
    states about them.

    Python objects are records, attribute assignment is a write to the
    object held in the state of a small state-and-exception monad, the
    wall clock and the HTTP server are an explicit environment, and
    [float] is the kernel's binary64. *)

From Stdlib Require Import ZArith Lia Bool List.
From Stdlib Require Import Floats.PrimFloat.
From stdpp Require Import base option list gmap strings.

Local Open Scope Z_scope.

(** ** Exceptions and results *)

(** The exception classes the modelled code can raise. [ValueError]
    carries its argument tuple; [ClientError] stands for aiohttp's
    transport errors; the others are raised by the interpreter or the
    standard library. *)
Inductive exn : Type :=
| ValueError (args : list string)
| IndexError
| KeyError (key : string)
| OverflowError
| RuntimeError (msg : string)
| ClientError.

Inductive result (A : Type) : Type :=
| Ok (a : A)
| Raise (e : exn).
Arguments Ok {A} a.
Arguments Raise {A} e.

Definition is_ok {A} (r : result A) : bool :=
  match r with Ok _ => true | Raise _ => false end.

(** ** The state-and-exception monad

    A computation reads and writes a state [S] and either returns a
    value or raises. The state reached when an exception is raised is
    kept: what was assigned before the [raise] stays assigned. *)
Definition M (S A : Type) : Type := S -> result A * S.

Definition ret {S A} (a : A) : M S A := fun s => (Ok a, s).

Definition raise {S A} (e : exn) : M S A := fun s => (Raise e, s).

Definition bind {S A B} (m : M S A) (k : A -> M S B) : M S B :=
  fun s =>
    match m s with
    | (Ok a, s') => k a s'
    | (Raise e, s') => (Raise e, s')
    end.

Definition get_state {S} : M S S := fun s => (Ok s, s).

Definition modify {S} (f : S -> S) : M S unit := fun s => (Ok tt, f s).

Definition lift_result {S A} (r : result A) : M S A := fun s => (r, s).

(** [finally m h] is [try: m finally: h]. *)
Definition finally {S A} (m : M S A) (h : S -> S) : M S A :=
  fun s => let (r, s') := m s in (r, h s').

Declare Scope py_scope.
Delimit Scope py_scope with py.
Notation "'let*' x ':=' c1 'in' c2" := (bind c1 (fun x => c2))
  (at level 10, x pattern, c1 at level 100, c2 at level 200) : py_scope.
Local Open Scope py_scope.

(** An object [O] living next to the world [W]: the methods of the object
    run in [M (O * W)], the functions that only touch the world are
    lifted. *)
Definition in_world {O W A} (m : M W A) : M (O * W) A :=
  fun s => let (r, w') := m (snd s) in (r, (fst s, w')).

Definition self {O W} : M (O * W) O := fun s => (Ok (fst s), s).

Definition assign {O W} (f : O -> O) : M (O * W) unit :=
  fun s => (Ok tt, (f (fst s), snd s)).

Fixpoint map_m {S A B} (f : A -> M S B) (l : list A) : M S (list B) :=
  match l with
  | [] => ret []
  | x :: xs =>
      let* y := f x in
      let* ys := map_m f xs in
      ret (y :: ys)
  end.

(** ** [datetime]: naive local dates and times *)

Module time.
Record t : Type := mk { hour : Z; minute : Z; second : Z; microsecond : Z }.

Definition valid (a : t) : Prop :=
  0 <= hour a < 24 /\ 0 <= minute a < 60 /\ 0 <= second a < 60
  /\ 0 <= microsecond a < 1000000.

(** [a <= b] on naive times: the tuples (hour, minute, second,
    microsecond) compared lexicographically. *)
Definition le (a b : t) : bool :=
  (hour a <? hour b)
  || ((hour a =? hour b)
      && ((minute a <? minute b)
          || ((minute a =? minute b)
              && ((second a <? second b)
                  || ((second a =? second b)
                      && (microsecond a <=? microsecond b)))))).

(** Microseconds elapsed since midnight. *)
Definition since_midnight (a : t) : Z :=
  ((hour a * 60 + minute a) * 60 + second a) * 1000000 + microsecond a.
End time.

Module date.
Record t : Type := mk { year : Z; month : Z; day : Z }.

Definition is_leap (y : Z) : bool :=
  (y mod 4 =? 0) && (negb (y mod 100 =? 0) || (y mod 400 =? 0)).

Definition days_in_month (y m : Z) : Z :=
  if m =? 2 then (if is_leap y then 29 else 28)
  else if (m =? 4) || (m =? 6) || (m =? 9) || (m =? 11) then 30
  else 31.

Definition valid (d : t) : Prop :=
  1 <= year d <= 9999 /\ 1 <= month d <= 12
  /\ 1 <= day d <= days_in_month (year d) (month d).

Definition days_before_year (y : Z) : Z :=
  (y - 1) * 365 + (y - 1) / 4 - (y - 1) / 100 + (y - 1) / 400.

Definition days_before_month (y m : Z) : Z :=
  (match m with
   | 1 => 0 | 2 => 31 | 3 => 59 | 4 => 90 | 5 => 120 | 6 => 151
   | 7 => 181 | 8 => 212 | 9 => 243 | 10 => 273 | 11 => 304 | _ => 334
   end)
  + (if (2 <? m) && is_leap y then 1 else 0).

(** Proleptic Gregorian ordinal, 0001-01-01 being day 1. *)
Definition toordinal (d : t) : Z :=
  days_before_year (year d) + days_before_month (year d) (month d) + day d.

(** The calendar day before [d]. *)
Definition pred (d : t) : t :=
  if 1 <? day d then mk (year d) (month d) (day d - 1)
  else if 1 <? month d
       then mk (year d) (month d - 1) (days_in_month (year d) (month d - 1))
       else mk (year d - 1) 12 31.
End date.

Module datetime.
Record t : Type := mk {
  year : Z; month : Z; day : Z;
  hour : Z; minute : Z; second : Z; microsecond : Z }.

(** [self.time()] and [self.date()] *)
Definition time (a : t) : time.t :=
  time.mk (hour a) (minute a) (second a) (microsecond a).

Definition date (a : t) : date.t := date.mk (year a) (month a) (day a).

Definition combine (d : date.t) (c : time.t) : t :=
  mk (date.year d) (date.month d) (date.day d)
     (time.hour c) (time.minute c) (time.second c) (time.microsecond c).

Definition valid (a : t) : Prop := date.valid (date a) /\ time.valid (time a).

(** [self.replace(hour=0, minute=0, second=0, microsecond=0)] *)
Definition replace_hmsu (a : t) (h mi s us : Z) : t :=
  mk (year a) (month a) (day a) h mi s us.

(** [self.replace(second=0, microsecond=0)] *)
Definition replace_su (a : t) (s us : Z) : t :=
  mk (year a) (month a) (day a) (hour a) (minute a) s us.

(** [self - timedelta(days=1)]: the same time on the day whose ordinal is
    one less; [OverflowError] when that ordinal is not positive. *)
Definition sub_one_day (a : t) : result t :=
  if 0 <? date.toordinal (date a) - 1
  then Ok (combine (date.pred (date a)) (time a))
  else Raise OverflowError.
End datetime.

(** ** models.py *)

Record ReadingData : Type := {
  datestamp : datetime.t;
  value : float }.

Record Reading : Type := { data : list ReadingData }.

Module ResourceTypeInfo.
Record t : Type := {
  unit : string;
  type : string }.
End ResourceTypeInfo.

Module ResourceOverview.
Record t : Type := {
  resource_id : string;
  resource_type_id : string;
  name : string }.
End ResourceOverview.

Record Resource : Type := {
  active : bool;
  resource_type_id : string;
  owner_id : string;
  name : string;
  description : string;
  label : string;
  data_source_resource_type_info : ResourceTypeInfo.t;
  data_source_type : string;
  classifier : string;
  base_unit : string;
  resource_id : string;
  updated_at : string;
  created_at : string;
  data_souce_unit_info : gmap string string }.

Record TariffRates : Type := {
  rate : float;
  standing_charge : float }.

Record TariffData : Type := { current_rates : TariffRates }.

Module VirtualEntity.
Record t : Type := {
  resources : list ResourceOverview.t;
  name : string;
  id : string }.
End VirtualEntity.

(** ** The environment: HTTP and the wall clock *)

Inductive period : Type := PT30M30 | PT1H | P1D | P1W | P1M | P1Y.

(** The requests the client sends, by endpoint. A readings request
    carries the two instants that [get_reading] formats into its URL. *)
Inductive request : Type :=
| GET_virtualentity
| GET_catchup (resource_id : string)
| GET_readings (resource_id : string) (from_time to_time : datetime.t)
    (p : period)
| GET_tariff (resource_id : string).

(** What [await self.session.get(url)] yields: a transport failure, or a
    response with its status and its decoded JSON body. *)
Inductive http_reply (B : Type) : Type :=
| Failed
| Response (status : Z) (json : B).
Arguments Failed {B}.
Arguments Response {B} status json.

(** Decoded JSON bodies, typed as the client reads them: the objects of
    the list under ["data"] of a tariff response and of the list of a
    virtual-entity response. The body of a readings response is the list
    of (epoch, value) pairs under ["data"]. *)
Record currentRates_json : Type := {
  j_rate : float;
  j_standingCharge : float }.

Record tariff_json : Type := { j_currentRates : currentRates_json }.

Record ve_resource_json : Type := {
  j_resourceId : string;
  j_resourceTypeId : string;
  j_r_name : string }.

Record virtualentity_json : Type := {
  j_resources : list ve_resource_json;
  j_name : string;
  j_veId : string }.

(** The server answers a request knowing every request sent so far (the
    current one first); the clock gives the value of the k-th call of
    [datetime.now()]. [fromtimestamp] is the platform's conversion of an
    epoch to local time, [round] the builtin of that name on floats. *)
Record environment : Type := {
  clock : nat -> datetime.t;
  fromtimestamp : Z -> result datetime.t;
  round : float -> Z -> float;
  serve_virtualentity : list request -> http_reply (list virtualentity_json);
  serve_catchup : list request -> http_reply unit;
  serve_readings : list request -> http_reply (list (Z * float));
  serve_tariff : list request -> http_reply (list tariff_json) }.

(** A coroutine object, as far as sequential code can tell: created and
    not yet awaited, or run to completion. *)
Inductive coroutine : Type := CORO_CREATED | CORO_CLOSED.

(** The world outside the sensor objects: how often the clock was read,
    the requests sent (latest first), and the process-wide table of
    [functools.lru_cache] around [get_virtual_entites] (most recently
    used first), keyed by the client instance. *)
Record world : Type := {
  now_calls : nat;
  requests : list request;
  lru : list (nat * coroutine) }.

Definition world0 : world :=
  {| now_calls := 0%nat; requests := []; lru := [] |}.

(** [datetime.now()] *)
Definition datetime_now (env : environment) : M world datetime.t :=
  fun w =>
    (Ok (clock env (now_calls w)),
     {| now_calls := S (now_calls w); requests := requests w; lru := lru w |}).

(** [await self.session.get(url)]: the request is sent, then the server
    answers or the transport fails. *)
Definition session_get {B} (serve : list request -> http_reply B)
    (r : request) : M world (Z * B) :=
  fun w =>
    let sent := r :: requests w in
    let w' := {| now_calls := now_calls w; requests := sent; lru := lru w |} in
    match serve sent with
    | Failed => (Raise ClientError, w')
    | Response status json => (Ok (status, json), w')
    end.

(** [l[i]] on a Python list. *)
Definition subscript {S A} (l : list A) (i : nat) : M S A :=
  match l !! i with
  | Some x => ret x
  | None => raise IndexError
  end.

(** [needle in hay] on Python strings. *)
Fixpoint str_in (needle hay : string) : bool :=
  String.prefix needle hay
  || match hay with
     | EmptyString => false
     | String _ rest => str_in needle rest
     end.

(** ** [functools.lru_cache] (default [maxsize=128]) over an [async def]

    The decorated method is a coroutine function: calling it builds a
    coroutine object, and that object is what the cache stores under the
    key [(self,)] and hands out again on a hit. Awaiting a coroutine runs
    its body once; awaiting one that has already run raises
    [RuntimeError]. *)
Definition lru_maxsize : nat := 128.

Fixpoint lru_find (k : nat) (c : list (nat * coroutine)) : option coroutine :=
  match c with
  | [] => None
  | (k', v) :: rest => if Nat.eqb k' k then Some v else lru_find k rest
  end.

Definition lru_remove (k : nat) (c : list (nat * coroutine))
    : list (nat * coroutine) :=
  filter (fun e => negb (Nat.eqb (fst e) k)) c.

(** Store at the front, dropping the least recently used beyond
    [maxsize]. *)
Definition lru_store (k : nat) (v : coroutine) (c : list (nat * coroutine))
    : list (nat * coroutine) :=
  take lru_maxsize ((k, v) :: lru_remove k c).

Definition lru_close (k : nat) (c : list (nat * coroutine))
    : list (nat * coroutine) :=
  map (fun e => if Nat.eqb (fst e) k then (k, CORO_CLOSED) else e) c.

Definition set_lru (f : list (nat * coroutine) -> list (nat * coroutine))
    (w : world) : world :=
  {| now_calls := now_calls w; requests := requests w; lru := f (lru w) |}.

(** ** api.py *)

Module GlowMarkt.
(** A client instance; [instance] is the identity of the object, which is
    what it hashes and compares by. *)
Record t : Type := {
  instance : nat;
  username : string;
  password : string }.

Section Client.
Variable env : environment.

(** The body of [get_virtual_entites]. *)
Definition get_virtual_entites_body (self_ : t) : M world (list VirtualEntity.t) :=
  let* (status, responseJson) :=
    session_get (serve_virtualentity env) GET_virtualentity in
  if negb (status =? 200)
  then raise (ValueError ["Failed to retrieve virtual entities"%string])
  else
    ret (map (fun ve =>
                {| VirtualEntity.resources :=
                     map (fun r =>
                            {| ResourceOverview.resource_id := j_resourceId r;
                               ResourceOverview.resource_type_id := j_resourceTypeId r;
                               ResourceOverview.name := j_r_name r |})
                         (j_resources ve);
                   VirtualEntity.name := j_name ve;
                   VirtualEntity.id := j_veId ve |})
             responseJson).

(** The call [self.get_virtual_entites()] through the [lru_cache]
    wrapper: the coroutine cached for this instance, or a new one, which
    is cached. *)
Definition get_virtual_entites_call (self_ : t) : M world coroutine :=
  fun w =>
    match lru_find (instance self_) (lru w) with
    | Some c => (Ok c, set_lru (lru_store (instance self_) c) w)
    | None =>
        (Ok CORO_CREATED, set_lru (lru_store (instance self_) CORO_CREATED) w)
    end.

(** [await self.get_virtual_entites()] *)
Definition get_virtual_entites (self_ : t) : M world (list VirtualEntity.t) :=
  let* c := get_virtual_entites_call self_ in
  match c with
  | CORO_CLOSED =>
      raise (RuntimeError "cannot reuse already awaited coroutine")
  | CORO_CREATED =>
      finally (get_virtual_entites_body self_)
              (set_lru (lru_close (instance self_)))
  end.

Definition catchup (self_ : t) (resource_id : string) : M world unit :=
  let* _ := session_get (serve_catchup env) (GET_catchup resource_id) in
  ret tt.

Definition get_reading (self_ : t) (resource_id : string)
    (from_time to_time : datetime.t) (p : period) : M world Reading :=
  let* (status, json_data) :=
    session_get (serve_readings env)
                (GET_readings resource_id from_time to_time p) in
  if negb (status =? 200)
  then raise (ValueError ["Failed to retrieve readings"%string])
  else
    let* result :=
      map_m (fun '(epoch, v) =>
               let* timestamp := lift_result (fromtimestamp env epoch) in
               ret {| datestamp := timestamp; value := v |})
            json_data in
    ret {| data := result |}.

Definition get_tariff (self_ : t) (resource_id : string) : M world TariffData :=
  let* (status, json_data) :=
    session_get (serve_tariff env) (GET_tariff resource_id) in
  if negb (status =? 200)
  then raise (ValueError ["Failed to retrieve tariff"%string])
  else
    let* d := subscript json_data 0 in
    ret {| current_rates :=
             {| rate := j_rate (j_currentRates d);
                standing_charge := j_standingCharge (j_currentRates d) |} |}.
End Client.
End GlowMarkt.

(** ** sensor.py: module-level functions *)

Section Functions.
Variable env : environment.

(** [if value:] on a float: false exactly for [0.0] and [-0.0]. *)
Definition truthy (v : float) : bool := negb (PrimFloat.eqb v 0%float).

(** The "now" of [daily_data]: at or before [time(1, 5)] the clock is
    read again and a day is subtracted. *)
Definition effective_now : M world datetime.t :=
  let* t := datetime_now env in
  if time.le (datetime.time t) (time.mk 1 5 0 0)
  then
    let* n := datetime_now env in
    lift_result (datetime.sub_one_day n)
  else datetime_now env.

(** [t_from] and [t_to] of [daily_data]. *)
Definition daily_window : M world (datetime.t * datetime.t) :=
  let* now := effective_now in
  let t_from := datetime.replace_hmsu now 0 0 0 0 in
  let t_to := datetime.replace_su now 0 0 in
  ret (t_from, t_to).

Definition daily_data (api : GlowMarkt.t) (resource : Resource)
    : M world (float * datetime.t) :=
  let* (t_from, t_to) := daily_window in
  let* _ := GlowMarkt.catchup env api (resource_id resource) in
  let* reading :=
    GlowMarkt.get_reading env api (resource_id resource) t_from t_to P1D in
  let* e0 := subscript (data reading) 0 in
  let v := value e0 in
  let* v :=
    (if (1 <? length (data reading))%nat
     then
       let* e1 := subscript (data reading) 1 in
       ret (v + value e1)%float
     else ret v) in
  ret (v, t_from).

Definition tariff_data (api : GlowMarkt.t) (resource : Resource)
    : M world TariffRates :=
  let* tariff := GlowMarkt.get_tariff env api (resource_id resource) in
  ret (current_rates tariff).

Definition should_update : M world bool :=
  let* now := datetime_now env in
  let minutes := datetime.minute now in
  if ((1 <=? minutes) && (minutes <=? 5))
     || ((31 <=? minutes) && (minutes <=? 35))
  then ret true
  else ret false.
End Functions.

Definition supply_type (resource : Resource) : result string :=
  if str_in "electricity.consumption" (classifier resource)
  then Ok "electricity"%string
  else if str_in "gas.consumption" (classifier resource)
  then Ok "gas"%string
  else Raise (ValueError ["Unexpected classifer"%string; classifier resource]).

Definition device_name (resource : Resource) (virtual_entity : VirtualEntity.t)
    : result string :=
  match supply_type resource with
  | Ok supply =>
      Ok (VirtualEntity.name virtual_entity ++ " smart " ++ supply ++ " meter")%string
  | Raise e => Raise e
  end.

(** ** sensor.py: the sensors *)

Module UsageSensor.
Record t : Type := {
  _attr_last_reset : option datetime.t;
  _attr_native_value : option float;
  _attr_unique_id : string;
  api : GlowMarkt.t;
  initalised : bool;
  resource : Resource;
  virtual_entity : VirtualEntity.t }.

Definition __init__ (resource : Resource) (virtual_entity : VirtualEntity.t)
    (api : GlowMarkt.t) : t :=
  {| _attr_last_reset := None;
     _attr_native_value := None;
     _attr_unique_id := resource_id resource;
     api := api;
     initalised := false;
     resource := resource;
     virtual_entity := virtual_entity |}.

Definition set_native_value (x : float) (s : t) : t :=
  {| _attr_last_reset := _attr_last_reset s;
     _attr_native_value := Some x;
     _attr_unique_id := _attr_unique_id s;
     api := api s;
     initalised := initalised s;
     resource := resource s;
     virtual_entity := virtual_entity s |}.

Definition set_last_reset (d : datetime.t) (s : t) : t :=
  {| _attr_last_reset := Some d;
     _attr_native_value := _attr_native_value s;
     _attr_unique_id := _attr_unique_id s;
     api := api s;
     initalised := initalised s;
     resource := resource s;
     virtual_entity := virtual_entity s |}.

Definition set_initalised (b : bool) (s : t) : t :=
  {| _attr_last_reset := _attr_last_reset s;
     _attr_native_value := _attr_native_value s;
     _attr_unique_id := _attr_unique_id s;
     api := api s;
     initalised := b;
     resource := resource s;
     virtual_entity := virtual_entity s |}.

Section Methods.
Variable env : environment.

Definition async_update : M (t * world) unit :=
  let* s := self in
  if negb (initalised s)
  then
    let* (v, t_from) := in_world (daily_data env (api s) (resource s)) in
    if truthy v
    then
      let* _ := assign (set_native_value (round env v 2)) in
      let* _ := assign (set_last_reset t_from) in
      assign (set_initalised true)
    else ret tt
  else
    let* due := in_world (should_update env) in
    if due
    then
      let* (v, t_from) := in_world (daily_data env (api s) (resource s)) in
      if truthy v
      then
        let* _ := assign (set_native_value (round env v 2)) in
        assign (set_last_reset t_from)
      else ret tt
    else ret tt.
End Methods.
End UsageSensor.

Module TariffCoordinator.
Record t : Type := {
  api : GlowMarkt.t;
  rate_initalised : bool;
  standing_initalised : bool;
  resource : Resource }.

Definition __init__ (api : GlowMarkt.t) (resource : Resource) : t :=
  {| api := api;
     rate_initalised := false;
     standing_initalised := false;
     resource := resource |}.

Definition set_rate_initalised (b : bool) (s : t) : t :=
  {| api := api s;
     rate_initalised := b;
     standing_initalised := standing_initalised s;
     resource := resource s |}.

Definition set_standing_initalised (b : bool) (s : t) : t :=
  {| api := api s;
     rate_initalised := rate_initalised s;
     standing_initalised := b;
     resource := resource s |}.

(** [{"rate": tariff.rate, "standing_charge": tariff.standing_charge}] *)
Definition mapping (tariff : TariffRates) : gmap string float :=
  <["rate"%string := rate tariff]>
    (<["standing_charge"%string := standing_charge tariff]> ∅).

Section Methods.
Variable env : environment.

Definition _async_update_data : M (t * world) (gmap string float) :=
  let* s := self in
  if negb (standing_initalised s) || negb (rate_initalised s)
  then
    let* tariff := in_world (tariff_data env (api s) (resource s)) in
    let* _ := assign (set_rate_initalised true) in
    let* _ := assign (set_standing_initalised true) in
    ret (mapping tariff)
  else
    let* due := in_world (should_update env) in
    if due
    then
      let* tariff := in_world (tariff_data env (api s) (resource s)) in
      ret (mapping tariff)
    else ret ∅.
End Methods.
End TariffCoordinator.

(** [if self.coordinator.data:] — [None] and the empty dict are false. *)
Definition dict_truthy (d : option (gmap string float)) : bool :=
  match d with
  | None => false
  | Some m => negb (Nat.eqb (size m) 0)
  end.

(** [d[key]] on a dict. *)
Definition getitem {S} (d : option (gmap string float)) (key : string)
    : M S float :=
  match d ≫= (fun m => m !! key) with
  | Some x => ret x
  | None => raise (KeyError key)
  end.

Module Rate.
(** [ha_states] lists what [async_write_ha_state] has pushed to the
    platform, latest first. *)
Record t : Type := {
  _attr_native_value : option float;
  _attr_unique_id : string;
  resource : Resource;
  virtual_entity : VirtualEntity.t;
  ha_states : list (option float) }.

Definition __init__ (resource : Resource) (virtual_entity : VirtualEntity.t) : t :=
  {| _attr_native_value := None;
     _attr_unique_id := (resource_id resource ++ "-rate")%string;
     resource := resource;
     virtual_entity := virtual_entity;
     ha_states := [] |}.

Definition set_native_value (x : float) (s : t) : t :=
  {| _attr_native_value := Some x;
     _attr_unique_id := _attr_unique_id s;
     resource := resource s;
     virtual_entity := virtual_entity s;
     ha_states := ha_states s |}.

Definition async_write_ha_state : M t unit :=
  modify (fun s =>
    {| _attr_native_value := _attr_native_value s;
       _attr_unique_id := _attr_unique_id s;
       resource := resource s;
       virtual_entity := virtual_entity s;
       ha_states := _attr_native_value s :: ha_states s |}).

Section Methods.
Variable env : environment.

(** [coordinator_data] is [self.coordinator.data]. *)
Definition _handle_coordinator_update
    (coordinator_data : option (gmap string float)) : M t unit :=
  if dict_truthy coordinator_data
  then
    let* raw := getitem coordinator_data "rate" in
    let v := (raw / 100)%float in
    let* _ := modify (set_native_value (round env v 4)) in
    async_write_ha_state
  else ret tt.
End Methods.
End Rate.

Module Standing.
Record t : Type := {
  _attr_native_value : option float;
  _attr_unique_id : string;
  resource : Resource;
  virtual_entity : VirtualEntity.t;
  ha_states : list (option float) }.

Definition __init__ (resource : Resource) (virtual_entity : VirtualEntity.t) : t :=
  {| _attr_native_value := None;
     _attr_unique_id := (resource_id resource ++ "-tariff")%string;
     resource := resource;
     virtual_entity := virtual_entity;
     ha_states := [] |}.

Definition set_native_value (x : float) (s : t) : t :=
  {| _attr_native_value := Some x;
     _attr_unique_id := _attr_unique_id s;
     resource := resource s;
     virtual_entity := virtual_entity s;
     ha_states := ha_states s |}.

Definition async_write_ha_state : M t unit :=
  modify (fun s =>
    {| _attr_native_value := _attr_native_value s;
       _attr_unique_id := _attr_unique_id s;
       resource := resource s;
       virtual_entity := virtual_entity s;
       ha_states := _attr_native_value s :: ha_states s |}).

Section Methods.
Variable env : environment.

Definition _handle_coordinator_update
    (coordinator_data : option (gmap string float)) : M t unit :=
  if dict_truthy coordinator_data
  then
    let* raw := getitem coordinator_data "standing_charge" in
    let v := (raw / 100)%float in
    let* _ := modify (set_native_value (round env v 4)) in
    async_write_ha_state
  else ret tt.
End Methods.
End Standing.


(** ** sensor.py: the cost sensor *)

Module Cost.
Record t : Type := {
  _attr_native_value : option float;
  _attr_unique_id : string;
  api : GlowMarkt.t;
  initialised : bool;
  meter_id : string;
  resource : Resource;
  virtual_entity : VirtualEntity.t }.

Definition __init__ (api : GlowMarkt.t) (resource : Resource)
    (virtual_entity : VirtualEntity.t) (meter_id : string) : t :=
  {| _attr_native_value := None;
     _attr_unique_id := resource_id resource;
     api := api;
     initialised := false;
     meter_id := meter_id;
     resource := resource;
     virtual_entity := virtual_entity |}.

Definition set_native_value (x : float) (s : t) : t :=
  {| _attr_native_value := Some x;
     _attr_unique_id := _attr_unique_id s;
     api := api s;
     initialised := initialised s;
     meter_id := meter_id s;
     resource := resource s;
     virtual_entity := virtual_entity s |}.

Definition set_initialised (b : bool) (s : t) : t :=
  {| _attr_native_value := _attr_native_value s;
     _attr_unique_id := _attr_unique_id s;
     api := api s;
     initialised := b;
     meter_id := meter_id s;
     resource := resource s;
     virtual_entity := virtual_entity s |}.

Section Methods.
Variable env : environment.

Definition async_update : M (t * world) unit :=
  let* s := self in
  if negb (initialised s)
  then
    let* (v, _) := in_world (daily_data env (api s) (resource s)) in
    if truthy v
    then
      let* _ := assign (set_native_value (round env (v / 100)%float 2)) in
      assign (set_initialised true)
    else ret tt
  else
    let* due := in_world (should_update env) in
    if due
    then
      let* (v, _) := in_world (daily_data env (api s) (resource s)) in
      if truthy v
      then assign (set_native_value (round env (v / 100)%float 2))
      else ret tt
    else ret tt.
End Methods.
End Cost.

(** ** api.py: the session, [connect] and [close] *)

Module Session.
(** The [aiohttp.ClientSession] of a client: its default headers,
    whether [close] has been called, and the credentials posted to
    [/auth] so far (latest first). *)
Record t : Type := {
  headers : gmap string string;
  closed : bool;
  posted : list (string * string) }.

Definition set_header (k v : string) (s : t) : t :=
  {| headers := <[k := v]> (headers s);
     closed := closed s;
     posted := posted s |}.

Definition post (username password : string) (s : t) : t :=
  {| headers := headers s;
     closed := closed s;
     posted := (username, password) :: posted s |}.

Definition close (s : t) : t :=
  {| headers := headers s; closed := true; posted := posted s |}.
End Session.

Definition APPLICATION_ID : string := "b0f1b774-a586-4f72-9edd-27ead8aa7a8d".

(** [GlowMarkt(username, password)]: the client, [instance] being the
    identity of the new object, and its session with the two headers
    every request carries. *)
Definition GlowMarkt__init__ (instance : nat) (username password : string)
    : GlowMarkt.t * Session.t :=
  ({| GlowMarkt.instance := instance;
      GlowMarkt.username := username;
      GlowMarkt.password := password |},
   {| Session.headers :=
        <["Content-Type"%string := "application/json"%string]>
          (<["applicationId"%string := APPLICATION_ID]> ∅);
      Session.closed := false;
      Session.posted := [] |}).

(** ** config_flow.py: what the flow raises and where it ends *)

(** What leaves [validate_input]: [InvalidAuth] raised from a
    [ValueError], or any other exception as it is. *)
Inductive flow_exn : Type :=
| InvalidAuth (cause : exn)
| Uncaught (e : exn).

Inductive flow_result (A : Type) : Type :=
| Returned (a : A)
| Raised (e : flow_exn).
Arguments Returned {A} a.
Arguments Raised {A} e.

(** What [async_step_user] returns: the form [async_show_form] describes,
    with its errors, or the entry [async_create_entry(title, data)]
    describes. *)
Inductive step_outcome : Type :=
| show_form (step_id : string) (errors : option (gmap string string))
| create_entry (title : string) (data : gmap string string).

(** How a step ends: it returns, or the platform's [AbortFlow(reason)]
    leaves it, or another exception does. *)
Inductive step_result : Type :=
| Step_returns (outcome : step_outcome)
| Step_aborts (reason : string)
| Step_raises (e : exn).

Section Auth.
(** The authentication endpoint: its answer to the credentials posted
    (the current ones first), the body being the JSON object of the
    response. *)
Variable serve_auth : list (string * string) -> http_reply (gmap string string).

Definition connect (self_ : GlowMarkt.t) : M Session.t unit :=
  let* _ := modify (Session.post (GlowMarkt.username self_)
                                 (GlowMarkt.password self_)) in
  let* s := get_state in
  match serve_auth (Session.posted s) with
  | Failed => raise ClientError
  | Response status resp_json =>
      if negb (status =? 200)
      then raise (ValueError ["Failed to authenticate"%string])
      else
        match resp_json !! "token"%string with
        | None => raise (KeyError "token")
        | Some token => modify (Session.set_header "token" token)
        end
  end.

Definition close (self_ : GlowMarkt.t) : M Session.t unit :=
  modify Session.close.

(** ** config_flow.py *)

(** [validate_input(hass, data)], with the session of the client it
    built as it is left behind ([None] when no client was built). *)
Definition validate_input (instance : nat) (data : gmap string string)
    : flow_result (gmap string string) * option Session.t :=
  match data !! "username"%string with
  | None => (Raised (Uncaught (KeyError "username")), None)
  | Some username =>
      match data !! "password"%string with
      | None => (Raised (Uncaught (KeyError "password")), None)
      | Some password =>
          let (api, session) := GlowMarkt__init__ instance username password in
          let (r, session') := connect api session in
          let (_, session'') := close api session' in
          (match r with
           | Ok _ =>
               Returned {["title"%string := "Glowmarkt Integration"%string]}
           | Raise (ValueError args) => Raised (InvalidAuth (ValueError args))
           | Raise e => Raised (Uncaught e)
           end, Some session'')
      end
  end.

(** The flow handler of the platform, which [ConfigFlow] inherits: its
    state (the context of the flow and the entries already configured)
    and the two calls that may abort the flow, [Some reason] standing for
    [AbortFlow(reason)] raised by the call.
    [async_set_unique_id(unique_id)] aborts with "already_in_progress"
    when another flow has the unique id; [_abort_if_unique_id_configured()]
    aborts with "already_configured" when an entry has it. *)
Variable flow : Type.
Variable async_set_unique_id : option string -> flow -> option string * flow.
Variable _abort_if_unique_id_configured : flow -> option string * flow.

Definition async_step_user (instance : nat)
    (user_input : option (gmap string string)) (self_ : flow)
    : step_result * flow :=
  match user_input with
  | None => (Step_returns (show_form "user" None), self_)
  | Some user_input =>
      let errors : gmap string string := ∅ in
      let info : gmap string string := ∅ in
      let '(info, errors) :=
        match fst (validate_input instance user_input) with
        | Returned info' => (info', errors)
        | Raised (InvalidAuth _) =>
            (info, <["base"%string := "invalid_auth"%string]> errors)
        | Raised (Uncaught _) =>
            (info, <["base"%string := "unknown"%string]> errors)
        end in
      match errors !! "base"%string with
      | None =>
          match async_set_unique_id (info !! "title"%string) self_ with
          | (Some reason, self_) => (Step_aborts reason, self_)
          | (None, self_) =>
              match _abort_if_unique_id_configured self_ with
              | (Some reason, self_) => (Step_aborts reason, self_)
              | (None, self_) =>
                  match info !! "title"%string with
                  | Some title =>
                      (Step_returns (create_entry title user_input), self_)
                  | None => (Step_raises (KeyError "title"), self_)
                  end
              end
          end
      | Some _ => (Step_returns (show_form "user" (Some errors)), self_)
      end
  end.
End Auth.
Arguments async_step_user serve_auth {flow} async_set_unique_id
  _abort_if_unique_id_configured instance user_input self_.

(** ** api.py: [get_resources] *)

(** The objects under ["resources"] of a resources response. *)
Record resource_json : Type := {
  j_active : bool;
  j_res_resourceTypeId : string;
  j_ownerId : string;
  j_res_name : string;
  j_description : string;
  j_label : string;
  j_dataSourceResourceTypeInfo_unit : string;
  j_dataSourceResourceTypeInfo_type : string;
  j_dataSourceType : string;
  j_classifier : string;
  j_baseUnit : string;
  j_res_resourceId : string;
  j_updatedAt : string;
  j_createdAt : string;
  j_dataSourceUnitInfo : gmap string string }.

Definition Resource_of_json (r : resource_json) : Resource :=
  {| active := j_active r;
     resource_type_id := j_res_resourceTypeId r;
     owner_id := j_ownerId r;
     name := j_res_name r;
     description := j_description r;
     label := j_label r;
     data_source_resource_type_info :=
       {| ResourceTypeInfo.unit := j_dataSourceResourceTypeInfo_unit r;
          ResourceTypeInfo.type := j_dataSourceResourceTypeInfo_type r |};
     data_source_type := j_dataSourceType r;
     classifier := j_classifier r;
     base_unit := j_baseUnit r;
     resource_id := j_res_resourceId r;
     updated_at := j_updatedAt r;
     created_at := j_createdAt r;
     data_souce_unit_info := j_dataSourceUnitInfo r |}.

Module ConfigEntry.
Record t : Type := {
  entry_id : string;
  data : gmap string string }.
End ConfigEntry.

Module HomeAssistant.
(** What the integration touches of the platform object: the dict under
    [hass.data[DOMAIN]] ([None] while the key is absent), holding each
    client with its session; the network as the sensors see it; the ids
    asked of the resources endpoint (latest first); and how many clients
    have been built, which numbers the next one. *)
Record t : Type := {
  data : option (gmap string (GlowMarkt.t * Session.t));
  net : world;
  resource_requests : list string;
  objects : nat }.

Definition set_data (d : option (gmap string (GlowMarkt.t * Session.t)))
    (h : t) : t :=
  {| data := d; net := net h; resource_requests := resource_requests h;
     objects := objects h |}.

Definition set_net (w : world) (h : t) : t :=
  {| data := data h; net := w; resource_requests := resource_requests h;
     objects := objects h |}.

Definition ask_resources (entity_id : string) (h : t) : t :=
  {| data := data h; net := net h;
     resource_requests := entity_id :: resource_requests h;
     objects := objects h |}.

Definition count_object (h : t) : t :=
  {| data := data h; net := net h; resource_requests := resource_requests h;
     objects := S (objects h) |}.
End HomeAssistant.

(** A computation on the network, run inside the platform. *)
Definition in_net {A} (m : M world A) : M HomeAssistant.t A :=
  fun h =>
    let (r, w') := m (HomeAssistant.net h) in (r, HomeAssistant.set_net w' h).

(** The entities handed to [async_add_entities]. [Standing] and [Rate]
    are built on one coordinator object: they carry its position in the
    list of coordinators. *)
Inductive entity : Type :=
| E_usage (s : UsageSensor.t)
| E_standing (coordinator : nat) (s : Standing.t)
| E_rate (coordinator : nat) (s : Rate.t)
| E_cost (s : Cost.t).

(** The locals of [sensor.async_setup_entry]. *)
Record setup_state : Type := {
  entities : list entity;
  meters : gmap string string;
  coordinators : list TariffCoordinator.t }.

Definition setup_state0 : setup_state :=
  {| entities := []; meters := ∅; coordinators := [] |}.

(** The body of the first loop over the resources of a virtual entity. *)
Definition add_usage (api : GlowMarkt.t) (virtual_entity : VirtualEntity.t)
    (st : setup_state) (resource : Resource) : setup_state :=
  if String.eqb (classifier resource) "electricity.consumption"
     || String.eqb (classifier resource) "gas.consumption"
  then
    let coordinator := length (coordinators st) in
    {| entities :=
         entities st
         ++ [ E_usage (UsageSensor.__init__ resource virtual_entity api);
              E_standing coordinator (Standing.__init__ resource virtual_entity);
              E_rate coordinator (Rate.__init__ resource virtual_entity) ];
       meters := <[classifier resource := resource_id resource]> (meters st);
       coordinators :=
         coordinators st ++ [TariffCoordinator.__init__ api resource] |}
  else st.

Definition append_cost (api : GlowMarkt.t) (virtual_entity : VirtualEntity.t)
    (st : setup_state) (resource : Resource) (meter : string)
    : result setup_state :=
  match meters st !! meter with
  | None => Raise (KeyError meter)
  | Some meter_id =>
      Ok {| entities :=
              entities st
              ++ [E_cost (Cost.__init__ api resource virtual_entity meter_id)];
            meters := meters st;
            coordinators := coordinators st |}
  end.

(** The body of the second loop. *)
Definition add_cost (api : GlowMarkt.t) (virtual_entity : VirtualEntity.t)
    (st : setup_state) (resource : Resource) : result setup_state :=
  if String.eqb (classifier resource) "gas.consumption.cost"
  then append_cost api virtual_entity st resource "gas.consumption"
  else if String.eqb (classifier resource) "electricity.consumption.cost"
  then append_cost api virtual_entity st resource "electricity.consumption"
  else Ok st.

Fixpoint add_costs (api : GlowMarkt.t) (virtual_entity : VirtualEntity.t)
    (resources : list Resource) (st : setup_state) : result setup_state :=
  match resources with
  | [] => Ok st
  | resource :: rest =>
      match add_cost api virtual_entity st resource with
      | Ok st' => add_costs api virtual_entity rest st'
      | Raise e => Raise e
      end
  end.

(** Both loops over the resources of one virtual entity. *)
Definition add_virtual_entity (api : GlowMarkt.t)
    (virtual_entity : VirtualEntity.t) (resources : list Resource)
    (st : setup_state) : result setup_state :=
  add_costs api virtual_entity resources
            (fold_left (add_usage api virtual_entity) resources st).

Section Setup.
Variable env : environment.
Variable serve_auth : list (string * string) -> http_reply (gmap string string).
(** The resources endpoint: its answer to the ids asked so far, the
    current one first. *)
Variable serve_resources : list string -> http_reply (list resource_json).
(** [DOMAIN] of const.py. *)
Variable DOMAIN : string.

Definition get_resources (self_ : GlowMarkt.t) (entity_id : string)
    : M HomeAssistant.t (list Resource) :=
  let* _ := modify (HomeAssistant.ask_resources entity_id) in
  let* h := get_state in
  match serve_resources (HomeAssistant.resource_requests h) with
  | Failed => raise ClientError
  | Response status responseJson =>
      if negb (status =? 200)
      then raise (ValueError ["Failed to retrieve virtual entities"%string])
      else ret (map Resource_of_json responseJson)
  end.

(** [hass.data[DOMAIN][entry_id]] *)
Definition stored_api (entry_id : string)
    : M HomeAssistant.t (GlowMarkt.t * Session.t) :=
  let* h := get_state in
  match HomeAssistant.data h with
  | None => raise (KeyError DOMAIN)
  | Some d =>
      match d !! entry_id with
      | None => raise (KeyError entry_id)
      | Some api => ret api
      end
  end.

(** A method of the client stored under [entry_id], run on its session:
    the session in [hass.data] is the one that changes. *)
Definition on_session {A} (entry_id : string) (api : GlowMarkt.t)
    (session : Session.t) (m : M Session.t A) : M HomeAssistant.t A :=
  fun h =>
    let (r, session') := m session in
    (r, HomeAssistant.set_data
          (option_map (insert entry_id (api, session')) (HomeAssistant.data h))
          h).

Fixpoint setup_virtual_entities (api : GlowMarkt.t)
    (virtual_entities : list VirtualEntity.t) (st : setup_state)
    : M HomeAssistant.t setup_state :=
  match virtual_entities with
  | [] => ret st
  | virtual_entity :: rest =>
      let* resources := get_resources api (VirtualEntity.id virtual_entity) in
      let* st' := lift_result (add_virtual_entity api virtual_entity resources st) in
      setup_virtual_entities api rest st'
  end.

(** [sensor.async_setup_entry]: the entities it hands to
    [async_add_entities]. *)
Definition sensor_async_setup_entry (entry : ConfigEntry.t)
    : M HomeAssistant.t (list entity) :=
  let* (api, session) := stored_api (ConfigEntry.entry_id entry) in
  let* _ := on_session (ConfigEntry.entry_id entry) api session
                       (connect serve_auth api) in
  let* virtual_entities := in_net (GlowMarkt.get_virtual_entites env api) in
  let* st := setup_virtual_entities api virtual_entities setup_state0 in
  ret (entities st).

(** ** __init__.py *)

(** [forward] stands for
    [hass.config_entries.async_forward_entry_setups(entry, PLATFORMS)],
    [unload_platforms] for
    [hass.config_entries.async_unload_platforms(entry, PLATFORMS)]. *)
Variable forward : ConfigEntry.t -> M HomeAssistant.t unit.
Variable unload_platforms : ConfigEntry.t -> M HomeAssistant.t bool.

Definition entry_value (entry : ConfigEntry.t) (key : string)
    : M HomeAssistant.t string :=
  match ConfigEntry.data entry !! key with
  | Some v => ret v
  | None => raise (KeyError key)
  end.

Definition async_setup_entry (entry : ConfigEntry.t) : M HomeAssistant.t bool :=
  let* _ := modify (fun h =>
              HomeAssistant.set_data
                (Some (default ∅ (HomeAssistant.data h))) h) in
  let* username := entry_value entry "username" in
  let* password := entry_value entry "password" in
  let* h := get_state in
  let api := GlowMarkt__init__ (HomeAssistant.objects h) username password in
  let* _ := modify HomeAssistant.count_object in
  let* _ := modify (fun h =>
              HomeAssistant.set_data
                (option_map (insert (ConfigEntry.entry_id entry) api)
                            (HomeAssistant.data h)) h) in
  let* _ := forward entry in
  ret true.

Definition async_unload_entry (entry : ConfigEntry.t) : M HomeAssistant.t bool :=
  let* unload_ok := unload_platforms entry in
  if unload_ok
  then
    let* _ := stored_api (ConfigEntry.entry_id entry) in
    let* _ := modify (fun h =>
                HomeAssistant.set_data
                  (option_map (delete (ConfigEntry.entry_id entry))
                              (HomeAssistant.data h)) h) in
    ret unload_ok
  else ret unload_ok.
End Setup.

(** ** sensor.py: [device_info] and [icon] *)

Record DeviceInfo : Type := {
  identifiers : list (string * string);
  manufacturer : string;
  model : string;
  device : string }.

Section Devices.
(** [DOMAIN] of const.py. *)
Variable DOMAIN : string.

(** [DeviceInfo(identifiers={(DOMAIN, id)}, manufacturer="Hildebrand",
    model="Glow (DCC)", name=device_name(resource, virtual_entity))] *)
Definition device_info_of (id : string) (resource : Resource)
    (virtual_entity : VirtualEntity.t) : result DeviceInfo :=
  match device_name resource virtual_entity with
  | Ok name =>
      Ok {| identifiers := [(DOMAIN, id)];
            manufacturer := "Hildebrand";
            model := "Glow (DCC)";
            device := name |}
  | Raise e => Raise e
  end.

Definition UsageSensor_device_info (s : UsageSensor.t) : result DeviceInfo :=
  device_info_of (resource_id (UsageSensor.resource s))
                 (UsageSensor.resource s) (UsageSensor.virtual_entity s).

(** The identifier comes from the meter, not from the cost resource. *)
Definition Cost_device_info (s : Cost.t) : result DeviceInfo :=
  device_info_of (Cost.meter_id s) (Cost.resource s) (Cost.virtual_entity s).

Definition Rate_device_info (s : Rate.t) : result DeviceInfo :=
  device_info_of (resource_id (Rate.resource s))
                 (Rate.resource s) (Rate.virtual_entity s).

Definition Standing_device_info (s : Standing.t) : result DeviceInfo :=
  device_info_of (resource_id (Standing.resource s))
                 (Standing.resource s) (Standing.virtual_entity s).

(** The device of any entity. *)
Definition entity_device_info (e : entity) : result DeviceInfo :=
  match e with
  | E_usage s => UsageSensor_device_info s
  | E_standing _ s => Standing_device_info s
  | E_rate _ s => Rate_device_info s
  | E_cost s => Cost_device_info s
  end.
End Devices.

Definition UsageSensor_icon (s : UsageSensor.t) : option string :=
  if String.eqb (classifier (UsageSensor.resource s)) "gas.consumption"
  then Some "mdi.fire"%string
  else None.
(** ** Sample inputs

    Concrete resources, clocks and servers on which the model is run. *)

Definition sample_resource (c : string) : Resource :=
  {| active := true;
     resource_type_id := "type-1";
     owner_id := "owner-1";
     name := "meter";
     description := "";
     label := "";
     data_source_resource_type_info :=
       {| ResourceTypeInfo.unit := "kWh"; ResourceTypeInfo.type := "ELEC" |};
     data_source_type := "DCC";
     classifier := c;
     base_unit := "kWh";
     resource_id := "res-1";
     updated_at := "";
     created_at := "";
     data_souce_unit_info := ∅ |}.

Definition sample_api : GlowMarkt.t :=
  {| GlowMarkt.instance := 7%nat;
     GlowMarkt.username := "user";
     GlowMarkt.password := "secret" |}.

Definition sample_ve : VirtualEntity.t :=
  {| VirtualEntity.resources := [];
     VirtualEntity.name := "Home";
     VirtualEntity.id := "ve-1" |}.

(** 2024-03-01 at 00:30:15.5, 02:00:00 and 10:15:42. *)
Definition at_0030 : datetime.t := datetime.mk 2024 3 1 0 30 15 500000.
Definition at_0200 : datetime.t := datetime.mk 2024 3 1 2 0 0 0.
Definition at_1015 : datetime.t := datetime.mk 2024 3 1 10 15 42 0.
Definition at_1033 : datetime.t := datetime.mk 2024 3 1 10 33 7 0.

(** An environment whose clock stands still at [now] and whose server
    answers every readings request with [readings] and every tariff
    request with [tariff]. *)
Definition sample_env (now : datetime.t)
    (readings : http_reply (list (Z * float)))
    (tariff : http_reply (list tariff_json)) : environment :=
  {| clock := fun _ => now;
     fromtimestamp := fun _ => Ok (datetime.mk 2024 3 1 0 0 0 0);
     round := fun x _ => x;
     serve_virtualentity := fun _ =>
       Response 200
         [ {| j_resources :=
                [ {| j_resourceId := "res-1"; j_resourceTypeId := "type-1";
                     j_r_name := "meter" |} ];
              j_name := "Home"; j_veId := "ve-1" |} ];
     serve_catchup := fun _ => Response 200 tt;
     serve_readings := fun _ => readings;
     serve_tariff := fun _ => tariff |}.

Definition sample_tariff : list tariff_json :=
  [ {| j_currentRates := {| j_rate := 1550; j_standingCharge := 4500 |} |} ].

(** A usage sensor before its first successful update, and one in steady
    state showing 3.25 kWh since midnight of 2024-03-01. *)
Definition fresh_sensor : UsageSensor.t :=
  UsageSensor.__init__ (sample_resource "electricity.consumption")
                       sample_ve sample_api.

Definition steady_sensor : UsageSensor.t :=
  {| UsageSensor._attr_last_reset := Some (datetime.mk 2024 3 1 0 0 0 0);
     UsageSensor._attr_native_value := Some 3.25%float;
     UsageSensor._attr_unique_id := "res-1";
     UsageSensor.api := sample_api;
     UsageSensor.initalised := true;
     UsageSensor.resource := sample_resource "electricity.consumption";
     UsageSensor.virtual_entity := sample_ve |}.

(** Servers for the readings endpoint: two entries, none, and a refusal. *)
Definition two_readings : http_reply (list (Z * float)) :=
  Response 200 [(1709251200, 1.5%float); (1709254800, 2.25%float)].

Definition no_readings : http_reply (list (Z * float)) := Response 200 [].

Definition readings_refused : http_reply (list (Z * float)) := Response 500 [].

Definition midnight_0301 : datetime.t := datetime.mk 2024 3 1 0 0 0 0.

Definition sample_coordinator : TariffCoordinator.t :=
  TariffCoordinator.__init__ sample_api
    (sample_resource "electricity.consumption").

Definition sample_rate : Rate.t :=
  {| Rate._attr_native_value := Some 15.5%float;
     Rate._attr_unique_id := "res-1-rate";
     Rate.resource := sample_resource "electricity.consumption";
     Rate.virtual_entity := sample_ve;
     Rate.ha_states := [Some 15.5%float] |}.

(** A day without consumption so far, and a day reported in three
    parts. *)
Definition zero_reading : http_reply (list (Z * float)) :=
  Response 200 [(1709251200, 0%float)].

Definition three_readings : http_reply (list (Z * float)) :=
  Response 200 [(1709251200, 1.5%float); (1709254800, 2.25%float);
                (1709258400, 4%float)].

Definition other_api : GlowMarkt.t :=
  {| GlowMarkt.instance := 8%nat;
     GlowMarkt.username := "other";
     GlowMarkt.password := "secret" |}.

Definition sample_standing : Standing.t :=
  Standing.__init__ (sample_resource "electricity.consumption") sample_ve.

Definition fresh_cost : Cost.t :=
  Cost.__init__ sample_api (sample_resource "electricity.consumption.cost")
                sample_ve "res-1".

Definition pence_reading : http_reply (list (Z * float)) :=
  Response 200 [(1709251200, 150%float)].

Definition sample_credentials : gmap string string :=
  <["username"%string := "user"%string]>
    (<["password"%string := "secret"%string]> ∅).

(** An authentication endpoint that knows one account. *)
Definition sample_auth (posted : list (string * string))
    : http_reply (gmap string string) :=
  match posted with
  | (u, p) :: _ =>
      if String.eqb u "user" && String.eqb p "secret"
      then Response 200 {["token"%string := "jwt-1"%string]}
      else Response 401 ∅
  | [] => Failed
  end.

(** The resources of a home with an electricity meter: the cost stream
    listed before the consumption stream. *)
Definition home_resources : list Resource :=
  [ sample_resource "electricity.consumption.cost";
    sample_resource "electricity.consumption" ].

Definition sample_entry : ConfigEntry.t :=
  {| ConfigEntry.entry_id := "entry-1";
     ConfigEntry.data := sample_credentials |}.

Definition hass0 : HomeAssistant.t :=
  {| HomeAssistant.data := None;
     HomeAssistant.net := world0;
     HomeAssistant.resource_requests := [];
     HomeAssistant.objects := 0%nat |}.

(** A platform holding one client whose account the server does not
    know. *)
Definition hass_stranger : HomeAssistant.t :=
  {| HomeAssistant.data :=
       Some {["entry-1"%string := GlowMarkt__init__ 0 "nobody" "guess"]};
     HomeAssistant.net := world0;
     HomeAssistant.resource_requests := [];
     HomeAssistant.objects := 1%nat |}.

(** A clock whose first read shows [first] and whose later reads show
    [second]; one reading of 1.5 is served. *)
Definition two_reads_env (first second : datetime.t) : environment :=
  {| clock := fun k => match k with O => first | _ => second end;
     fromtimestamp := fun _ => Ok (datetime.mk 2024 3 1 0 0 0 0);
     round := fun x _ => x;
     serve_virtualentity := fun _ => Failed;
     serve_catchup := fun _ => Response 200 tt;
     serve_readings := fun _ => Response 200 [(1709251200, 1.5%float)];
     serve_tariff := fun _ => Failed |}.

(** Midnight passes between the reads: 23:59:59.999999 on 2024-03-01,
    then 00:00:00.000001 on 2024-03-02. *)
Definition midnight_env : environment :=
  two_reads_env (datetime.mk 2024 3 1 23 59 59 999999)
                (datetime.mk 2024 3 2 0 0 0 1).

(** 01:05 passes between the reads: 01:04:59.999999, then 01:06:30, both
    on 2024-03-02. *)
Definition straddle_env : environment :=
  two_reads_env (datetime.mk 2024 3 2 1 4 59 999999)
                (datetime.mk 2024 3 2 1 6 30 0).

(** 128 further clients, instances 100 to 227. *)
Definition other_clients : list GlowMarkt.t :=
  map (fun i => {| GlowMarkt.instance := i;
                   GlowMarkt.username := "other";
                   GlowMarkt.password := "secret" |})
      (seq 100 128).

(** A server that refuses the discovery. *)
Definition discovery_refused : environment :=
  {| clock := fun _ => at_1015;
     fromtimestamp := fun _ => Ok midnight_0301;
     round := fun x _ => x;
     serve_virtualentity := fun _ => Response 503 [];
     serve_catchup := fun _ => Response 200 tt;
     serve_readings := fun _ => Failed;
     serve_tariff := fun _ => Failed |}.

(** A flow handler that keeps the unique id of the flow and the unique
    ids of the entries configured, and aborts on one of those. *)
Record sample_flow : Type := {
  flow_unique_id : option string;
  configured : list string
}.

Definition sample_set_unique_id (unique_id : option string) (f : sample_flow)
    : option string * sample_flow :=
  (None, {| flow_unique_id := unique_id; configured := configured f |}).

Definition sample_abort_if_configured (f : sample_flow)
    : option string * sample_flow :=
  match flow_unique_id f with
  | Some u =>
      if existsb (String.eqb u) (configured f)
      then (Some "already_configured"%string, f)
      else (None, f)
  | None => (None, f)
  end.

(** A second account, and a server that knows every account whose
    password is "secret". *)
Definition second_credentials : gmap string string :=
  <["username"%string := "second"%string]>
    (<["password"%string := "secret"%string]> ∅).

Definition two_accounts (posted : list (string * string))
    : http_reply (gmap string string) :=
  match posted with
  | (_, p) :: _ =>
      if String.eqb p "secret"
      then Response 200 {["token"%string := "jwt-1"%string]}
      else Response 401 ∅
  | [] => Failed
  end.

(** ** Vocabulary of the properties

    Names for what the statements below talk about: the worlds reached by
    a clock read or a request, the pure reading of a response body, and
    the outcome of a refresh. *)

Section Vocabulary.
Variable env : environment.

(** A clock read returns the scheduled instant and counts the call. *)
Definition tick (w : world) : world :=
  {| now_calls := S (now_calls w); requests := requests w; lru := lru w |}.

Definition sent (r : request) (w : world) : world :=
  {| now_calls := now_calls w; requests := r :: requests w; lru := lru w |}.

Definition in_update_window (minutes : Z) : bool :=
  bool_decide (1 <= minutes <= 5 \/ 31 <= minutes <= 35).

(** The readings of a response body, as [get_reading] builds them. *)
Fixpoint decode_readings (json_data : list (Z * float))
    : result (list ReadingData) :=
  match json_data with
  | [] => Ok []
  | (epoch, v) :: rest =>
      match fromtimestamp env epoch with
      | Raise e => Raise e
      | Ok timestamp =>
          match decode_readings rest with
          | Raise e => Raise e
          | Ok l => Ok ({| datestamp := timestamp; value := v |} :: l)
          end
      end
  end.

(** What [daily_data] makes of the list of readings. *)
Definition summed (l : list ReadingData) : result float :=
  match l with
  | [] => Raise IndexError
  | [e0] => Ok (value e0)
  | e0 :: e1 :: _ => Ok (value e0 + value e1)%float
  end.

(** The call of [daily_data] inside [async_update], and what the sensor
    does with its result. *)
Definition store_result (first : bool) (s : UsageSensor.t)
    (r : result (float * datetime.t)) : result unit * UsageSensor.t :=
  match r with
  | Raise e => (Raise e, s)
  | Ok (v, t_from) =>
      if truthy v
      then
        let s1 := UsageSensor.set_native_value (round env v 2) s in
        let s2 := UsageSensor.set_last_reset t_from s1 in
        (Ok tt, if first then UsageSensor.set_initalised true s2 else s2)
      else (Ok tt, s)
  end.

(** The world in which [async_update] calls [daily_data]: at once when
    the sensor is not initialised, after the gate has read the clock
    otherwise. *)
Definition call_world (s : UsageSensor.t) (w : world) : world :=
  if UsageSensor.initalised s then tick w else w.

(** The sensor calls [daily_data] on this tick. *)
Definition polls (s : UsageSensor.t) (w : world) : Prop :=
  UsageSensor.initalised s = false \/ fst (should_update env w) = Ok true.

(** The request for readings that [daily_data] sends for a window. *)
Definition readings_call (api : GlowMarkt.t) (resource : Resource)
    (w : world) (t_from t_to : datetime.t) : result Reading :=
  fst (GlowMarkt.get_reading env api (resource_id resource) t_from t_to P1D
         (sent (GET_catchup (resource_id resource)) (tick (tick w)))).

Definition catchup_answered (resource : Resource) (w : world) : Prop :=
  serve_catchup env (GET_catchup (resource_id resource) :: requests w)
  <> Failed.

Definition rates_of (d : tariff_json) : TariffRates :=
  {| rate := j_rate (j_currentRates d);
     standing_charge := j_standingCharge (j_currentRates d) |}.

Definition both_initalised (s : TariffCoordinator.t) : TariffCoordinator.t :=
  TariffCoordinator.set_standing_initalised true
    (TariffCoordinator.set_rate_initalised true s).

(** [n] further refreshes, whatever their outcome. *)
Fixpoint refreshes (n : nat) (sw : TariffCoordinator.t * world)
    : TariffCoordinator.t * world :=
  match n with
  | O => sw
  | S k => refreshes k (snd (TariffCoordinator._async_update_data env sw))
  end.

Definition initalised (s : TariffCoordinator.t) : Prop :=
  TariffCoordinator.rate_initalised s = true
  /\ TariffCoordinator.standing_initalised s = true.

(** The entities of a response body, as [get_virtual_entites] builds
    them. *)
Definition entities_of (json : list virtualentity_json) : list VirtualEntity.t :=
  map (fun ve =>
         {| VirtualEntity.resources :=
              map (fun r =>
                     {| ResourceOverview.resource_id := j_resourceId r;
                        ResourceOverview.resource_type_id := j_resourceTypeId r;
                        ResourceOverview.name := j_r_name r |})
                  (j_resources ve);
            VirtualEntity.name := j_name ve;
            VirtualEntity.id := j_veId ve |})
      json.

End Vocabulary.

(** ** Runs of several ticks *)

Section Runs.
Variable env : environment.

(** [n] calls of [UsageSensor.async_update], whatever their outcome. *)
Fixpoint updates (n : nat) (sw : UsageSensor.t * world)
    : UsageSensor.t * world :=
  match n with
  | O => sw
  | S k => updates k (snd (UsageSensor.async_update env sw))
  end.

(** The world after a call of [get_virtual_entites] by each of the
    clients in [apis], in order. *)
Fixpoint calls_by (apis : list GlowMarkt.t) (w : world) : world :=
  match apis with
  | [] => w
  | api :: rest =>
      calls_by rest (snd (GlowMarkt.get_virtual_entites env api w))
  end.

(** How many of the calls in [apis] are made by a client other than
    [api]. *)
Fixpoint calls_of_others (api : GlowMarkt.t) (apis : list GlowMarkt.t) : nat :=
  match apis with
  | [] => 0
  | a :: rest =>
      if Nat.eqb (GlowMarkt.instance a) (GlowMarkt.instance api)
      then calls_of_others api rest
      else S (calls_of_others api rest)
  end.
End Runs.

Section CostVocabulary.
Variable env : environment.

(** What the cost sensor does with the result of [daily_data]. *)
Definition store_cost (first : bool) (s : Cost.t)
    (r : result (float * datetime.t)) : result unit * Cost.t :=
  match r with
  | Raise e => (Raise e, s)
  | Ok (v, _) =>
      if truthy v
      then
        let s1 := Cost.set_native_value (round env (v / 100)%float 2) s in
        (Ok tt, if first then Cost.set_initialised true s1 else s1)
      else (Ok tt, s)
  end.
End CostVocabulary.

(** ** Kinds of resources *)

(** The resources that get a usage sensor. *)
Definition is_usage (r : Resource) : bool :=
  String.eqb (classifier r) "electricity.consumption"
  || String.eqb (classifier r) "gas.consumption".

(** The classifier of the meter a cost resource is attached to. *)
Definition cost_meter (r : Resource) : option string :=
  if String.eqb (classifier r) "gas.consumption.cost"
  then Some "gas.consumption"%string
  else if String.eqb (classifier r) "electricity.consumption.cost"
  then Some "electricity.consumption"%string
  else None.


Definition count_cost (resources : list Resource) : nat :=
  length (List.filter (fun r => bool_decide (is_Some (cost_meter r))) resources).

(** An entity as the setup builds them: a usage, standing or rate
    entity on a consumption resource, a cost entity on a cost resource. *)
Definition well_built (e : entity) : Prop :=
  match e with
  | E_usage s => is_usage (UsageSensor.resource s) = true
  | E_standing _ s => is_usage (Standing.resource s) = true
  | E_rate _ s => is_usage (Rate.resource s) = true
  | E_cost s => is_Some (cost_meter (Cost.resource s))
  end.

(** The platform as [async_setup_entry] hands it to the forwarding: the
    new client stored under the entry id, beside the clients of the
    other entries. *)
Definition with_client (entry : ConfigEntry.t) (u p : string)
    (h : HomeAssistant.t) : HomeAssistant.t :=
  {| HomeAssistant.data :=
       Some (<[ConfigEntry.entry_id entry :=
                 GlowMarkt__init__ (HomeAssistant.objects h) u p]>
               (default ∅ (HomeAssistant.data h)));
     HomeAssistant.net := HomeAssistant.net h;
     HomeAssistant.resource_requests := HomeAssistant.resource_requests h;
     HomeAssistant.objects := S (HomeAssistant.objects h) |}.


(** [h'] holds the clients of [h] under the same ids; only the session
    of the client stored under [id] may differ. *)
Definition same_clients (id : string) (h h' : HomeAssistant.t) : Prop :=
  match HomeAssistant.data h, HomeAssistant.data h' with
  | Some d, Some d' =>
      (forall other, other <> id -> d' !! other = d !! other)
      /\ fst <$> d' !! id = fst <$> d !! id
  | None, None => True
  | _, _ => False
  end.

(** The forwarding when the sensor platform is the one to set up: it
    runs [sensor.async_setup_entry]. *)
Definition forward_to_sensor (env : environment)
    (serve_auth : list (string * string) -> http_reply (gmap string string))
    (serve_resources : list string -> http_reply (list resource_json))
    (DOMAIN : string) (entry : ConfigEntry.t) : M HomeAssistant.t unit :=
  let* _ := sensor_async_setup_entry env serve_auth serve_resources DOMAIN
                                     entry in
  ret tt.
(** * Properties *)

(** ** Dates and times *)

Lemma time_le_since_midnight (a b : time.t) :
  time.valid a -> time.valid b ->
  time.le a b = true <-> time.since_midnight a <= time.since_midnight b.
Proof.
  destruct a as [h1 m1 s1 u1], b as [h2 m2 s2 u2].
  unfold time.valid, time.le, time.since_midnight; simpl.
  intros Ha Hb.
  repeat (rewrite orb_true_iff || rewrite andb_true_iff).
  rewrite !Z.ltb_lt, !Z.eqb_eq, Z.leb_le.
  lia.
Qed.

Lemma days_before_year_succ (y : Z) :
  date.days_before_year (y + 1)
  = date.days_before_year y + 365 + (if date.is_leap y then 1 else 0).
Proof.
  unfold date.days_before_year, date.is_leap.
  replace (y + 1 - 1) with y by lia.
  destruct (y mod 4 =? 0) eqn:E4, (y mod 100 =? 0) eqn:E100,
           (y mod 400 =? 0) eqn:E400; simpl;
    rewrite ?Z.eqb_eq, ?Z.eqb_neq in *; Z.div_mod_to_equations; lia.
Qed.

Lemma toordinal_pred (d : date.t) :
  date.valid d -> 1 < date.toordinal d ->
  date.toordinal (date.pred d) = date.toordinal d - 1
  /\ date.valid (date.pred d).
Proof.
  destruct d as [y m dd].
  unfold date.valid, date.toordinal, date.pred; simpl.
  intros (Hy & Hm & Hd) Hord.
  destruct (1 <? dd) eqn:Ed.
  - apply Z.ltb_lt in Ed. simpl. split; [lia|]. lia.
  - apply Z.ltb_ge in Ed. assert (dd = 1) by lia. subst dd.
    destruct (1 <? m) eqn:Em; simpl.
    + apply Z.ltb_lt in Em.
      assert (Hcases : m = 2 \/ m = 3 \/ m = 4 \/ m = 5 \/ m = 6 \/ m = 7
                       \/ m = 8 \/ m = 9 \/ m = 10 \/ m = 11 \/ m = 12) by lia.
      unfold date.days_before_month, date.days_in_month.
      destruct Hcases as [->|[->|[->|[->|[->|[->|[->|[->|[->|[->| ->]]]]]]]]]];
        simpl; destruct (date.is_leap y); simpl; lia.
    + apply Z.ltb_ge in Em. assert (m = 1) by lia. subst m.
      assert (y <> 1).
      { intros ->. vm_compute in Hord. discriminate. }
      pose proof (days_before_year_succ (y - 1)) as Hs.
      replace (y - 1 + 1) with y in Hs by lia.
      unfold date.days_before_month, date.days_in_month. simpl.
      revert Hs. destruct (date.is_leap (y - 1)); simpl; lia.
Qed.

(** ** Running a computation *)

Lemma bind_ok {S A B} (m : M S A) (k : A -> M S B) s a s' :
  m s = (Ok a, s') -> bind m k s = k a s'.
Proof. intros E. unfold bind. now rewrite E. Qed.

Lemma bind_raise {S A B} (m : M S A) (k : A -> M S B) s e s' :
  m s = (Raise e, s') -> bind m k s = (Raise e, s').
Proof. intros E. unfold bind. now rewrite E. Qed.

Lemma in_world_run {O W A} (m : M W A) (o : O) (w : W) :
  in_world m (o, w) = (fst (m w), (o, snd (m w))).
Proof. unfold in_world. simpl. now destruct (m w). Qed.

Lemma datetime_now_run env w :
  datetime_now env w = (Ok (clock env (now_calls w)), tick w).
Proof. reflexivity. Qed.

(** ** The update gate *)

Section Gate.
Variable env : environment.

Lemma should_update_run (w : world) :
  should_update env w
  = (Ok (in_update_window (datetime.minute (clock env (now_calls w)))), tick w).
Proof.
  unfold should_update, in_update_window.
  rewrite (bind_ok _ _ _ _ _ (datetime_now_run env w)).
  set (minutes := datetime.minute (clock env (now_calls w))).
  destruct (bool_decide_reflect (1 <= minutes <= 5 \/ 31 <= minutes <= 35))
    as [H | H].
  - replace ((1 <=? minutes) && (minutes <=? 5)
             || (31 <=? minutes) && (minutes <=? 35)) with true; [easy|].
    symmetry. apply orb_true_iff. rewrite !andb_true_iff, !Z.leb_le. lia.
  - replace ((1 <=? minutes) && (minutes <=? 5)
             || (31 <=? minutes) && (minutes <=? 35)) with false; [easy|].
    symmetry. apply orb_false_iff. rewrite !andb_false_iff, !Z.leb_gt. lia.
Qed.

(** C4. [should_update] depends on the minute of the hour read from the
    clock and on nothing else: it answers [True] exactly when that minute
    lies in [1,5] or in [31,35], bounds included; so it is due at minutes
    1, 3, 5, 31, 33, 35 and not due at 0, 6, 15, 30, 36. It sends no
    request. *)
Theorem should_update_minute_window (w : world) :
  let minutes := datetime.minute (clock env (now_calls w)) in
  should_update env w
  = (Ok (bool_decide (1 <= minutes <= 5 \/ 31 <= minutes <= 35)), tick w)
  /\ (In minutes [1; 3; 5; 31; 33; 35] -> fst (should_update env w) = Ok true)
  /\ (In minutes [0; 6; 15; 30; 36] -> fst (should_update env w) = Ok false).
Proof.
  intros minutes.
  pose proof (should_update_run w) as E.
  unfold in_update_window in E. fold minutes in E.
  rewrite E. simpl. split; [reflexivity|]. split; intros Hin; f_equal.
  - apply bool_decide_eq_true. simpl in Hin. lia.
  - apply bool_decide_eq_false. simpl in Hin. lia.
Qed.
End Gate.

(** ** The daily usage calculator: its window *)

Section DailyWindow.
Variable env : environment.

Lemma effective_now_early (w : world) :
  time.le (datetime.time (clock env (now_calls w))) (time.mk 1 5 0 0) = true ->
  effective_now env w
  = (datetime.sub_one_day (clock env (S (now_calls w))), tick (tick w)).
Proof.
  intros E. unfold effective_now.
  rewrite (bind_ok _ _ _ _ _ (datetime_now_run env w)), E.
  now rewrite (bind_ok _ _ _ _ _ (datetime_now_run env (tick w))).
Qed.

Lemma effective_now_late (w : world) :
  time.le (datetime.time (clock env (now_calls w))) (time.mk 1 5 0 0) = false ->
  effective_now env w = (Ok (clock env (S (now_calls w))), tick (tick w)).
Proof.
  intros E. unfold effective_now.
  now rewrite (bind_ok _ _ _ _ _ (datetime_now_run env w)), E.
Qed.

End DailyWindow.

(** At 00:30 on 2024-03-01 the window is 2024-02-29 00:00 to 00:30. *)
Example daily_window_at_0030 :
  fst (daily_window (sample_env at_0030 Failed Failed) world0)
  = Ok (datetime.mk 2024 2 29 0 0 0 0, datetime.mk 2024 2 29 0 30 0 0).
Proof. reflexivity. Qed.

(** At 02:00 the window starts on the same day. *)
Example daily_window_at_0200 :
  fst (daily_window (sample_env at_0200 Failed Failed) world0)
  = Ok (datetime.mk 2024 3 1 0 0 0 0, datetime.mk 2024 3 1 2 0 0 0).
Proof. reflexivity. Qed.

(** One second past 01:05 is already "after 01:05". *)
Example daily_window_at_010501 :
  fst (daily_window
         (sample_env (datetime.mk 2024 3 1 1 5 1 0) Failed Failed) world0)
  = Ok (datetime.mk 2024 3 1 0 0 0 0, datetime.mk 2024 3 1 1 5 0 0).
Proof. reflexivity. Qed.

(** ** The daily usage calculator: its result *)

Section DailyData.
Variable env : environment.

Lemma map_m_decode_readings (json_data : list (Z * float)) (w : world) :
  map_m (fun '(epoch, v) =>
           let* timestamp := lift_result (fromtimestamp env epoch) in
           ret {| datestamp := timestamp; value := v |})
        json_data w
  = (decode_readings env json_data, w).
Proof.
  induction json_data as [|[epoch v] rest IH]; simpl; [reflexivity|].
  unfold bind, lift_result, ret in *.
  destruct (fromtimestamp env epoch) as [timestamp|e]; [|reflexivity].
  rewrite IH.
  destruct (decode_readings env rest); reflexivity.
Qed.

Lemma decode_readings_values (json_data : list (Z * float)) l :
  decode_readings env json_data = Ok l -> map value l = map snd json_data.
Proof.
  revert l. induction json_data as [|[epoch v] rest IH]; simpl; intros l E.
  - now inversion E.
  - destruct (fromtimestamp env epoch); [|discriminate].
    destruct (decode_readings env rest) as [l'|]; [|discriminate].
    inversion E; subst; simpl. f_equal. now apply IH.
Qed.

Lemma session_get_run {B} (serve : list request -> http_reply B) r w :
  session_get serve r w
  = (match serve (r :: requests w) with
     | Failed => Raise ClientError
     | Response status json => Ok (status, json)
     end, sent r w).
Proof. unfold session_get. now destruct (serve (r :: requests w)). Qed.

(** [get_reading], by the server's answer. *)
Lemma get_reading_run api rid t_from t_to p w :
  GlowMarkt.get_reading env api rid t_from t_to p w
  = (match serve_readings env (GET_readings rid t_from t_to p :: requests w) with
     | Failed => Raise ClientError
     | Response status json_data =>
         if status =? 200
         then match decode_readings env json_data with
              | Ok l => Ok {| data := l |}
              | Raise e => Raise e
              end
         else Raise (ValueError ["Failed to retrieve readings"%string])
     end, sent (GET_readings rid t_from t_to p) w).
Proof.
  unfold GlowMarkt.get_reading, bind at 1. rewrite session_get_run.
  destruct (serve_readings env _) as [|status json_data]; [reflexivity|].
  destruct (status =? 200); simpl; [|reflexivity].
  unfold bind. rewrite map_m_decode_readings.
  now destruct (decode_readings env json_data).
Qed.

(** [daily_data] once its window is known: the catch-up request is sent,
    then the readings request for the window with period [P1D]; the
    value is that of the first reading plus, if there is one, that of the
    second. *)
Lemma daily_data_run api resource w t_from t_to w1 :
  daily_window env w = (Ok (t_from, t_to), w1) ->
  let rid := resource_id resource in
  let w2 := sent (GET_catchup rid) w1 in
  let w3 := sent (GET_readings rid t_from t_to P1D) w2 in
  daily_data env api resource w
  = match serve_catchup env (requests w2) with
    | Failed => (Raise ClientError, w2)
    | Response _ _ =>
        (match fst (GlowMarkt.get_reading env api rid t_from t_to P1D w2) with
         | Raise e => Raise e
         | Ok reading =>
             match summed (data reading) with
             | Ok v => Ok (v, t_from)
             | Raise e => Raise e
             end
         end, w3)
    end.
Proof.
  intros Ew rid w2 w3. unfold daily_data, bind at 1. rewrite Ew.
  unfold bind at 1. unfold GlowMarkt.catchup, bind at 1.
  rewrite session_get_run. fold rid. fold w2.
  change (requests w2) with (GET_catchup rid :: requests w1).
  destruct (serve_catchup env _) as [|st u]; [reflexivity|].
  unfold ret at 1. unfold bind at 1.
  rewrite get_reading_run. simpl fst. fold w3.
  destruct (serve_readings env _) as [|status json_data]; [reflexivity|].
  destruct (status =? 200); [|reflexivity].
  destruct (decode_readings env json_data) as [l|e]; [|reflexivity].
  simpl data. destruct l as [|e0 [|e1 l]]; reflexivity.
Qed.
End DailyData.

Section UsageSensorUpdate.
Variable env : environment.

Lemma effective_now_world (w : world) :
  snd (effective_now env w) = tick (tick w).
Proof.
  unfold effective_now, bind. rewrite datetime_now_run.
  destruct (time.le _ _); reflexivity.
Qed.

(** Computing the window reads the clock twice and does nothing else. *)
Lemma daily_window_world (w : world) :
  snd (daily_window env w) = tick (tick w).
Proof.
  unfold daily_window, bind.
  pose proof (effective_now_world w) as E.
  destruct (effective_now env w) as [[now|e] w']; simpl in *; congruence.
Qed.

Lemma daily_window_run (w : world) t_from t_to :
  fst (daily_window env w) = Ok (t_from, t_to) ->
  daily_window env w = (Ok (t_from, t_to), tick (tick w)).
Proof.
  intros E. rewrite <- E, <- daily_window_world.
  now destruct (daily_window env w).
Qed.

Lemma async_update_run (s : UsageSensor.t) (w : world) :
  UsageSensor.async_update env (s, w)
  = if negb (UsageSensor.initalised s)
    then
      let r := daily_data env (UsageSensor.api s) (UsageSensor.resource s) w in
      (fst (store_result env true s (fst r)),
       (snd (store_result env true s (fst r)), snd r))
    else
      match fst (should_update env w) with
      | Ok true =>
          let r := daily_data env (UsageSensor.api s) (UsageSensor.resource s)
                              (tick w) in
          (fst (store_result env false s (fst r)),
           (snd (store_result env false s (fst r)), snd r))
      | _ => (Ok tt, (s, tick w))
      end.
Proof.
  unfold UsageSensor.async_update, bind at 1. unfold self at 1. cbn [fst].
  destruct (UsageSensor.initalised s); cbn [negb].
  - unfold bind at 1. rewrite in_world_run, should_update_run. cbn [fst snd].
    destruct (in_update_window _); [|reflexivity].
    unfold bind at 1. rewrite in_world_run.
    destruct (daily_data env _ _ (tick w)) as [[[v t_from]|e] w']; simpl;
      [|reflexivity].
    destruct (truthy v); reflexivity.
  - unfold bind at 1. rewrite in_world_run.
    destruct (daily_data env _ _ w) as [[[v t_from]|e] w']; simpl;
      [|reflexivity].
    destruct (truthy v); reflexivity.
Qed.
End UsageSensorUpdate.

Section DailyDataProperties.
Variable env : environment.

Lemma async_update_polls (s : UsageSensor.t) (w : world) :
  polls env s w ->
  let r := daily_data env (UsageSensor.api s) (UsageSensor.resource s)
                      (call_world s w) in
  let first := negb (UsageSensor.initalised s) in
  UsageSensor.async_update env (s, w)
  = (fst (store_result env first s (fst r)),
     (snd (store_result env first s (fst r)), snd r)).
Proof.
  intros Hp r first. rewrite async_update_run. subst r first.
  unfold call_world.
  destruct (UsageSensor.initalised s) eqn:Ei; simpl negb; cbv iota.
  - destruct Hp as [Hp|Hp]; [congruence|]. now rewrite Hp.
  - reflexivity.
Qed.

Lemma daily_data_of_reading api resource w t_from t_to :
  fst (daily_window env w) = Ok (t_from, t_to) ->
  catchup_answered env resource w ->
  fst (daily_data env api resource w)
  = match readings_call env api resource w t_from t_to with
    | Raise e => Raise e
    | Ok reading =>
        match summed (data reading) with
        | Ok v => Ok (v, t_from)
        | Raise e => Raise e
        end
    end.
Proof.
  intros Ew Hc. apply daily_window_run in Ew.
  rewrite (daily_data_run env api resource w t_from t_to _ Ew).
  cbv zeta. unfold catchup_answered in Hc. simpl requests.
  destruct (serve_catchup env _); [congruence|reflexivity].
Qed.

(** C5. When the reading returned for the window holds exactly two
    entries, [daily_data] returns the float sum of the two values, with
    the window start; when it holds exactly one, it returns that value.
    The first entry alone is never the answer for two. *)
Theorem daily_data_sums_entries api resource w t_from t_to reading :
  fst (daily_window env w) = Ok (t_from, t_to) ->
  catchup_answered env resource w ->
  readings_call env api resource w t_from t_to = Ok reading ->
  (forall r1 r2, data reading = [r1; r2] ->
     fst (daily_data env api resource w)
     = Ok ((value r1 + value r2)%float, t_from))
  /\ (forall r1, data reading = [r1] ->
        fst (daily_data env api resource w) = Ok (value r1, t_from)).
Proof.
  intros Ew Hc Er.
  rewrite (daily_data_of_reading api resource w t_from t_to Ew Hc), Er.
  split; intros; now rewrite H.
Qed.

(** C1, as the code has it. When the reading returned for the window
    holds no entry, [daily_data] does not return "no value": the
    subscript [reading.data[0]] raises [IndexError], which leaves
    [async_update] as an exception. The sensor's attributes
    ([_attr_native_value], [_attr_last_reset], [initalised]) stay as they
    were. *)
Theorem daily_data_empty_reading_raises (s : UsageSensor.t) w t_from t_to reading :
  polls env s w ->
  fst (daily_window env (call_world s w)) = Ok (t_from, t_to) ->
  catchup_answered env (UsageSensor.resource s) (call_world s w) ->
  readings_call env (UsageSensor.api s) (UsageSensor.resource s) (call_world s w)
                t_from t_to = Ok reading ->
  data reading = [] ->
  fst (daily_data env (UsageSensor.api s) (UsageSensor.resource s)
                  (call_world s w)) = Raise IndexError
  /\ fst (UsageSensor.async_update env (s, w)) = Raise IndexError
  /\ fst (snd (UsageSensor.async_update env (s, w))) = s.
Proof.
  intros Hp Ew Hc Er Hd.
  assert (E : fst (daily_data env (UsageSensor.api s) (UsageSensor.resource s)
                              (call_world s w)) = Raise IndexError).
  { rewrite (daily_data_of_reading _ _ _ t_from t_to Ew Hc), Er, Hd.
    reflexivity. }
  split; [exact E|].
  rewrite (async_update_polls s w Hp). cbv zeta. rewrite E. now simpl.
Qed.

(** C2, as the code has it. In steady state, on a tick where the gate is
    due, an exception raised inside [daily_data] is not caught: it leaves
    [async_update] as the same exception, and the sensor's attributes
    stay as they were. A readings response whose status is not 200 is
    such an exception, [ValueError]; a transport failure is another,
    [ClientError]. *)
Theorem async_update_error_propagates (s : UsageSensor.t) (w : world) :
  UsageSensor.initalised s = true ->
  fst (should_update env w) = Ok true ->
  let api := UsageSensor.api s in
  let resource := UsageSensor.resource s in
  (forall e,
     fst (daily_data env api resource (tick w)) = Raise e ->
     UsageSensor.async_update env (s, w)
     = (Raise e, (s, snd (daily_data env api resource (tick w)))))
  /\ (forall t_from t_to,
        fst (daily_window env (tick w)) = Ok (t_from, t_to) ->
        catchup_answered env resource (tick w) ->
        let sent_requests :=
          GET_readings (resource_id resource) t_from t_to P1D
          :: GET_catchup (resource_id resource) :: requests w in
        (forall status json_data,
            serve_readings env sent_requests = Response status json_data ->
            status <> 200 ->
            fst (daily_data env api resource (tick w))
            = Raise (ValueError ["Failed to retrieve readings"%string]))
        /\ (serve_readings env sent_requests = Failed ->
            fst (daily_data env api resource (tick w)) = Raise ClientError)).
Proof.
  intros Hi Hdue api resource. split.
  - intros e E.
    assert (Hp : polls env s w) by (right; exact Hdue).
    rewrite (async_update_polls s w Hp). cbv zeta.
    unfold call_world. rewrite Hi. fold api resource. rewrite E. reflexivity.
  - intros t_from t_to Ew Hc sent_requests.
    pose proof (daily_data_of_reading api resource (tick w) t_from t_to Ew Hc)
      as E.
    unfold readings_call in E. rewrite get_reading_run in E. simpl fst in E.
    change (requests (sent _ (tick (tick (tick w))))) with
      (GET_catchup (resource_id resource) :: requests w) in E.
    fold sent_requests in E.
    split.
    + intros status json_data Es Hs. rewrite Es in E.
      apply Z.eqb_neq in Hs. now rewrite Hs in E.
    + intros Es. now rewrite Es in E.
Qed.
End DailyDataProperties.

(** ** The effective day *)

Section EffectiveDay.
Variable env : environment.

(** [daily_data] asks for the readings of its window and returns the
    start of its window. *)
Lemma daily_data_uses_window api resource (w : world) t_from t_to :
  fst (daily_window env w) = Ok (t_from, t_to) ->
  (catchup_answered env resource w ->
   requests (snd (daily_data env api resource w))
   = GET_readings (resource_id resource) t_from t_to P1D
     :: GET_catchup (resource_id resource) :: requests w)
  /\ (forall v t, fst (daily_data env api resource w) = Ok (v, t) ->
        t = t_from).
Proof.
  intros Ew. apply daily_window_run in Ew.
  rewrite (daily_data_run env api resource w t_from t_to _ Ew). cbv zeta.
  change (requests (sent (GET_catchup (resource_id resource)) (tick (tick w))))
    with (GET_catchup (resource_id resource) :: requests w).
  unfold catchup_answered.
  destruct (serve_catchup env _) as [|status u]; cbn [fst snd].
  - split; [congruence|discriminate].
  - split; [reflexivity|]. intros v t E.
    destruct (fst (GlowMarkt.get_reading env api _ _ _ _ _)) as [reading|e];
      [|discriminate].
    destruct (summed (data reading)); [|discriminate]. now inversion E.
Qed.

(** C3, as the code has it. [daily_data] reads the clock twice: the first
    read decides the day, the second, [now], gives the window. When the
    first read is at or before 01:05:00.000000 the window starts at
    00:00:00 of the calendar day before [now] (the valid date whose
    ordinal is one less) and ends on that day at the hour and minute of
    [now]; when it is later the window starts at 00:00:00 of the day of
    [now] and ends on it at the hour and minute of [now], seconds and
    microseconds zero. That window is the one of the readings request
    [daily_data] sends, with period [P1D], and its start is the
    timestamp [daily_data] returns. When both reads show one instant
    this is the effective-day rule; when midnight (or 01:05) passes
    between the reads the day is decided for one instant and the window
    taken from another. *)
Theorem daily_data_effective_day api resource (w : world) :
  let first_read := clock env (now_calls w) in
  let now := clock env (S (now_calls w)) in
  time.valid (datetime.time first_read) ->
  datetime.valid now ->
  1 < date.toordinal (datetime.date now) ->
  let at_or_before_0105 :=
    time.since_midnight (datetime.time first_read)
    <= time.since_midnight (time.mk 1 5 0 0) in
  let hh_mm := time.mk (datetime.hour now) (datetime.minute now) 0 0 in
  let is_window (day : date.t) :=
    let t_from := datetime.combine day (time.mk 0 0 0 0) in
    let t_to := datetime.combine day hh_mm in
    daily_window env w = (Ok (t_from, t_to), tick (tick w))
    /\ (catchup_answered env resource w ->
        requests (snd (daily_data env api resource w))
        = GET_readings (resource_id resource) t_from t_to P1D
          :: GET_catchup (resource_id resource) :: requests w)
    /\ (forall v t, fst (daily_data env api resource w) = Ok (v, t) ->
          t = t_from) in
  (at_or_before_0105 ->
   is_window (date.pred (datetime.date now))
   /\ date.valid (date.pred (datetime.date now))
   /\ date.toordinal (date.pred (datetime.date now))
      = date.toordinal (datetime.date now) - 1)
  /\ (~ at_or_before_0105 -> is_window (datetime.date now)).
Proof.
  intros first_read now Ht [Hd Htn] Hord early hh_mm is_window.
  assert (Hlimit : time.valid (time.mk 1 5 0 0))
    by (cbv; intuition discriminate).
  pose proof (time_le_since_midnight _ _ Ht Hlimit) as Hle.
  fold early in Hle.
  assert (Huse : forall day,
            fst (daily_window env w)
            = Ok (datetime.combine day (time.mk 0 0 0 0),
                  datetime.combine day hh_mm) ->
            is_window day).
  { intros day E. unfold is_window. cbv zeta.
    split; [now apply daily_window_run|].
    now apply daily_data_uses_window. }
  split; intros He.
  - apply Hle in He.
    destruct (toordinal_pred _ Hd Hord) as [Hp Hv].
    split; [|split; assumption].
    apply Huse. unfold daily_window, bind.
    rewrite (effective_now_early env w He). fold now.
    unfold datetime.sub_one_day.
    replace (0 <? date.toordinal (datetime.date now) - 1) with true
      by (symmetry; apply Z.ltb_lt; lia).
    reflexivity.
  - assert (Hf : time.le (datetime.time first_read) (time.mk 1 5 0 0) = false).
    { destruct (time.le (datetime.time first_read) (time.mk 1 5 0 0)) eqn:E;
        [|easy].
      exfalso. apply He, Hle. reflexivity. }
    apply Huse. unfold daily_window, bind.
    rewrite (effective_now_late env w Hf). reflexivity.
Qed.
End EffectiveDay.

(** Midnight passes between the two reads: the day is decided at
    23:59:59.999999 of 2024-03-01, and the window asked for and returned
    is that of 2024-03-02, from 00:00 to 00:00. 01:05 passes between the
    two reads: the day is decided at 01:04:59.999999 of 2024-03-02, and
    the window is that of 2024-03-01, from 00:00 to 01:06. *)
Lemma daily_data_effective_day_between_reads :
  (daily_window midnight_env world0
   = (Ok (datetime.mk 2024 3 2 0 0 0 0, datetime.mk 2024 3 2 0 0 0 0),
      tick (tick world0))
   /\ requests (snd (daily_data midnight_env sample_api
         (sample_resource "electricity.consumption") world0))
      = [ GET_readings "res-1" (datetime.mk 2024 3 2 0 0 0 0)
                       (datetime.mk 2024 3 2 0 0 0 0) P1D;
          GET_catchup "res-1" ]
   /\ fst (daily_data midnight_env sample_api
         (sample_resource "electricity.consumption") world0)
      = Ok (1.5%float, datetime.mk 2024 3 2 0 0 0 0))
  /\ (daily_window straddle_env world0
      = (Ok (datetime.mk 2024 3 1 0 0 0 0, datetime.mk 2024 3 1 1 6 0 0),
         tick (tick world0))
      /\ requests (snd (daily_data straddle_env sample_api
         (sample_resource "electricity.consumption") world0))
         = [ GET_readings "res-1" (datetime.mk 2024 3 1 0 0 0 0)
                          (datetime.mk 2024 3 1 1 6 0 0) P1D;
             GET_catchup "res-1" ]
      /\ fst (daily_data straddle_env sample_api
         (sample_resource "electricity.consumption") world0)
         = Ok (1.5%float, datetime.mk 2024 3 1 0 0 0 0)).
Proof.
  split.
  - destruct (daily_data_effective_day midnight_env sample_api
                (sample_resource "electricity.consumption") world0) as [_ Hlate].
    + cbv. intuition discriminate.
    + cbv. intuition discriminate.
    + reflexivity.
    + destruct Hlate as (Hw & Hr & _).
      * intros H. vm_compute in H. apply H. reflexivity.
      * split; [exact Hw|]. split; [|reflexivity].
        apply Hr. unfold catchup_answered. simpl. discriminate.
  - destruct (daily_data_effective_day straddle_env sample_api
                (sample_resource "electricity.consumption") world0) as [Hearly _].
    + cbv. intuition discriminate.
    + cbv. intuition discriminate.
    + reflexivity.
    + destruct Hearly as ((Hw & Hr & _) & _).
      * vm_compute. discriminate.
      * split; [exact Hw|]. split; [|reflexivity].
        apply Hr. unfold catchup_answered. simpl. discriminate.
Defined.

(** Two readings of 1.5 and 2.25 at 10:15 give 3.75 since midnight. *)
Lemma daily_data_sums_entries_sample :
  fst (daily_data (sample_env at_1015 two_readings Failed) sample_api
                  (sample_resource "electricity.consumption") world0)
  = Ok (3.75%float, midnight_0301).
Proof.
  refine (proj1 (daily_data_sums_entries
                   (sample_env at_1015 two_readings Failed) sample_api
                   (sample_resource "electricity.consumption") world0
                   midnight_0301 (datetime.mk 2024 3 1 10 15 0 0)
                   {| data := [ {| datestamp := midnight_0301; value := 1.5 |};
                                {| datestamp := midnight_0301; value := 2.25 |} ] |}
                   eq_refl _ eq_refl) _ _ eq_refl).
  unfold catchup_answered. simpl. discriminate.
Defined.

(** A sensor not yet initialised, answered with an empty list of
    readings: the update raises [IndexError]. *)
Lemma daily_data_empty_reading_raises_sample :
  fst (daily_data (sample_env at_1015 no_readings Failed) sample_api
                  (sample_resource "electricity.consumption") world0)
  = Raise IndexError
  /\ fst (UsageSensor.async_update (sample_env at_1015 no_readings Failed)
                                   (fresh_sensor, world0)) = Raise IndexError
  /\ fst (snd (UsageSensor.async_update (sample_env at_1015 no_readings Failed)
                                        (fresh_sensor, world0))) = fresh_sensor.
Proof.
  refine (daily_data_empty_reading_raises
            (sample_env at_1015 no_readings Failed) fresh_sensor world0
            midnight_0301 (datetime.mk 2024 3 1 10 15 0 0) {| data := [] |}
            (or_introl eq_refl) eq_refl _ eq_refl eq_refl).
  unfold catchup_answered. simpl. discriminate.
Defined.

(** C2, the claim at a concrete tick: at 10:33 the gate is due, the
    server answers the readings request with status 500, and the
    [ValueError] of [get_reading] comes out of [async_update]. *)
Lemma async_update_lets_error_out :
  fst (UsageSensor.async_update (sample_env at_1033 readings_refused Failed)
                                (steady_sensor, world0))
  = Raise (ValueError ["Failed to retrieve readings"%string]).
Proof. reflexivity. Qed.

(** The same tick through the theorem: the exception, and the sensor as
    it was. *)
Lemma async_update_error_propagates_sample :
  fst (UsageSensor.async_update (sample_env at_1033 readings_refused Failed)
                                (steady_sensor, world0))
  = Raise (ValueError ["Failed to retrieve readings"%string])
  /\ fst (snd (UsageSensor.async_update
                 (sample_env at_1033 readings_refused Failed)
                 (steady_sensor, world0))) = steady_sensor.
Proof.
  pose (env := sample_env at_1033 readings_refused Failed).
  destruct (async_update_error_propagates env steady_sensor world0
              eq_refl eq_refl) as [Hprop Hraise].
  destruct (Hraise midnight_0301 (datetime.mk 2024 3 1 10 33 0 0) eq_refl)
    as [H500 _].
  { unfold catchup_answered. simpl. discriminate. }
  specialize (H500 500 [] eq_refl).
  assert (Hne : 500 <> 200) by discriminate.
  specialize (H500 Hne).
  specialize (Hprop _ H500).
  fold env. rewrite Hprop. split; reflexivity.
Defined.

(** ** [supply_type] *)

Lemma append_cons c (a b : string) :
  (String c a ++ b)%string = String c (a ++ b)%string.
Proof. reflexivity. Qed.

Lemma append_nil (b : string) : (EmptyString ++ b)%string = b.
Proof. reflexivity. Qed.

Lemma prefix_app (n h : string) :
  String.prefix n h = true <-> exists post, h = (n ++ post)%string.
Proof.
  revert h. induction n as [|c n IH]; intros h.
  - split; [intros _; now exists h|intros _; now destruct h].
  - destruct h as [|c' h]; simpl.
    + split; [discriminate|intros [post E]; discriminate].
    + destruct (Ascii.ascii_dec c c') as [->|Hne].
      * rewrite IH.
        split; intros [post E]; exists post; rewrite append_cons in *;
          congruence.
      * split; [discriminate|].
        intros [post E]. rewrite append_cons in E. congruence.
Qed.

(** [str_in] is the substring test. *)
Lemma str_in_substring (n h : string) :
  str_in n h = true <-> exists pre post, h = (pre ++ n ++ post)%string.
Proof.
  induction h as [|c h IH]; cbn [str_in].
  - rewrite orb_false_r, prefix_app. split.
    + intros [post E]. now exists ""%string, post.
    + intros (pre & post & E). destruct pre as [|c' pre].
      * rewrite append_nil in E. now exists post.
      * rewrite append_cons in E. discriminate.
  - rewrite orb_true_iff, prefix_app, IH. split.
    + intros [[post E]|(pre & post & E)].
      * now exists ""%string, post.
      * exists (String c pre), post. rewrite append_cons. congruence.
    + intros (pre & post & E). destruct pre as [|c' pre].
      * rewrite append_nil in E. left. now exists post.
      * rewrite append_cons in E. right. exists pre, post. congruence.
Qed.

(** C9. [supply_type] answers "gas" for the classifier "gas.consumption"
    and "electricity" for "electricity.consumption.cost". It returns
    exactly when the classifier contains "electricity.consumption" or
    "gas.consumption"; for every other classifier it raises the
    [ValueError] "Unexpected classifer", so does [device_name], and no
    default is returned. *)
Theorem supply_type_by_classifier (resource : Resource) :
  (classifier resource = "gas.consumption"%string ->
   supply_type resource = Ok "gas"%string)
  /\ (classifier resource = "electricity.consumption.cost"%string ->
      supply_type resource = Ok "electricity"%string)
  /\ (str_in "electricity.consumption" (classifier resource) = false ->
      str_in "gas.consumption" (classifier resource) = false ->
      supply_type resource
      = Raise (ValueError ["Unexpected classifer"%string; classifier resource])
      /\ forall ve,
           device_name resource ve
           = Raise (ValueError ["Unexpected classifer"%string;
                                classifier resource]))
  /\ is_ok (supply_type resource)
     = str_in "electricity.consumption" (classifier resource)
       || str_in "gas.consumption" (classifier resource).
Proof.
  unfold device_name, supply_type. repeat split.
  - intros ->. reflexivity.
  - intros ->. reflexivity.
  - now rewrite H, H0.
  - now rewrite H, H0.
  - destruct (str_in "electricity.consumption" _); [reflexivity|].
    destruct (str_in "gas.consumption" _); reflexivity.
Qed.

Example supply_type_unknown :
  supply_type (sample_resource "water.consumption")
  = Raise (ValueError ["Unexpected classifer"; "water.consumption"]%string).
Proof. reflexivity. Qed.

Example device_name_gas :
  device_name (sample_resource "gas.consumption") sample_ve
  = Ok "Home smart gas meter"%string.
Proof. reflexivity. Qed.

(** ** [get_tariff] *)

Section Tariff.
Variable env : environment.

Lemma get_tariff_run api rid w :
  GlowMarkt.get_tariff env api rid w
  = (match serve_tariff env (GET_tariff rid :: requests w) with
     | Failed => Raise ClientError
     | Response status json_data =>
         if status =? 200
         then match json_data with
              | [] => Raise IndexError
              | d :: _ => Ok {| current_rates := rates_of d |}
              end
         else Raise (ValueError ["Failed to retrieve tariff"%string])
     end, sent (GET_tariff rid) w).
Proof.
  unfold GlowMarkt.get_tariff, bind at 1. rewrite session_get_run.
  destruct (serve_tariff env _) as [|status json_data]; [reflexivity|].
  destruct (status =? 200); simpl; [|reflexivity].
  destruct json_data; reflexivity.
Qed.

(** C7. [get_tariff] sends one request. Answered with status 200 and a
    non-empty list, it returns the rate and the standing charge of the
    current rate block of the first record. Answered with any status
    other than 200 (every non-2xx status is one), it raises the
    [ValueError] "Failed to retrieve tariff"; answered with status 200 and
    an empty list, it raises as well ([IndexError], from the subscript);
    in neither case is a value returned. *)
Theorem get_tariff_first_record_or_error api rid w :
  let answer := serve_tariff env (GET_tariff rid :: requests w) in
  let outcome := fst (GlowMarkt.get_tariff env api rid w) in
  (forall d rest, answer = Response 200 (d :: rest) ->
     outcome = Ok {| current_rates := rates_of d |})
  /\ (forall status json_data, answer = Response status json_data ->
        status <> 200 ->
        outcome = Raise (ValueError ["Failed to retrieve tariff"%string]))
  /\ (forall status json_data, answer = Response status json_data ->
        ~ (200 <= status <= 299) -> is_ok outcome = false)
  /\ (answer = Response 200 [] ->
      outcome = Raise IndexError /\ is_ok outcome = false)
  /\ snd (GlowMarkt.get_tariff env api rid w) = sent (GET_tariff rid) w.
Proof.
  intros answer outcome. subst outcome. rewrite get_tariff_run. fold answer.
  simpl fst. simpl snd. repeat split.
  - intros d rest ->. reflexivity.
  - intros status json_data -> Hs. apply Z.eqb_neq in Hs. now rewrite Hs.
  - intros status json_data -> Hs.
    assert (Hne : (status =? 200) = false) by (apply Z.eqb_neq; lia).
    now rewrite Hne.
  - now rewrite H.
  - now rewrite H.
Qed.
End Tariff.

Example get_tariff_sample :
  fst (GlowMarkt.get_tariff (sample_env at_1015 Failed (Response 200 sample_tariff))
                            sample_api "res-1" world0)
  = Ok {| current_rates := {| rate := 1550; standing_charge := 4500 |} |}.
Proof. reflexivity. Qed.

Example get_tariff_empty_list :
  fst (GlowMarkt.get_tariff (sample_env at_1015 Failed (Response 200 []))
                            sample_api "res-1" world0)
  = Raise IndexError.
Proof. reflexivity. Qed.

Example get_tariff_not_found :
  fst (GlowMarkt.get_tariff (sample_env at_1015 Failed (Response 404 []))
                            sample_api "res-1" world0)
  = Raise (ValueError ["Failed to retrieve tariff"%string]).
Proof. reflexivity. Qed.

(** ** The tariff coordinator *)

Section Coordinator.
Variable env : environment.

Lemma tariff_data_run api resource w :
  tariff_data env api resource w
  = (match fst (GlowMarkt.get_tariff env api (resource_id resource) w) with
     | Ok tariff => Ok (current_rates tariff)
     | Raise e => Raise e
     end, sent (GET_tariff (resource_id resource)) w).
Proof.
  unfold tariff_data, bind. rewrite get_tariff_run. simpl fst.
  destruct (serve_tariff env _) as [|status json_data]; [reflexivity|].
  destruct (status =? 200); [|reflexivity].
  destruct json_data; reflexivity.
Qed.

(** [_async_update_data], branch by branch. *)
Lemma _async_update_data_run (s : TariffCoordinator.t) (w : world) :
  let fetch w' :=
    fst (tariff_data env (TariffCoordinator.api s)
                     (TariffCoordinator.resource s) w') in
  let rid := resource_id (TariffCoordinator.resource s) in
  TariffCoordinator._async_update_data env (s, w)
  = if negb (TariffCoordinator.standing_initalised s)
       || negb (TariffCoordinator.rate_initalised s)
    then
      match fetch w with
      | Ok tariff =>
          (Ok (TariffCoordinator.mapping tariff),
           (both_initalised s, sent (GET_tariff rid) w))
      | Raise e => (Raise e, (s, sent (GET_tariff rid) w))
      end
    else if in_update_window (datetime.minute (clock env (now_calls w)))
    then
      match fetch (tick w) with
      | Ok tariff =>
          (Ok (TariffCoordinator.mapping tariff),
           (s, sent (GET_tariff rid) (tick w)))
      | Raise e => (Raise e, (s, sent (GET_tariff rid) (tick w)))
      end
    else (Ok ∅, (s, tick w)).
Proof.
  intros fetch rid. subst fetch.
  unfold TariffCoordinator._async_update_data, bind at 1. unfold self at 1.
  cbn [fst].
  destruct (negb (TariffCoordinator.standing_initalised s)
            || negb (TariffCoordinator.rate_initalised s)).
  - unfold bind at 1. rewrite in_world_run, tariff_data_run. cbn [fst snd].
    destruct (fst (GlowMarkt.get_tariff env _ _ w)); reflexivity.
  - unfold bind at 1. rewrite in_world_run, should_update_run. cbn [fst snd].
    destruct (in_update_window _); [|reflexivity].
    unfold bind at 1. rewrite in_world_run, tariff_data_run. cbn [fst snd].
    destruct (fst (GlowMarkt.get_tariff env _ _ (tick w))); reflexivity.
Qed.

(** Once set, the two flags stay set: no refresh clears them. *)
Lemma initalised_step (sw : TariffCoordinator.t * world) :
  initalised (fst sw) ->
  initalised (fst (snd (TariffCoordinator._async_update_data env sw))).
Proof.
  destruct sw as [s w]. intros [Hr Hs]. cbn [fst] in *.
  rewrite _async_update_data_run. cbv zeta. rewrite Hr, Hs. cbn [negb orb].
  destruct (in_update_window _); [|now split].
  destruct (fst (tariff_data env _ _ (tick w))); now split.
Qed.

Lemma initalised_refreshes (n : nat) (sw : TariffCoordinator.t * world) :
  initalised (fst sw) -> initalised (fst (refreshes env n sw)).
Proof.
  revert sw. induction n as [|n IH]; intros sw H; simpl; [exact H|].
  apply IH, initalised_step, H.
Qed.

(** The two flags are set together: they are equal after any number of
    refreshes of a new coordinator. *)
Lemma flags_agree (n : nat) api resource (w : world) :
  let s := fst (refreshes env n (TariffCoordinator.__init__ api resource, w)) in
  TariffCoordinator.rate_initalised s = TariffCoordinator.standing_initalised s.
Proof.
  cbv zeta.
  assert (G : forall sw,
             TariffCoordinator.rate_initalised (fst sw)
             = TariffCoordinator.standing_initalised (fst sw) ->
             TariffCoordinator.rate_initalised (fst (refreshes env n sw))
             = TariffCoordinator.standing_initalised (fst (refreshes env n sw))).
  { induction n as [|n IH]; intros sw H; simpl; [exact H|].
    apply IH. destruct sw as [s w']. cbn [fst] in *.
    rewrite _async_update_data_run. cbv zeta.
    destruct (negb _ || negb _).
    - destruct (fst (tariff_data env _ _ w')); [reflexivity|exact H].
    - destruct (in_update_window _); [|exact H].
      destruct (fst (tariff_data env _ _ (tick w'))); exact H. }
  apply G. reflexivity.
Qed.

(** No refresh changes the client or the resource of a coordinator. *)
Lemma refresh_keeps_client (sw : TariffCoordinator.t * world) :
  let s' := fst (snd (TariffCoordinator._async_update_data env sw)) in
  TariffCoordinator.api s' = TariffCoordinator.api (fst sw)
  /\ TariffCoordinator.resource s' = TariffCoordinator.resource (fst sw).
Proof.
  destruct sw as [s w]. cbv zeta. cbn [fst].
  rewrite _async_update_data_run. cbv zeta.
  destruct (negb _ || negb _).
  - destruct (fst (tariff_data env _ _ w)); now split.
  - destruct (in_update_window _); [|now split].
    destruct (fst (tariff_data env _ _ (tick w))); now split.
Qed.

Lemma refreshes_keep_client (n : nat) (sw : TariffCoordinator.t * world) :
  let s' := fst (refreshes env n sw) in
  TariffCoordinator.api s' = TariffCoordinator.api (fst sw)
  /\ TariffCoordinator.resource s' = TariffCoordinator.resource (fst sw).
Proof.
  cbv zeta. revert sw. induction n as [|n IH]; intros sw; simpl; [now split|].
  destruct (IH (snd (TariffCoordinator._async_update_data env sw))) as [Ha Hr].
  destruct (refresh_keeps_client sw) as [Ha' Hr'].
  split; congruence.
Qed.

(** The mapping of a tariff record: the two keys and nothing else, with
    the values as the API gave them. *)
Lemma mapping_contents (d : tariff_json) :
  let m := TariffCoordinator.mapping (rates_of d) in
  m !! "rate"%string = Some (j_rate (j_currentRates d))
  /\ m !! "standing_charge"%string
     = Some (j_standingCharge (j_currentRates d))
  /\ size m = 2%nat.
Proof.
  cbv zeta. unfold TariffCoordinator.mapping, rates_of.
  cbn [rate standing_charge].
  split; [|split].
  - apply lookup_insert_eq.
  - rewrite lookup_insert_ne by discriminate. apply lookup_insert_eq.
  - rewrite map_size_insert_None.
    + now rewrite map_size_insert_None, map_size_empty.
    + rewrite lookup_insert_ne by discriminate. apply lookup_empty.
Qed.

(** C6. A new coordinator fetches the tariff on its first refresh without
    consulting the gate: the tariff request is sent and the clock is not
    read. When the fetch succeeds, the refresh returns the mapping with
    the two keys "rate" and "standing_charge" holding the rate and the
    standing charge as the API gave them (not divided by 100), and from
    then on, after any number of further refreshes, a refresh on a tick
    where the gate is not due sends nothing and returns the empty
    mapping, while a refresh on a tick where the gate is due reads the
    clock once, sends the tariff request of the same resource and
    returns what the fetch gives: the mapping of the first record with
    the same two keys, or the exception of the fetch; the coordinator is
    unchanged either way. [Rate] and [Standing] leave their value and
    what they have written untouched on an empty mapping. *)
Theorem tariff_coordinator_refresh api resource (w : world) :
  let s0 := TariffCoordinator.__init__ api resource in
  let first := TariffCoordinator._async_update_data env (s0, w) in
  snd (snd first) = sent (GET_tariff (resource_id resource)) w
  /\ (forall d rest,
        serve_tariff env (GET_tariff (resource_id resource) :: requests w)
        = Response 200 (d :: rest) ->
        exists m : gmap string float,
          fst first = Ok m
          /\ m !! "rate"%string = Some (j_rate (j_currentRates d))
          /\ m !! "standing_charge"%string
             = Some (j_standingCharge (j_currentRates d))
          /\ size m = 2%nat)
  /\ (forall tariff, fst first = Ok tariff ->
        forall n,
          let later := refreshes env n (snd first) in
          in_update_window
            (datetime.minute (clock env (now_calls (snd later)))) = false ->
          TariffCoordinator._async_update_data env later
          = (Ok ∅, (fst later, tick (snd later))))
  /\ (forall tariff, fst first = Ok tariff ->
        forall n,
          let later := refreshes env n (snd first) in
          let refresh := TariffCoordinator._async_update_data env later in
          in_update_window
            (datetime.minute (clock env (now_calls (snd later)))) = true ->
          snd refresh
          = (fst later,
             sent (GET_tariff (resource_id resource)) (tick (snd later)))
          /\ fst refresh
             = match fst (GlowMarkt.get_tariff env api (resource_id resource)
                                               (tick (snd later))) with
               | Ok data =>
                   Ok (TariffCoordinator.mapping (current_rates data))
               | Raise e => Raise e
               end
          /\ (forall d rest,
                serve_tariff env (GET_tariff (resource_id resource)
                                  :: requests (snd later))
                = Response 200 (d :: rest) ->
                exists m : gmap string float,
                  fst refresh = Ok m
                  /\ m !! "rate"%string = Some (j_rate (j_currentRates d))
                  /\ m !! "standing_charge"%string
                     = Some (j_standingCharge (j_currentRates d))
                  /\ size m = 2%nat))
  /\ (forall r : Rate.t,
        Rate._handle_coordinator_update env (Some ∅) r = (Ok tt, r))
  /\ (forall r : Standing.t,
        Standing._handle_coordinator_update env (Some ∅) r = (Ok tt, r)).
Proof.
  intros s0 first.
  assert (E : first
              = match fst (tariff_data env api resource w) with
                | Ok tariff =>
                    (Ok (TariffCoordinator.mapping tariff),
                     (both_initalised s0, sent (GET_tariff (resource_id resource)) w))
                | Raise e =>
                    (Raise e, (s0, sent (GET_tariff (resource_id resource)) w))
                end).
  { subst first. rewrite _async_update_data_run. reflexivity. }
  assert (Hlater : forall tariff, fst first = Ok tariff ->
            forall n,
              initalised (fst (refreshes env n (snd first)))
              /\ TariffCoordinator.api (fst (refreshes env n (snd first))) = api
              /\ TariffCoordinator.resource (fst (refreshes env n (snd first)))
                 = resource).
  { intros tariff Ef n.
    destruct (refreshes_keep_client n (snd first)) as [Ha Hr].
    rewrite Ha, Hr. split.
    - apply initalised_refreshes. rewrite E in Ef |- *.
      destruct (fst (tariff_data env api resource w)); [|discriminate].
      now split.
    - rewrite E. now destruct (fst (tariff_data env api resource w)). }
  split; [|split; [|split; [|split; [|split]]]].
  - rewrite E. now destruct (fst (tariff_data env api resource w)).
  - intros d rest Ed. rewrite E, tariff_data_run, get_tariff_run.
    cbn [fst]. rewrite Ed. cbn [Z.eqb Pos.eqb current_rates fst].
    eexists. split; [reflexivity|]. apply (mapping_contents d).
  - intros tariff Ef n later Hgate.
    destruct (Hlater tariff Ef n) as [Hi _]. fold later in Hi.
    destruct later as [s' w']. destruct Hi as [Hr Hs]. cbn [fst snd] in *.
    rewrite _async_update_data_run. cbv zeta.
    now rewrite Hr, Hs, Hgate.
  - intros tariff Ef n later refresh Hgate.
    destruct (Hlater tariff Ef n) as ([Hr Hs] & Ha & Hres).
    fold later in Hr, Hs, Ha, Hres.
    assert (Er : refresh
                 = (match fst (GlowMarkt.get_tariff env api
                                 (resource_id resource) (tick (snd later))) with
                    | Ok data =>
                        Ok (TariffCoordinator.mapping (current_rates data))
                    | Raise e => Raise e
                    end,
                    (fst later,
                     sent (GET_tariff (resource_id resource))
                          (tick (snd later))))).
    { subst refresh. destruct later as [s' w']. cbn [fst snd] in *.
      rewrite _async_update_data_run. cbv zeta.
      rewrite Hr, Hs, Hgate, Ha, Hres. cbn [negb orb].
      rewrite tariff_data_run. cbn [fst].
      now destruct (fst (GlowMarkt.get_tariff env api _ (tick w'))). }
    rewrite Er. cbn [fst snd].
    split; [reflexivity|]. split; [reflexivity|].
    intros d rest Ed. rewrite get_tariff_run. cbn [fst].
    change (requests (tick (snd later))) with (requests (snd later)).
    rewrite Ed. cbn [Z.eqb Pos.eqb current_rates fst].
    eexists. split; [reflexivity|]. apply (mapping_contents d).
  - reflexivity.
  - reflexivity.
Qed.

(** C10. When the fetch raises on a refresh made while a flag is still
    unset, the exception leaves [_async_update_data] and the coordinator
    is unchanged: neither flag has been set. Whatever the clock shows on
    the next tick, the coordinator sends the tariff request again without
    consulting the gate. *)
Theorem tariff_fetch_error_keeps_flags (s : TariffCoordinator.t) (w : world) e :
  TariffCoordinator.rate_initalised s = false
  \/ TariffCoordinator.standing_initalised s = false ->
  fst (tariff_data env (TariffCoordinator.api s)
                   (TariffCoordinator.resource s) w) = Raise e ->
  let rid := resource_id (TariffCoordinator.resource s) in
  let after := snd (TariffCoordinator._async_update_data env (s, w)) in
  fst (TariffCoordinator._async_update_data env (s, w)) = Raise e
  /\ fst after = s
  /\ TariffCoordinator.rate_initalised (fst after)
     = TariffCoordinator.rate_initalised s
  /\ TariffCoordinator.standing_initalised (fst after)
     = TariffCoordinator.standing_initalised s
  /\ forall w' : world,
       snd (snd (TariffCoordinator._async_update_data env (fst after, w')))
       = sent (GET_tariff rid) w'.
Proof.
  intros Hflag Hraise rid after.
  assert (Hcond : negb (TariffCoordinator.standing_initalised s)
                  || negb (TariffCoordinator.rate_initalised s) = true).
  { destruct Hflag as [-> | ->]; [apply orb_true_r|reflexivity]. }
  assert (E : TariffCoordinator._async_update_data env (s, w)
              = (Raise e, (s, sent (GET_tariff rid) w))).
  { rewrite _async_update_data_run. cbv zeta. now rewrite Hcond, Hraise. }
  subst after. rewrite E. cbn [fst snd]. repeat split.
  intros w'. rewrite _async_update_data_run. cbv zeta. rewrite Hcond.
  now destruct (fst (tariff_data env _ _ w')).
Qed.
End Coordinator.

(** At 10:15 the gate is not due; the server refuses the tariff request
    of a new coordinator, which stays as it was and asks again. *)
Lemma tariff_fetch_error_keeps_flags_sample :
  let env := sample_env at_1015 Failed (Response 503 []) in
  let run := TariffCoordinator._async_update_data env (sample_coordinator, world0) in
  fst run = Raise (ValueError ["Failed to retrieve tariff"%string])
  /\ fst (snd run) = sample_coordinator
  /\ TariffCoordinator.rate_initalised (fst (snd run)) = false
  /\ TariffCoordinator.standing_initalised (fst (snd run)) = false
  /\ forall w' : world,
       snd (snd (TariffCoordinator._async_update_data env (fst (snd run), w')))
       = sent (GET_tariff "res-1") w'.
Proof.
  exact (tariff_fetch_error_keeps_flags
           (sample_env at_1015 Failed (Response 503 []))
           sample_coordinator world0
           (ValueError ["Failed to retrieve tariff"%string])
           (or_introl eq_refl) eq_refl).
Defined.

(** A first refresh at 10:15, outside the update window, fetches all the
    same; the second, still at 10:15, returns the empty mapping. *)
Example tariff_coordinator_two_refreshes :
  let env := sample_env at_1015 Failed (Response 200 sample_tariff) in
  let first := TariffCoordinator._async_update_data env (sample_coordinator, world0) in
  let second := TariffCoordinator._async_update_data env (snd first) in
  requests (snd (snd first)) = [GET_tariff "res-1"]
  /\ (exists m, fst first = Ok m /\ m !! "rate"%string = Some 1550%float)
  /\ fst second = Ok ∅
  /\ requests (snd (snd second)) = [GET_tariff "res-1"].
Proof.
  cbv zeta. repeat split.
  eexists. split; reflexivity.
Qed.

(** At 10:33 the gate is due: the second refresh fetches again. *)
Example tariff_coordinator_due_refresh :
  let env := sample_env at_1033 Failed (Response 200 sample_tariff) in
  let first := TariffCoordinator._async_update_data env (sample_coordinator, world0) in
  let second := TariffCoordinator._async_update_data env (snd first) in
  (exists m, fst second = Ok m /\ m !! "rate"%string = Some 1550%float
             /\ m !! "standing_charge"%string = Some 4500%float)
  /\ requests (snd (snd second)) = [GET_tariff "res-1"; GET_tariff "res-1"]
  /\ now_calls (snd (snd second)) = 1%nat.
Proof.
  cbv zeta. split; [|split; reflexivity].
  eexists. split; [reflexivity|]. split; reflexivity.
Qed.

(** A non-empty mapping reaches the display divided by 100. *)
Example rate_handles_mapping :
  let env := sample_env at_1015 Failed Failed in
  Rate._handle_coordinator_update env
    (Some (TariffCoordinator.mapping {| rate := 1600; standing_charge := 4500 |}))
    sample_rate
  = (Ok tt,
     {| Rate._attr_native_value := Some 16%float;
        Rate._attr_unique_id := "res-1-rate";
        Rate.resource := sample_resource "electricity.consumption";
        Rate.virtual_entity := sample_ve;
        Rate.ha_states := [Some 16%float; Some 15.5%float] |}).
Proof. reflexivity. Qed.

(** ** [get_virtual_entites] under [lru_cache] *)

Section VirtualEntities.
Variable env : environment.

Lemma lru_find_store k v c : lru_find k (lru_store k v c) = Some v.
Proof. unfold lru_store. simpl. now rewrite Nat.eqb_refl. Qed.

Lemma lru_find_close_store k v c :
  lru_find k (lru_close k (lru_store k v c)) = Some CORO_CLOSED.
Proof. unfold lru_store. simpl. now rewrite !Nat.eqb_refl. Qed.

Lemma get_virtual_entites_body_run api w :
  GlowMarkt.get_virtual_entites_body env api w
  = (match serve_virtualentity env (GET_virtualentity :: requests w) with
     | Failed => Raise ClientError
     | Response status json =>
         if status =? 200
         then Ok (entities_of json)
         else Raise (ValueError ["Failed to retrieve virtual entities"%string])
     end, sent GET_virtualentity w).
Proof.
  unfold GlowMarkt.get_virtual_entites_body, bind. rewrite session_get_run.
  destruct (serve_virtualentity env _) as [|status json]; [reflexivity|].
  now destruct (status =? 200).
Qed.

(** The first call for an instance runs the body and leaves the awaited
    coroutine in the cache. *)
Lemma get_virtual_entites_first api w :
  lru_find (GlowMarkt.instance api) (lru w) = None ->
  let k := GlowMarkt.instance api in
  let w1 := set_lru (lru_store k CORO_CREATED) w in
  GlowMarkt.get_virtual_entites env api w
  = (fst (GlowMarkt.get_virtual_entites_body env api w1),
     set_lru (lru_close k) (sent GET_virtualentity w1)).
Proof.
  intros Hmiss k w1. subst k w1.
  unfold GlowMarkt.get_virtual_entites, bind,
    GlowMarkt.get_virtual_entites_call.
  rewrite Hmiss. unfold finally.
  rewrite get_virtual_entites_body_run. reflexivity.
Qed.

(** A call that finds the awaited coroutine raises and sends nothing. *)
Lemma get_virtual_entites_again api w :
  lru_find (GlowMarkt.instance api) (lru w) = Some CORO_CLOSED ->
  GlowMarkt.get_virtual_entites env api w
  = (Raise (RuntimeError "cannot reuse already awaited coroutine"),
     set_lru (lru_store (GlowMarkt.instance api) CORO_CLOSED) w).
Proof.
  intros Hhit.
  unfold GlowMarkt.get_virtual_entites, bind,
    GlowMarkt.get_virtual_entites_call.
  now rewrite Hhit.
Qed.

(** C8, as the code has it. For a client that has not called it before,
    the first [await api.get_virtual_entites()] sends the request and,
    answered with status 200, returns the entities. The second call sends
    no request, but it does not return the list: the cache hands out the
    coroutine object of the first call, and awaiting it again raises
    [RuntimeError]. *)
Theorem get_virtual_entites_second_call_raises api (w : world) json :
  lru_find (GlowMarkt.instance api) (lru w) = None ->
  serve_virtualentity env (GET_virtualentity :: requests w) = Response 200 json ->
  let first := GlowMarkt.get_virtual_entites env api w in
  let second := GlowMarkt.get_virtual_entites env api (snd first) in
  fst first = Ok (entities_of json)
  /\ requests (snd first) = GET_virtualentity :: requests w
  /\ fst second = Raise (RuntimeError "cannot reuse already awaited coroutine")
  /\ requests (snd second) = requests (snd first).
Proof.
  intros Hmiss Hserve first second.
  assert (E1 : first
               = (Ok (entities_of json),
                  set_lru (lru_close (GlowMarkt.instance api))
                    (sent GET_virtualentity
                       (set_lru (lru_store (GlowMarkt.instance api) CORO_CREATED)
                                w)))).
  { subst first. rewrite (get_virtual_entites_first api w Hmiss). cbv zeta.
    rewrite get_virtual_entites_body_run. cbn [fst requests set_lru].
    now rewrite Hserve. }
  assert (E2 : second
               = (Raise (RuntimeError "cannot reuse already awaited coroutine"),
                  set_lru (lru_store (GlowMarkt.instance api) CORO_CLOSED)
                          (snd first))).
  { subst second. apply get_virtual_entites_again.
    rewrite E1. cbn [snd lru set_lru sent]. apply lru_find_close_store. }
  rewrite E2, E1. repeat split.
Qed.
End VirtualEntities.

(** One client, two calls in a row. *)
Lemma get_virtual_entites_second_call_raises_sample :
  let env := sample_env at_1015 Failed Failed in
  let first := GlowMarkt.get_virtual_entites env sample_api world0 in
  let second := GlowMarkt.get_virtual_entites env sample_api (snd first) in
  fst first
  = Ok [ {| VirtualEntity.resources :=
              [ {| ResourceOverview.resource_id := "res-1";
                   ResourceOverview.resource_type_id := "type-1";
                   ResourceOverview.name := "meter" |} ];
            VirtualEntity.name := "Home"; VirtualEntity.id := "ve-1" |} ]
  /\ requests (snd first) = [GET_virtualentity]
  /\ fst second = Raise (RuntimeError "cannot reuse already awaited coroutine")
  /\ requests (snd second) = requests (snd first).
Proof.
  exact (get_virtual_entites_second_call_raises
           (sample_env at_1015 Failed Failed) sample_api world0 _
           eq_refl eq_refl).
Defined.

(** * Further properties of the code *)

(** ** The usage sensor *)

Section UsageSensorMore.
Variable env : environment.

(** X1. A result that compares equal to zero is taken as "nothing to show":
    the update succeeds and the sensor is left as it was, so a sensor not
    yet initialised stays so. *)
Theorem async_update_ignores_zero (s : UsageSensor.t) (w : world) v t_from :
  polls env s w ->
  fst (daily_data env (UsageSensor.api s) (UsageSensor.resource s)
                  (call_world s w)) = Ok (v, t_from) ->
  PrimFloat.eqb v 0 = true ->
  fst (UsageSensor.async_update env (s, w)) = Ok tt
  /\ fst (snd (UsageSensor.async_update env (s, w))) = s.
Proof.
  intros Hp Ed Hz. rewrite (async_update_polls env s w Hp). cbv zeta.
  rewrite Ed. unfold store_result, truthy. rewrite Hz. now simpl.
Qed.

(** X2. A result that does not compare equal to zero is stored rounded to
    two digits, with the start of the window as the last reset, and the
    sensor is initialised from then on; nothing else of the sensor
    changes. *)
Theorem async_update_stores_reading (s : UsageSensor.t) (w : world)
    t_from t_to reading v :
  polls env s w ->
  fst (daily_window env (call_world s w)) = Ok (t_from, t_to) ->
  catchup_answered env (UsageSensor.resource s) (call_world s w) ->
  readings_call env (UsageSensor.api s) (UsageSensor.resource s)
                (call_world s w) t_from t_to = Ok reading ->
  summed (data reading) = Ok v ->
  PrimFloat.eqb v 0 = false ->
  fst (UsageSensor.async_update env (s, w)) = Ok tt
  /\ fst (snd (UsageSensor.async_update env (s, w)))
     = {| UsageSensor._attr_last_reset := Some t_from;
          UsageSensor._attr_native_value := Some (round env v 2);
          UsageSensor._attr_unique_id := UsageSensor._attr_unique_id s;
          UsageSensor.api := UsageSensor.api s;
          UsageSensor.initalised := true;
          UsageSensor.resource := UsageSensor.resource s;
          UsageSensor.virtual_entity := UsageSensor.virtual_entity s |}.
Proof.
  intros Hp Ew Hc Er Hs Hnz.
  rewrite (async_update_polls env s w Hp). cbv zeta.
  rewrite (daily_data_of_reading env _ _ _ t_from t_to Ew Hc), Er, Hs.
  unfold store_result, truthy. rewrite Hnz. cbn [negb fst snd].
  split; [reflexivity|].
  destruct Hp as [Hi|Hdue].
  - rewrite Hi. reflexivity.
  - destruct (UsageSensor.initalised s) eqn:Hi; [|reflexivity].
    cbn [negb]. unfold UsageSensor.set_last_reset, UsageSensor.set_native_value.
    cbn. now rewrite Hi.
Qed.

(** X3. Between the update windows an initialised sensor sends nothing: the
    call reads the clock once, returns, and the sensor is as before. *)
Theorem async_update_idle_outside_window (s : UsageSensor.t) (w : world) :
  UsageSensor.initalised s = true ->
  let minutes := datetime.minute (clock env (now_calls w)) in
  ~ (1 <= minutes <= 5 \/ 31 <= minutes <= 35) ->
  UsageSensor.async_update env (s, w) = (Ok tt, (s, tick w)).
Proof.
  intros Hi minutes Hm. rewrite async_update_run, Hi. cbn [negb].
  rewrite should_update_run. cbn [fst]. unfold in_update_window.
  fold minutes. now rewrite bool_decide_eq_false_2.
Qed.
End UsageSensorMore.

(** At 10:15 a new sensor is answered with one reading of 0.0. *)
Lemma async_update_ignores_zero_sample :
  fst (UsageSensor.async_update (sample_env at_1015 zero_reading Failed)
                                (fresh_sensor, world0)) = Ok tt
  /\ fst (snd (UsageSensor.async_update
                 (sample_env at_1015 zero_reading Failed)
                 (fresh_sensor, world0))) = fresh_sensor.
Proof.
  exact (async_update_ignores_zero (sample_env at_1015 zero_reading Failed)
           fresh_sensor world0 0%float midnight_0301
           (or_introl eq_refl) eq_refl eq_refl).
Defined.

(** At 10:15 a new sensor is answered with readings of 1.5 and 2.25. *)
Lemma async_update_stores_reading_sample :
  let env := sample_env at_1015 two_readings Failed in
  fst (UsageSensor.async_update env (fresh_sensor, world0)) = Ok tt
  /\ fst (snd (UsageSensor.async_update env (fresh_sensor, world0)))
     = {| UsageSensor._attr_last_reset := Some midnight_0301;
          UsageSensor._attr_native_value := Some 3.75%float;
          UsageSensor._attr_unique_id := "res-1";
          UsageSensor.api := sample_api;
          UsageSensor.initalised := true;
          UsageSensor.resource := sample_resource "electricity.consumption";
          UsageSensor.virtual_entity := sample_ve |}.
Proof.
  refine (async_update_stores_reading
            (sample_env at_1015 two_readings Failed) fresh_sensor world0
            midnight_0301 (datetime.mk 2024 3 1 10 15 0 0)
            {| data := [ {| datestamp := midnight_0301; value := 1.5 |};
                         {| datestamp := midnight_0301; value := 2.25 |} ] |}
            3.75%float (or_introl eq_refl) eq_refl _ eq_refl eq_refl eq_refl).
  unfold catchup_answered. simpl. discriminate.
Defined.

(** At 10:15 a sensor in steady state does nothing. *)
Lemma async_update_idle_outside_window_sample :
  UsageSensor.async_update (sample_env at_1015 two_readings Failed)
                           (steady_sensor, world0)
  = (Ok tt, (steady_sensor, tick world0)).
Proof.
  refine (async_update_idle_outside_window
            (sample_env at_1015 two_readings Failed) steady_sensor world0
            eq_refl _).
  cbv. intros [[_ H]|[H _]]; apply H; reflexivity.
Defined.

Section UsageSensorRuns.
Variable env : environment.

(** What a call of [async_update] can do to the sensor: nothing, or
    store a value and a last reset, setting [initalised] on the first
    call. *)
Lemma async_update_step (s : UsageSensor.t) (w : world) :
  let s' := fst (snd (UsageSensor.async_update env (s, w))) in
  s' = s
  \/ exists x d,
       s' = {| UsageSensor._attr_last_reset := Some d;
               UsageSensor._attr_native_value := Some x;
               UsageSensor._attr_unique_id := UsageSensor._attr_unique_id s;
               UsageSensor.api := UsageSensor.api s;
               UsageSensor.initalised := true;
               UsageSensor.resource := UsageSensor.resource s;
               UsageSensor.virtual_entity := UsageSensor.virtual_entity s |}.
Proof.
  cbv zeta. rewrite async_update_run.
  destruct (UsageSensor.initalised s) eqn:Hi; cbn [negb].
  - destruct (fst (should_update env w)) as [[|]|]; try (now left).
    cbv zeta. cbn [fst snd].
    destruct (fst (daily_data env _ _ (tick w))) as [[v d]|e]; [|now left].
    unfold store_result. destruct (truthy v); [|now left].
    right. exists (round env v 2), d.
    unfold UsageSensor.set_last_reset, UsageSensor.set_native_value. cbn.
    now rewrite Hi.
  - cbv zeta. cbn [fst snd].
    destruct (fst (daily_data env _ _ w)) as [[v d]|e]; [|now left].
    unfold store_result. destruct (truthy v); [|now left].
    right. exists (round env v 2), d. reflexivity.
Qed.

(** X4. Through any number of updates of a new sensor, whatever the server
    answers: the sensor keeps its client, resource and unique id; it is
    initialised exactly when it holds a value, and exactly when it holds
    a last reset; and once initialised it stays initialised. *)
Theorem usage_sensor_invariants resource virtual_entity api (w : world) (n : nat) :
  let run k :=
    fst (updates env k (UsageSensor.__init__ resource virtual_entity api, w)) in
  UsageSensor.api (run n) = api
  /\ UsageSensor.resource (run n) = resource
  /\ UsageSensor._attr_unique_id (run n) = resource_id resource
  /\ (UsageSensor.initalised (run n) = true
      <-> is_Some (UsageSensor._attr_native_value (run n)))
  /\ (UsageSensor.initalised (run n) = true
      <-> is_Some (UsageSensor._attr_last_reset (run n)))
  /\ (forall m, (n <= m)%nat ->
        UsageSensor.initalised (run n) = true ->
        UsageSensor.initalised (run m) = true).
Proof.
  pose (inv := fun s : UsageSensor.t =>
    UsageSensor.api s = api
    /\ UsageSensor.resource s = resource
    /\ UsageSensor._attr_unique_id s = resource_id resource
    /\ (UsageSensor.initalised s = true
        <-> is_Some (UsageSensor._attr_native_value s))
    /\ (UsageSensor.initalised s = true
        <-> is_Some (UsageSensor._attr_last_reset s))).
  assert (Hstep : forall sw, inv (fst sw) ->
            inv (fst (snd (UsageSensor.async_update env sw)))).
  { intros [s w'] (Ha & Hr & Hu & Hv & Hl). cbn [fst] in *.
    destruct (async_update_step s w') as [E | (x & d & E)]; cbv zeta in E;
      rewrite E.
    - repeat split; tauto.
    - cbn. repeat split; eauto. }
  assert (Hrun : forall k sw, inv (fst sw) -> inv (fst (updates env k sw))).
  { induction k as [|k IH]; intros sw H; simpl; [exact H|].
    apply IH, Hstep, H. }
  assert (Hmono1 : forall sw,
            UsageSensor.initalised (fst sw) = true ->
            UsageSensor.initalised
              (fst (snd (UsageSensor.async_update env sw))) = true).
  { intros [s w'] Hi. cbn [fst] in *.
    destruct (async_update_step s w') as [E | (x & d & E)]; cbv zeta in E;
      rewrite E; [exact Hi|reflexivity]. }
  assert (Hmono : forall j k sw,
            UsageSensor.initalised (fst (updates env k sw)) = true ->
            UsageSensor.initalised (fst (updates env (j + k) sw)) = true).
  { intros j k. revert j. induction k as [|k IH]; intros j sw H.
    - rewrite Nat.add_0_r. simpl in H. clear -H Hmono1.
      revert sw H. induction j as [|j IHj]; intros sw H; simpl; [exact H|].
      apply IHj, Hmono1, H.
    - replace (j + S k)%nat with (S (j + k)) by lia. simpl in *.
      now apply IH. }
  intros run.
  assert (Hinv : inv (run n)).
  { apply Hrun. cbn. repeat split; try reflexivity; try discriminate;
      intros [? H]; discriminate. }
  destruct Hinv as (Ha & Hr & Hu & Hv & Hl).
  repeat split; try assumption; try (apply Hv); try (apply Hl).
  intros m Hle Hi. replace m with ((m - n) + n)%nat by lia.
  now apply Hmono.
Qed.
End UsageSensorRuns.

(** ** The daily usage calculator and [get_reading] *)

Section DailyDataMore.
Variable env : environment.

(** X5. Of a reading with more than two entries only the first two count:
    the result is their sum, whatever follows. *)
Theorem daily_data_ignores_later_entries api resource w t_from t_to
    reading r1 r2 r3 rest :
  fst (daily_window env w) = Ok (t_from, t_to) ->
  catchup_answered env resource w ->
  readings_call env api resource w t_from t_to = Ok reading ->
  data reading = r1 :: r2 :: r3 :: rest ->
  fst (daily_data env api resource w)
  = Ok ((value r1 + value r2)%float, t_from).
Proof.
  intros Ew Hc Er Hd.
  now rewrite (daily_data_of_reading env api resource w t_from t_to Ew Hc),
    Er, Hd.
Qed.

(** X6. What [daily_data] sends. It reads the clock twice and leaves the
    cache alone. When no window can be computed it sends nothing.
    Otherwise it sends the catch-up request first and, unless the
    transport failed on it, the readings request for the window with
    period [P1D], and nothing more; the status of the catch-up response
    plays no part. *)
Theorem daily_data_requests api resource (w : world) :
  let rid := resource_id resource in
  let after := snd (daily_data env api resource w) in
  now_calls after = S (S (now_calls w))
  /\ lru after = lru w
  /\ (forall e, fst (daily_window env w) = Raise e ->
        fst (daily_data env api resource w) = Raise e
        /\ requests after = requests w)
  /\ (forall t_from t_to, fst (daily_window env w) = Ok (t_from, t_to) ->
        (serve_catchup env (GET_catchup rid :: requests w) = Failed ->
         fst (daily_data env api resource w) = Raise ClientError
         /\ requests after = GET_catchup rid :: requests w)
        /\ (forall status,
              serve_catchup env (GET_catchup rid :: requests w)
              = Response status tt ->
              requests after
              = GET_readings rid t_from t_to P1D
                :: GET_catchup rid :: requests w)).
Proof.
  intros rid after.
  destruct (fst (daily_window env w)) as [[t_from t_to]|e] eqn:Ew.
  - pose proof (daily_window_run env w t_from t_to Ew) as Ew'.
    pose proof (daily_data_run env api resource w t_from t_to _ Ew') as E.
    cbv zeta in E. fold rid in E. subst after. rewrite E.
    change (requests (sent (GET_catchup rid) (tick (tick w))))
      with (GET_catchup rid :: requests w).
    destruct (serve_catchup env (GET_catchup rid :: requests w))
      as [|status []] eqn:Ec; cbn [fst snd].
    + split; [reflexivity|]. split; [reflexivity|]. split.
      * intros e He. discriminate.
      * intros t1 t2 Eq. split; [now intros _|]. intros st Hr. discriminate.
    + split; [reflexivity|]. split; [reflexivity|]. split.
      * intros e He. discriminate.
      * intros t1 t2 Eq. split; [intros Hf; discriminate|].
        intros st _. now inversion Eq.
  - assert (E : daily_data env api resource w = (Raise e, tick (tick w))).
    { unfold daily_data, bind.
      pose proof (daily_window_world env w) as Hw.
      destruct (daily_window env w) as [r w1]. cbn [fst snd] in *.
      now subst. }
    subst after. rewrite E. cbn [fst snd].
    split; [reflexivity|]. split; [reflexivity|]. split.
    + intros e' He. now inversion He.
    + intros t1 t2 Eq. discriminate.
Qed.

Lemma decode_readings_ok (json_data : list (Z * float)) :
  is_ok (decode_readings env json_data)
  = forallb (fun p => is_ok (fromtimestamp env (fst p))) json_data.
Proof.
  induction json_data as [|[epoch v] rest IH]; simpl; [reflexivity|].
  destruct (fromtimestamp env epoch); simpl; [|reflexivity].
  rewrite <- IH. now destruct (decode_readings env rest).
Qed.

Lemma decode_readings_datestamps (json_data : list (Z * float)) l :
  decode_readings env json_data = Ok l ->
  map (fun r => Ok (datestamp r)) l
  = map (fun p => fromtimestamp env (fst p)) json_data.
Proof.
  revert l. induction json_data as [|[epoch v] rest IH]; simpl; intros l E.
  - now inversion E.
  - destruct (fromtimestamp env epoch) eqn:Et; [|discriminate].
    destruct (decode_readings env rest) as [l'|]; [|discriminate].
    inversion E; subst; simpl. f_equal. now apply IH.
Qed.

(** X7. A readings response with status 200 is returned entry by entry: the
    call returns exactly when every epoch converts to a local time, and
    the reading then holds the values of the body, in order and in the
    same number, each with the conversion of its epoch. *)
Theorem get_reading_keeps_entries api rid t_from t_to p (w : world) json_data :
  serve_readings env (GET_readings rid t_from t_to p :: requests w)
  = Response 200 json_data ->
  let outcome := fst (GlowMarkt.get_reading env api rid t_from t_to p w) in
  is_ok outcome
  = forallb (fun e => is_ok (fromtimestamp env (fst e))) json_data
  /\ forall reading, outcome = Ok reading ->
       map value (data reading) = map snd json_data
       /\ length (data reading) = length json_data
       /\ map (fun r => Ok (datestamp r)) (data reading)
          = map (fun e => fromtimestamp env (fst e)) json_data.
Proof.
  intros Es outcome. subst outcome. rewrite get_reading_run, Es.
  cbn [fst Z.eqb Pos.eqb].
  destruct (decode_readings env json_data) as [l|e] eqn:Ed.
  - split.
    + rewrite <- decode_readings_ok, Ed. reflexivity.
    + intros reading Er. inversion Er; subst; cbn [data].
      pose proof (decode_readings_values env json_data l Ed) as Hv.
      repeat split.
      * exact Hv.
      * rewrite <- (length_map value l), Hv. apply length_map.
      * now apply decode_readings_datestamps.
  - split.
    + rewrite <- decode_readings_ok, Ed. reflexivity.
    + intros reading Er. discriminate.
Qed.
End DailyDataMore.

(** Three readings of 1.5, 2.25 and 4: the answer is 3.75. *)
Lemma daily_data_ignores_later_entries_sample :
  fst (daily_data (sample_env at_1015 three_readings Failed) sample_api
                  (sample_resource "electricity.consumption") world0)
  = Ok (3.75%float, midnight_0301).
Proof.
  refine (daily_data_ignores_later_entries
            (sample_env at_1015 three_readings Failed) sample_api
            (sample_resource "electricity.consumption") world0
            midnight_0301 (datetime.mk 2024 3 1 10 15 0 0)
            {| data := [ {| datestamp := midnight_0301; value := 1.5 |};
                         {| datestamp := midnight_0301; value := 2.25 |};
                         {| datestamp := midnight_0301; value := 4 |} ] |}
            _ _ _ [] eq_refl _ eq_refl eq_refl).
  unfold catchup_answered. simpl. discriminate.
Defined.

Lemma get_reading_keeps_entries_sample :
  let outcome :=
    fst (GlowMarkt.get_reading (sample_env at_1015 three_readings Failed)
           sample_api "res-1" midnight_0301 at_1015 P1D world0) in
  is_ok outcome = true
  /\ forall reading, outcome = Ok reading ->
       map value (data reading) = [1.5%float; 2.25%float; 4%float]
       /\ length (data reading) = 3%nat
       /\ map (fun r => Ok (datestamp r)) (data reading)
          = [Ok midnight_0301; Ok midnight_0301; Ok midnight_0301].
Proof.
  exact (get_reading_keeps_entries
           (sample_env at_1015 three_readings Failed) sample_api "res-1"
           midnight_0301 at_1015 P1D world0 _ eq_refl).
Defined.

(** ** The tariff coordinator and its dependents *)

Section CoordinatorMore.
Variable env : environment.

Lemma mapping_size (tariff : TariffRates) :
  size (TariffCoordinator.mapping tariff) = 2%nat.
Proof.
  unfold TariffCoordinator.mapping.
  rewrite map_size_insert_None.
  - now rewrite map_size_insert_None, map_size_empty.
  - rewrite lookup_insert_ne by discriminate. apply lookup_empty.
Qed.

Lemma mapping_rate (tariff : TariffRates) :
  TariffCoordinator.mapping tariff !! "rate"%string = Some (rate tariff).
Proof. apply lookup_insert_eq. Qed.

Lemma mapping_standing_charge (tariff : TariffRates) :
  TariffCoordinator.mapping tariff !! "standing_charge"%string
  = Some (standing_charge tariff).
Proof.
  unfold TariffCoordinator.mapping.
  rewrite lookup_insert_ne by discriminate. apply lookup_insert_eq.
Qed.

(** What a refresh can do: leave the coordinator alone or set both
    flags; send nothing or the tariff request; return the empty mapping
    or the mapping of a tariff. *)
Lemma _async_update_data_step (s : TariffCoordinator.t) (w : world) :
  let run := TariffCoordinator._async_update_data env (s, w) in
  let rid := resource_id (TariffCoordinator.resource s) in
  (fst (snd run) = s \/ fst (snd run) = both_initalised s)
  /\ (requests (snd (snd run)) = requests w
      \/ requests (snd (snd run)) = GET_tariff rid :: requests w)
  /\ lru (snd (snd run)) = lru w
  /\ (forall m, fst run = Ok m ->
        m = ∅ \/ exists tariff, m = TariffCoordinator.mapping tariff).
Proof.
  cbv zeta. rewrite _async_update_data_run. cbv zeta.
  destruct (negb _ || negb _).
  - destruct (fst (tariff_data env _ _ w)) as [tariff|e]; cbn [fst snd];
      (split; [|split; [|split]]); try (now left); try (now right);
      try reflexivity; intros m E; inversion E; subst.
    right. now exists tariff.
  - destruct (in_update_window _).
    + destruct (fst (tariff_data env _ _ (tick w))) as [tariff|e];
        cbn [fst snd];
        (split; [|split; [|split]]); try (now left); try (now right);
        try reflexivity; intros m E; inversion E; subst.
      right. now exists tariff.
    + cbn [fst snd]. (split; [|split; [|split]]); try (now left);
        try reflexivity.
      intros m E. inversion E. now left.
Qed.

(** X8. Whatever mapping a refresh returns, [Rate] and [Standing] take it
    without a [KeyError]: the empty mapping leaves them as they are, and
    any other mapping is that of a tariff, whose rate and standing charge
    they divide by 100, round to four digits, store and write out
    once. *)
Theorem dependents_follow_refresh (s : TariffCoordinator.t) (w : world) m
    (r : Rate.t) (st : Standing.t) :
  fst (TariffCoordinator._async_update_data env (s, w)) = Ok m ->
  (m = ∅
   /\ Rate._handle_coordinator_update env (Some m) r = (Ok tt, r)
   /\ Standing._handle_coordinator_update env (Some m) st = (Ok tt, st))
  \/ exists tariff,
       m = TariffCoordinator.mapping tariff
       /\ Rate._handle_coordinator_update env (Some m) r
          = (Ok tt,
             {| Rate._attr_native_value :=
                  Some (round env (rate tariff / 100)%float 4);
                Rate._attr_unique_id := Rate._attr_unique_id r;
                Rate.resource := Rate.resource r;
                Rate.virtual_entity := Rate.virtual_entity r;
                Rate.ha_states :=
                  Some (round env (rate tariff / 100)%float 4)
                  :: Rate.ha_states r |})
       /\ Standing._handle_coordinator_update env (Some m) st
          = (Ok tt,
             {| Standing._attr_native_value :=
                  Some (round env (standing_charge tariff / 100)%float 4);
                Standing._attr_unique_id := Standing._attr_unique_id st;
                Standing.resource := Standing.resource st;
                Standing.virtual_entity := Standing.virtual_entity st;
                Standing.ha_states :=
                  Some (round env (standing_charge tariff / 100)%float 4)
                  :: Standing.ha_states st |}).
Proof.
  intros E.
  destruct (_async_update_data_step s w) as (_ & _ & _ & Hm).
  destruct (Hm m E) as [-> | [tariff ->]].
  - left. repeat split.
  - right. exists tariff. split; [reflexivity|].
    unfold Rate._handle_coordinator_update,
      Standing._handle_coordinator_update, dict_truthy, getitem.
    rewrite mapping_size. cbn [Nat.eqb negb mbind option_bind].
    rewrite mapping_rate, mapping_standing_charge.
    split; reflexivity.
Qed.

(** X9. Through any number of refreshes of a new coordinator, whatever the
    server answers: the coordinator keeps its client and resource, its
    two flags are equal, the cache is not touched, and all it has sent
    are tariff requests for its resource, at most one per refresh. *)
Theorem coordinator_invariants api resource (w : world) (n : nat) :
  let run := refreshes env n (TariffCoordinator.__init__ api resource, w) in
  TariffCoordinator.api (fst run) = api
  /\ TariffCoordinator.resource (fst run) = resource
  /\ TariffCoordinator.rate_initalised (fst run)
     = TariffCoordinator.standing_initalised (fst run)
  /\ lru (snd run) = lru w
  /\ exists k, (k <= n)%nat
       /\ requests (snd run)
          = repeat (GET_tariff (resource_id resource)) k ++ requests w.
Proof.
  pose (inv := fun (j : nat) (w0 : world) (sw : TariffCoordinator.t * world) =>
    TariffCoordinator.api (fst sw) = api
    /\ TariffCoordinator.resource (fst sw) = resource
    /\ TariffCoordinator.rate_initalised (fst sw)
       = TariffCoordinator.standing_initalised (fst sw)
    /\ lru (snd sw) = lru w0
    /\ exists k, (k <= j)%nat
         /\ requests (snd sw)
            = repeat (GET_tariff (resource_id resource)) k ++ requests w0).
  assert (Hrun : forall j i sw, inv i w sw ->
                   inv (j + i)%nat w (refreshes env j sw)).
  { induction j as [|j IH]; intros i sw H; [exact H|].
    simpl refreshes. replace (S j + i)%nat with (j + S i)%nat by lia.
    apply IH. destruct sw as [s w'].
    destruct H as (Ha & Hr & Hf & Hl & k & Hk & Hq). cbn [fst snd] in *.
    destruct (_async_update_data_step s w') as (Hs & Hreq & Hlru & _).
    cbv zeta in Hs, Hreq, Hlru. unfold inv.
    assert (Hobj : TariffCoordinator.api (fst (snd
                     (TariffCoordinator._async_update_data env (s, w')))) = api
                   /\ TariffCoordinator.resource (fst (snd
                     (TariffCoordinator._async_update_data env (s, w'))))
                      = resource
                   /\ TariffCoordinator.rate_initalised (fst (snd
                     (TariffCoordinator._async_update_data env (s, w'))))
                      = TariffCoordinator.standing_initalised (fst (snd
                     (TariffCoordinator._async_update_data env (s, w'))))).
    { destruct Hs as [-> | ->]; [tauto|]. cbn. tauto. }
    destruct Hobj as (Ha' & Hr' & Hf').
    repeat split; try assumption; try congruence.
    destruct Hreq as [Hreq | Hreq]; rewrite Hreq.
    - exists k. split; [lia|exact Hq].
    - exists (S k). split; [lia|]. rewrite Hr, Hq. reflexivity. }
  intros run. specialize (Hrun n 0%nat (TariffCoordinator.__init__ api resource, w)).
  rewrite Nat.add_0_r in Hrun. apply Hrun.
  unfold inv. cbn. repeat split. exists 0%nat. split; [lia|reflexivity].
Qed.
End CoordinatorMore.

(** The refresh of the sample coordinator at 10:15 reaches [Rate] as
    15.5 and [Standing] as 45. *)
Lemma dependents_follow_refresh_sample :
  let env := sample_env at_1015 Failed (Response 200 sample_tariff) in
  exists tariff,
    rate tariff = 1550%float /\ standing_charge tariff = 4500%float
    /\ Rate._attr_native_value
         (snd (Rate._handle_coordinator_update env
                 (Some (TariffCoordinator.mapping tariff)) sample_rate))
       = Some 15.5%float
    /\ Standing._attr_native_value
         (snd (Standing._handle_coordinator_update env
                 (Some (TariffCoordinator.mapping tariff)) sample_standing))
       = Some 45%float.
Proof.
  cbv zeta.
  destruct (dependents_follow_refresh
              (sample_env at_1015 Failed (Response 200 sample_tariff))
              sample_coordinator world0
              (TariffCoordinator.mapping
                 {| rate := 1550; standing_charge := 4500 |})
              sample_rate sample_standing eq_refl)
    as [(Hempty & _ & _) | (tariff & Hm & Hr & Hs)].
  - exfalso.
    apply (f_equal (fun m : gmap string float => m !! "rate"%string)) in Hempty.
    rewrite mapping_rate, lookup_empty in Hempty. discriminate.
  - exists tariff.
    pose proof (f_equal (fun m : gmap string float => m !! "rate"%string) Hm)
      as H1.
    pose proof (f_equal (fun m : gmap string float =>
                           m !! "standing_charge"%string) Hm) as H2.
    cbv beta in H1, H2.
    rewrite !mapping_rate in H1. rewrite !mapping_standing_charge in H2.
    cbn [rate standing_charge] in H1, H2.
    injection H1 as H1. injection H2 as H2.
    rewrite <- Hm, Hr, Hs. cbn [snd Rate._attr_native_value
      Standing._attr_native_value]. rewrite <- H1, <- H2.
    repeat split.
Defined.

(** ** [get_virtual_entites] under [lru_cache], further *)

Section VirtualEntitiesMore.
Variable env : environment.

Lemma lru_find_remove_ne k k' c :
  k <> k' -> lru_find k (lru_remove k' c) = lru_find k c.
Proof.
  intros Hne. unfold lru_remove.
  induction c as [|[k0 v] c IH]; [reflexivity|].
  cbn [filter list_filter fst lru_find]. unfold filter in IH |- *.
  cbn [list_filter fst].
  destruct (Nat.eqb_spec k0 k') as [->|Hk0].
  - cbn [negb]. destruct (decide (Is_true false)) as [[]|_].
    rewrite IH. destruct (Nat.eqb_spec k' k); [congruence|reflexivity].
  - cbn [negb]. destruct (decide (Is_true true)) as [_|H]; [|now destruct H].
    cbn [lru_find]. now rewrite IH.
Qed.

Lemma lru_remove_length k c : (length (lru_remove k c) <= length c)%nat.
Proof. unfold lru_remove. apply length_filter. Qed.

Lemma lru_find_store_ne k k' v c :
  k <> k' -> (length c < lru_maxsize)%nat ->
  lru_find k (lru_store k' v c) = lru_find k c.
Proof.
  intros Hne Hlen. unfold lru_store.
  rewrite take_ge.
  - cbn [lru_find]. destruct (Nat.eqb_spec k' k); [congruence|].
    now apply lru_find_remove_ne.
  - cbn [length]. pose proof (lru_remove_length k' c). unfold lru_maxsize in *.
    lia.
Qed.

Lemma lru_find_close_ne k k' c :
  k <> k' -> lru_find k (lru_close k' c) = lru_find k c.
Proof.
  intros Hne. unfold lru_close.
  induction c as [|[k0 v] c IH]; [reflexivity|].
  cbn [map fst lru_find].
  destruct (Nat.eqb_spec k0 k') as [->|Hk0].
  - cbn [lru_find]. rewrite IH.
    destruct (Nat.eqb_spec k' k); [congruence|reflexivity].
  - cbn [lru_find]. now rewrite IH.
Qed.

(** The cache after a call, by what it held for the instance. *)
Lemma get_virtual_entites_lru api (w : world) :
  let k := GlowMarkt.instance api in
  lru (snd (GlowMarkt.get_virtual_entites env api w))
  = match lru_find k (lru w) with
    | Some CORO_CLOSED => lru_store k CORO_CLOSED (lru w)
    | _ => lru_close k (lru_store k CORO_CREATED (lru w))
    end.
Proof.
  cbv zeta.
  unfold GlowMarkt.get_virtual_entites, bind,
    GlowMarkt.get_virtual_entites_call.
  destruct (lru_find (GlowMarkt.instance api) (lru w)) as [[|]|];
    try reflexivity;
    unfold finally; rewrite get_virtual_entites_body_run; reflexivity.
Qed.

Lemma get_virtual_entites_closes api (w : world) :
  lru_find (GlowMarkt.instance api)
           (lru (snd (GlowMarkt.get_virtual_entites env api w)))
  = Some CORO_CLOSED.
Proof.
  rewrite get_virtual_entites_lru. cbv zeta.
  destruct (lru_find _ (lru w)) as [[|]|];
    auto using lru_find_close_store, lru_find_store.
Qed.

Lemma lru_remove_length_found k v c :
  lru_find k c = Some v -> (length (lru_remove k c) < length c)%nat.
Proof.
  induction c as [|[k0 v0] c IH]; [discriminate|].
  pose proof (lru_remove_length k c) as Hle.
  unfold lru_remove in IH, Hle |- *.
  rewrite filter_cons. cbn [lru_find fst].
  destruct (Nat.eqb k0 k); cbn [negb].
  - intros _. destruct (decide (Is_true false)) as [[]|_].
    cbn [length]. lia.
  - intros H. destruct (decide (Is_true true)) as [_|Hn]; [|now destruct Hn].
    cbn [length]. apply IH in H. lia.
Qed.

Lemma lru_store_length k v c :
  (length (lru_store k v c) <= S (length c))%nat.
Proof.
  unfold lru_store. rewrite length_take. cbn [length].
  pose proof (lru_remove_length k c). lia.
Qed.

Lemma lru_store_length_found k v v' c :
  lru_find k c = Some v' -> (length (lru_store k v c) <= length c)%nat.
Proof.
  intros H. apply lru_remove_length_found in H.
  unfold lru_store. rewrite length_take. cbn [length]. lia.
Qed.

Lemma lru_close_length k c : length (lru_close k c) = length c.
Proof. unfold lru_close. apply length_map. Qed.

(** A call grows the cache by one entry at most. *)
Lemma get_virtual_entites_lru_length api (w : world) :
  (length (lru (snd (GlowMarkt.get_virtual_entites env api w)))
   <= S (length (lru w)))%nat.
Proof.
  rewrite get_virtual_entites_lru. cbv zeta.
  destruct (lru_find _ (lru w)) as [[|]|];
    rewrite ?lru_close_length; apply lru_store_length.
Qed.

(** A closed coroutine stays in the cache through the calls of other
    clients as long as the cache does not overflow, and through the
    client's own calls, which send nothing. *)
Lemma closed_stays api (between : list GlowMarkt.t) (w : world) :
  lru_find (GlowMarkt.instance api) (lru w) = Some CORO_CLOSED ->
  (length (lru w) + calls_of_others api between <= lru_maxsize)%nat ->
  lru_find (GlowMarkt.instance api) (lru (calls_by env between w))
  = Some CORO_CLOSED
  /\ (calls_of_others api between = 0%nat ->
      requests (calls_by env between w) = requests w).
Proof.
  revert w. induction between as [|a rest IH]; intros w Hc Hlen;
    [now split|].
  cbn [calls_by calls_of_others] in *.
  destruct (Nat.eqb_spec (GlowMarkt.instance a) (GlowMarkt.instance api))
    as [Heq|Hne].
  - assert (Hc' : lru_find (GlowMarkt.instance a) (lru w) = Some CORO_CLOSED)
      by now rewrite Heq.
    destruct (IH (snd (GlowMarkt.get_virtual_entites env a w))) as [H1 H2].
    + rewrite <- Heq. apply get_virtual_entites_closes.
    + rewrite get_virtual_entites_lru. cbv zeta. rewrite Hc'.
      pose proof (lru_store_length_found _ CORO_CLOSED _ _ Hc'). lia.
    + split; [exact H1|]. intros H0. rewrite (H2 H0).
      now rewrite (get_virtual_entites_again env a w Hc').
  - destruct (IH (snd (GlowMarkt.get_virtual_entites env a w))) as [H1 _].
    + rewrite get_virtual_entites_lru. cbv zeta.
      assert (Hne' : GlowMarkt.instance api <> GlowMarkt.instance a)
        by congruence.
      assert (Hroom : (length (lru w) < lru_maxsize)%nat) by lia.
      destruct (lru_find (GlowMarkt.instance a) (lru w)) as [[|]|];
        rewrite ?lru_find_close_ne by exact Hne';
        rewrite lru_find_store_ne by assumption; exact Hc.
    + pose proof (get_virtual_entites_lru_length a w). lia.
    + split; [exact H1|discriminate].
Qed.

(** X10. While its coroutine stays in the cache, a client's discovery is
    made once. Let a client not yet in the cache make its first call,
    which sends the request whatever the outcome, and let any calls
    follow, by this client or by others, where the entries the cache held
    before the first call and the calls of other clients together are
    fewer than the 128 the cache keeps. Then a further call of the client
    raises [RuntimeError] and sends nothing, also when the first call
    failed; and when no other client called in between, the one request
    of the first call is all that has been sent. (Once 128 other clients
    have called, the entry is dropped and the client's next call reaches
    the server again: [get_virtual_entites_after_eviction].) *)
Theorem get_virtual_entites_only_once api (w : world)
    (between : list GlowMarkt.t) :
  lru_find (GlowMarkt.instance api) (lru w) = None ->
  (length (lru w) + calls_of_others api between < lru_maxsize)%nat ->
  let first := GlowMarkt.get_virtual_entites env api w in
  let later := calls_by env between (snd first) in
  requests (snd first) = GET_virtualentity :: requests w
  /\ fst (GlowMarkt.get_virtual_entites env api later)
     = Raise (RuntimeError "cannot reuse already awaited coroutine")
  /\ requests (snd (GlowMarkt.get_virtual_entites env api later))
     = requests later
  /\ lru_find (GlowMarkt.instance api)
              (lru (snd (GlowMarkt.get_virtual_entites env api later)))
     = Some CORO_CLOSED
  /\ (calls_of_others api between = 0%nat ->
      requests (snd (GlowMarkt.get_virtual_entites env api later))
      = GET_virtualentity :: requests w).
Proof.
  intros Hmiss Hlen first later.
  assert (Hreq : requests (snd first) = GET_virtualentity :: requests w).
  { subst first. now rewrite (get_virtual_entites_first env api w Hmiss). }
  destruct (closed_stays api between (snd first)) as [Hc Hq].
  { apply get_virtual_entites_closes. }
  { pose proof (get_virtual_entites_lru_length api w). fold first in H. lia. }
  fold later in Hc, Hq.
  split; [exact Hreq|].
  rewrite (get_virtual_entites_again env api later Hc). cbn [fst snd].
  split; [reflexivity|]. split; [reflexivity|]. split.
  - pose proof (get_virtual_entites_closes api later) as H.
    now rewrite (get_virtual_entites_again env api later Hc) in H.
  - intros H0. rewrite <- Hreq. exact (Hq H0).
Qed.

(** X11. A call on one client does not change what the cache holds for
    another, as long as the cache is not full: the other client's first
    call still reaches the server. *)
Theorem get_virtual_entites_per_instance api1 api2 (w : world) :
  GlowMarkt.instance api1 <> GlowMarkt.instance api2 ->
  (length (lru w) < lru_maxsize)%nat ->
  lru_find (GlowMarkt.instance api2)
           (lru (snd (GlowMarkt.get_virtual_entites env api1 w)))
  = lru_find (GlowMarkt.instance api2) (lru w).
Proof.
  intros Hne Hlen. rewrite get_virtual_entites_lru. cbv zeta.
  assert (Hne' : GlowMarkt.instance api2 <> GlowMarkt.instance api1)
    by congruence.
  destruct (lru_find (GlowMarkt.instance api1) (lru w)) as [[|]|];
    rewrite ?lru_find_close_ne by exact Hne';
    now apply lru_find_store_ne.
Qed.
End VirtualEntitiesMore.

(** The server refuses the discovery; after two more calls of the client
    and one of another client in between, the client still only raises,
    and the only further request is the other client's. *)
Lemma get_virtual_entites_only_once_sample :
  let env := discovery_refused in
  let first := GlowMarkt.get_virtual_entites env sample_api world0 in
  let later := calls_by env [sample_api; other_api; sample_api] (snd first) in
  (requests (snd first) = [GET_virtualentity]
   /\ fst (GlowMarkt.get_virtual_entites env sample_api later)
      = Raise (RuntimeError "cannot reuse already awaited coroutine")
   /\ requests (snd (GlowMarkt.get_virtual_entites env sample_api later))
      = requests later
   /\ lru_find (GlowMarkt.instance sample_api)
               (lru (snd (GlowMarkt.get_virtual_entites env sample_api later)))
      = Some CORO_CLOSED)
  /\ requests later = [GET_virtualentity; GET_virtualentity].
Proof.
  split; [|reflexivity].
  destruct (get_virtual_entites_only_once discovery_refused sample_api world0
              [sample_api; other_api; sample_api] eq_refl)
    as (H1 & H2 & H3 & H4 & _).
  - vm_compute. lia.
  - repeat (split; [assumption|]). assumption.
Defined.

(** After the calls of 128 other clients the entry is gone: the client's
    next call sends the request again, and the refusal of the server is
    raised instead of [RuntimeError]. *)
Example get_virtual_entites_after_eviction :
  let env := discovery_refused in
  let first := GlowMarkt.get_virtual_entites env sample_api world0 in
  let later := calls_by env other_clients (snd first) in
  let again := GlowMarkt.get_virtual_entites env sample_api later in
  lru_find (GlowMarkt.instance sample_api) (lru later) = None
  /\ fst again = fst first
  /\ requests (snd again) = GET_virtualentity :: requests later
  /\ length (requests (snd again)) = 130%nat.
Proof. vm_compute. repeat split. Qed.

Lemma get_virtual_entites_per_instance_sample :
  lru_find (GlowMarkt.instance other_api)
    (lru (snd (GlowMarkt.get_virtual_entites
                 (sample_env at_1015 Failed Failed) sample_api world0)))
  = None.
Proof.
  refine (get_virtual_entites_per_instance
            (sample_env at_1015 Failed Failed) sample_api other_api world0
            _ _).
  - discriminate.
  - unfold lru_maxsize. simpl. lia.
Defined.

(** ** The cost sensor *)

Section CostSensor.
Variable env : environment.

Lemma cost_async_update_run (s : Cost.t) (w : world) :
  Cost.async_update env (s, w)
  = if negb (Cost.initialised s)
    then
      let r := daily_data env (Cost.api s) (Cost.resource s) w in
      (fst (store_cost env true s (fst r)),
       (snd (store_cost env true s (fst r)), snd r))
    else
      if in_update_window (datetime.minute (clock env (now_calls w)))
      then
        let r := daily_data env (Cost.api s) (Cost.resource s) (tick w) in
        (fst (store_cost env false s (fst r)),
         (snd (store_cost env false s (fst r)), snd r))
      else (Ok tt, (s, tick w)).
Proof.
  unfold Cost.async_update, bind at 1. unfold self at 1. cbn [fst].
  destruct (Cost.initialised s); cbn [negb].
  - unfold bind at 1. rewrite in_world_run, should_update_run. cbn [fst snd].
    destruct (in_update_window _); [|reflexivity].
    unfold bind at 1. rewrite in_world_run.
    destruct (daily_data env _ _ (tick w)) as [[[v t_from]|e] w']; simpl;
      [|reflexivity].
    destruct (truthy v); reflexivity.
  - unfold bind at 1. rewrite in_world_run.
    destruct (daily_data env _ _ w) as [[[v t_from]|e] w']; simpl;
      [|reflexivity].
    destruct (truthy v); reflexivity.
Qed.

(** X12. The cost sensor shows the daily figure divided by 100 and rounded to
    two digits. On its first successful update it becomes initialised; a
    figure that compares equal to zero, or an exception, leaves it as it
    was, the exception leaving [async_update] uncaught. *)
Theorem cost_async_update_outcome (s : Cost.t) (w : world) :
  Cost.initialised s = false ->
  let r := fst (daily_data env (Cost.api s) (Cost.resource s) w) in
  let run := Cost.async_update env (s, w) in
  (forall e, r = Raise e -> fst run = Raise e /\ fst (snd run) = s)
  /\ (forall v t, r = Ok (v, t) -> PrimFloat.eqb v 0 = true ->
        fst run = Ok tt /\ fst (snd run) = s)
  /\ (forall v t, r = Ok (v, t) -> PrimFloat.eqb v 0 = false ->
        fst run = Ok tt
        /\ fst (snd run)
           = {| Cost._attr_native_value := Some (round env (v / 100)%float 2);
                Cost._attr_unique_id := Cost._attr_unique_id s;
                Cost.api := Cost.api s;
                Cost.initialised := true;
                Cost.meter_id := Cost.meter_id s;
                Cost.resource := Cost.resource s;
                Cost.virtual_entity := Cost.virtual_entity s |}).
Proof.
  intros Hi r run. subst run. rewrite cost_async_update_run, Hi.
  cbn [negb]. cbv zeta. fold r. unfold store_cost, truthy.
  split; [|split].
  - intros e ->. now split.
  - intros v t -> Hz. rewrite Hz. now split.
  - intros v t -> Hz. rewrite Hz. now split.
Qed.

End CostSensor.

(** 150 pence at 10:15 show as 1.5. *)
Lemma cost_async_update_outcome_sample :
  let env := sample_env at_1015 pence_reading Failed in
  fst (Cost.async_update env (fresh_cost, world0)) = Ok tt
  /\ Cost._attr_native_value
       (fst (snd (Cost.async_update env (fresh_cost, world0))))
     = Some 1.5%float
  /\ Cost.initialised
       (fst (snd (Cost.async_update env (fresh_cost, world0)))) = true.
Proof.
  cbv zeta.
  destruct (cost_async_update_outcome
              (sample_env at_1015 pence_reading Failed) fresh_cost world0
              eq_refl) as (_ & _ & H).
  destruct (H 150%float midnight_0301 eq_refl eq_refl) as [H1 H2].
  rewrite H1, H2. repeat split.
Defined.

(** ** Authentication and the configuration flow *)

Section AuthProperties.
Variable serve_auth : list (string * string) -> http_reply (gmap string string).

Lemma connect_run (api : GlowMarkt.t) (s : Session.t) :
  let s1 := Session.post (GlowMarkt.username api) (GlowMarkt.password api) s in
  connect serve_auth api s
  = match serve_auth (Session.posted s1) with
    | Failed => (Raise ClientError, s1)
    | Response status resp_json =>
        if status =? 200
        then match resp_json !! "token"%string with
             | None => (Raise (KeyError "token"), s1)
             | Some token => (Ok tt, Session.set_header "token" token s1)
             end
        else (Raise (ValueError ["Failed to authenticate"%string]), s1)
    end.
Proof.
  cbv zeta. unfold connect, bind, modify, get_state.
  destruct (serve_auth _) as [|status resp_json]; [reflexivity|].
  destruct (status =? 200); cbn [negb]; [|reflexivity].
  now destruct (resp_json !! "token"%string).
Qed.

(** X13. [connect] posts the credentials once. Refused (any status other than
    200) it raises the [ValueError] "Failed to authenticate"; a transport
    failure or a body without "token" raise as well; in all these cases
    the headers of the session are as before. Accepted, it stores the
    token under the header "token" and keeps every other header. It
    never closes the session. *)
Theorem connect_outcome (api : GlowMarkt.t) (s : Session.t) :
  let run := connect serve_auth api s in
  let credentials := (GlowMarkt.username api, GlowMarkt.password api) in
  let answer := serve_auth (credentials :: Session.posted s) in
  Session.posted (snd run) = credentials :: Session.posted s
  /\ Session.closed (snd run) = Session.closed s
  /\ (answer = Failed ->
      fst run = Raise ClientError
      /\ Session.headers (snd run) = Session.headers s)
  /\ (forall status resp_json, answer = Response status resp_json ->
        status <> 200 ->
        fst run = Raise (ValueError ["Failed to authenticate"%string])
        /\ Session.headers (snd run) = Session.headers s)
  /\ (forall resp_json, answer = Response 200 resp_json ->
        resp_json !! "token"%string = None ->
        fst run = Raise (KeyError "token")
        /\ Session.headers (snd run) = Session.headers s)
  /\ (forall resp_json token, answer = Response 200 resp_json ->
        resp_json !! "token"%string = Some token ->
        fst run = Ok tt
        /\ Session.headers (snd run) !! "token"%string = Some token
        /\ forall k, k <> "token"%string ->
             Session.headers (snd run) !! k = Session.headers s !! k).
Proof.
  intros run credentials answer. subst run. rewrite connect_run. cbv zeta.
  change (Session.posted (Session.post _ _ s))
    with (credentials :: Session.posted s).
  fold answer.
  destruct answer as [|status resp_json] eqn:Ea.
  - cbn [fst snd]. repeat split; try discriminate.
  - destruct (Z.eqb_spec status 200) as [->|Hs].
    + destruct (resp_json !! "token"%string) as [token|] eqn:Et;
        cbn [fst snd].
      * split; [reflexivity|]. split; [reflexivity|].
        split; [discriminate|]. split.
        { intros st rj E Hne. inversion E. congruence. }
        split.
        { intros rj E Hn. inversion E; subst. congruence. }
        intros rj tok E Ht. inversion E; subst.
        rewrite Et in Ht. inversion Ht; subst.
        split; [reflexivity|]. split.
        -- cbn. apply lookup_insert_eq.
        -- intros k Hk. cbn. now apply lookup_insert_ne.
      * split; [reflexivity|]. split; [reflexivity|].
        split; [discriminate|]. split.
        { intros st rj E Hne. inversion E. congruence. }
        split.
        { intros rj E Hn. now split. }
        intros rj tok E Ht. inversion E; subst. congruence.
    + cbn [fst snd]. split; [reflexivity|]. split; [reflexivity|].
      split; [discriminate|]. split.
      { intros st rj E Hne. now split. }
      split.
      { intros rj E Hn. inversion E. congruence. }
      intros rj tok E Ht. inversion E. congruence.
Qed.

Lemma validate_input_run instance (data : gmap string string) u p :
  data !! "username"%string = Some u ->
  data !! "password"%string = Some p ->
  let start := GlowMarkt__init__ instance u p in
  let run := connect serve_auth (fst start) (snd start) in
  validate_input serve_auth instance data
  = (match fst run with
     | Ok _ => Returned {["title"%string := "Glowmarkt Integration"%string]}
     | Raise (ValueError args) => Raised (InvalidAuth (ValueError args))
     | Raise e => Raised (Uncaught e)
     end, Some (Session.close (snd run))).
Proof.
  intros Hu Hp start run. unfold validate_input. rewrite Hu, Hp.
  subst run start. cbn [GlowMarkt__init__ fst snd].
  now destruct (connect serve_auth _ _) as [r s'].
Qed.

Lemma validate_input_answer instance (data : gmap string string) u p :
  data !! "username"%string = Some u ->
  data !! "password"%string = Some p ->
  validate_input serve_auth instance data
  = (match serve_auth [(u, p)] with
     | Failed => Raised (Uncaught ClientError)
     | Response status resp_json =>
         if status =? 200
         then match resp_json !! "token"%string with
              | Some _ =>
                  Returned {["title"%string := "Glowmarkt Integration"%string]}
              | None => Raised (Uncaught (KeyError "token"))
              end
         else Raised (InvalidAuth (ValueError ["Failed to authenticate"%string]))
     end,
     Some {| Session.headers :=
               match serve_auth [(u, p)] with
               | Failed => Session.headers (snd (GlowMarkt__init__ instance u p))
               | Response status resp_json =>
                   match resp_json !! "token"%string with
                   | Some token =>
                       if status =? 200
                       then <["token"%string := token]>
                              (Session.headers
                                 (snd (GlowMarkt__init__ instance u p)))
                       else Session.headers (snd (GlowMarkt__init__ instance u p))
                   | None => Session.headers (snd (GlowMarkt__init__ instance u p))
                   end
               end;
             Session.closed := true;
             Session.posted := [(u, p)] |}).
Proof.
  intros Hu Hp. rewrite (validate_input_run instance data u p Hu Hp).
  cbv zeta. rewrite connect_run. cbv zeta.
  cbn [GlowMarkt__init__ fst snd GlowMarkt.username GlowMarkt.password
       Session.post Session.posted].
  destruct (serve_auth [(u, p)]) as [|status resp_json]; [reflexivity|].
  destruct (status =? 200), (resp_json !! "token"%string); reflexivity.
Qed.

(** X14. [validate_input] always leaves the session of the client it built
    closed, having posted the credentials once. It returns the title
    "Glowmarkt Integration" when the credentials are accepted, raises
    [InvalidAuth] when they are refused, and lets any other exception
    (transport failure, body without token) out as it is. *)
Theorem validate_input_closes_session instance (data : gmap string string) u p :
  data !! "username"%string = Some u ->
  data !! "password"%string = Some p ->
  let run := validate_input serve_auth instance data in
  (exists session,
     snd run = Some session
     /\ Session.closed session = true
     /\ Session.posted session = [(u, p)])
  /\ (forall resp_json token,
        serve_auth [(u, p)] = Response 200 resp_json ->
        resp_json !! "token"%string = Some token ->
        fst run = Returned {["title"%string := "Glowmarkt Integration"%string]})
  /\ (forall status resp_json,
        serve_auth [(u, p)] = Response status resp_json -> status <> 200 ->
        fst run
        = Raised (InvalidAuth (ValueError ["Failed to authenticate"%string])))
  /\ (serve_auth [(u, p)] = Failed -> fst run = Raised (Uncaught ClientError))
  /\ (forall resp_json,
        serve_auth [(u, p)] = Response 200 resp_json ->
        resp_json !! "token"%string = None ->
        fst run = Raised (Uncaught (KeyError "token"))).
Proof.
  intros Hu Hp run. subst run.
  rewrite (validate_input_answer instance data u p Hu Hp). cbn [fst snd].
  split; [|split; [|split; [|split]]].
  - eexists. split; [reflexivity|]. now split.
  - intros resp_json token -> Ht. cbn [Z.eqb Pos.eqb]. now rewrite Ht.
  - intros status resp_json -> Hs. apply Z.eqb_neq in Hs. now rewrite Hs.
  - now intros ->.
  - intros resp_json -> Ht. cbn [Z.eqb Pos.eqb]. now rewrite Ht.
Qed.

(** The flow handler of the platform. *)
Variable flow : Type.
Variable async_set_unique_id : option string -> flow -> option string * flow.
Variable _abort_if_unique_id_configured : flow -> option string * flow.

(** What [validate_input] gives decides the step: an exception shows the
    form again and leaves the handler alone; a result goes on to the
    handler with the title of the result as unique id. *)
Lemma async_step_user_run instance (user_input : gmap string string)
    (self_ : flow) :
  async_step_user serve_auth async_set_unique_id
                  _abort_if_unique_id_configured
                  instance (Some user_input) self_
  = match fst (validate_input serve_auth instance user_input) with
    | Raised e =>
        (Step_returns
           (show_form "user"
              (Some {[ "base"%string :=
                         match e with
                         | InvalidAuth _ => "invalid_auth"%string
                         | Uncaught _ => "unknown"%string
                         end ]})), self_)
    | Returned info =>
        match async_set_unique_id (info !! "title"%string) self_ with
        | (Some reason, self1) => (Step_aborts reason, self1)
        | (None, self1) =>
            match _abort_if_unique_id_configured self1 with
            | (Some reason, self2) => (Step_aborts reason, self2)
            | (None, self2) =>
                match info !! "title"%string with
                | Some title =>
                    (Step_returns (create_entry title user_input), self2)
                | None => (Step_raises (KeyError "title"), self2)
                end
            end
        end
    end.
Proof.
  unfold async_step_user.
  destruct (fst (validate_input serve_auth instance user_input)) as [info|[c|e]];
    reflexivity.
Qed.

(** [validate_input] returns the one title or raises. *)
Lemma validate_input_cases instance (user_input : gmap string string) :
  fst (validate_input serve_auth instance user_input)
  = Returned {["title"%string := "Glowmarkt Integration"%string]}
  \/ exists e,
       fst (validate_input serve_auth instance user_input) = Raised e.
Proof.
  unfold validate_input.
  destruct (user_input !! "username"%string); [|right; now eexists].
  destruct (user_input !! "password"%string); [|right; now eexists].
  cbn [GlowMarkt__init__].
  destruct (connect serve_auth _ _) as [[[]|e] s']; cbn [close modify fst].
  - now left.
  - right. destruct e; now eexists.
Qed.

(** X15. [async_step_user], the server answering the login with a JSON
    object. Without input it shows the empty form. With input it shows
    the form again, and makes no call to the flow handler, with the error
    "invalid_auth" when the credentials are refused and "unknown" on a
    missing key, a transport failure or a body without token. When the
    credentials are accepted it calls [async_set_unique_id] with
    "Glowmarkt Integration", the same unique id whatever the account,
    then [_abort_if_unique_id_configured]: if either aborts, the abort
    leaves the step and no entry is described; otherwise the step
    returns the entry titled "Glowmarkt Integration" with the input as
    data. Nothing but an abort of the handler leaves the step as an
    exception. *)
Theorem async_step_user_outcome instance (self_ : flow) :
  let step :=
    async_step_user serve_auth async_set_unique_id
                    _abort_if_unique_id_configured instance in
  let form error :=
    (Step_returns (show_form "user" (Some {["base"%string := error]})),
     self_) in
  step None self_ = (Step_returns (show_form "user" None), self_)
  /\ forall user_input : gmap string string,
       (forall u p,
          user_input !! "username"%string = Some u ->
          user_input !! "password"%string = Some p ->
          (forall resp_json token,
             serve_auth [(u, p)] = Response 200 resp_json ->
             resp_json !! "token"%string = Some token ->
             step (Some user_input) self_
             = match async_set_unique_id
                       (Some "Glowmarkt Integration"%string) self_ with
               | (Some reason, self1) => (Step_aborts reason, self1)
               | (None, self1) =>
                   match _abort_if_unique_id_configured self1 with
                   | (Some reason, self2) => (Step_aborts reason, self2)
                   | (None, self2) =>
                       (Step_returns
                          (create_entry "Glowmarkt Integration" user_input),
                        self2)
                   end
               end)
          /\ (forall status resp_json,
                serve_auth [(u, p)] = Response status resp_json ->
                status <> 200 ->
                step (Some user_input) self_ = form "invalid_auth"%string)
          /\ (serve_auth [(u, p)] = Failed ->
              step (Some user_input) self_ = form "unknown"%string)
          /\ (forall resp_json,
                serve_auth [(u, p)] = Response 200 resp_json ->
                resp_json !! "token"%string = None ->
                step (Some user_input) self_ = form "unknown"%string))
       /\ (user_input !! "username"%string = None
           \/ user_input !! "password"%string = None ->
           step (Some user_input) self_ = form "unknown"%string)
       /\ (forall title data self',
             step (Some user_input) self_
             = (Step_returns (create_entry title data), self') ->
             title = "Glowmarkt Integration"%string
             /\ data = user_input
             /\ exists self1,
                  async_set_unique_id (Some "Glowmarkt Integration"%string)
                                      self_ = (None, self1)
                  /\ _abort_if_unique_id_configured self1 = (None, self'))
       /\ (forall e self',
             step (Some user_input) self_ <> (Step_raises e, self')).
Proof.
  intros step form. split; [reflexivity|]. intros user_input.
  subst step form. cbv beta.
  rewrite async_step_user_run.
  split; [|split; [|split]].
  - intros u p Hu Hp.
    pose proof (f_equal fst (validate_input_answer instance user_input u p
                               Hu Hp)) as Ev.
    cbn [fst] in Ev. rewrite Ev.
    split; [|split; [|split]].
    + intros resp_json token E Ht. rewrite E. cbn [Z.eqb Pos.eqb].
      rewrite Ht. rewrite lookup_singleton_eq.
      destruct (async_set_unique_id _ self_) as [[reason|] self1];
        [reflexivity|].
      now destruct (_abort_if_unique_id_configured self1) as [[reason|] self2].
    + intros status resp_json E Hs. apply Z.eqb_neq in Hs.
      now rewrite E, Hs.
    + now intros ->.
    + intros resp_json E Hn. rewrite E. cbn [Z.eqb Pos.eqb].
      now rewrite Hn.
  - intros Hmiss. unfold validate_input.
    destruct (user_input !! "username"%string); [|reflexivity].
    destruct Hmiss as [Hm|Hm]; [discriminate|]. now rewrite Hm.
  - intros title data self' Eo.
    destruct (validate_input_cases instance user_input) as [E | [e E]];
      rewrite E in Eo; [|discriminate].
    rewrite lookup_singleton_eq in Eo.
    destruct (async_set_unique_id _ self_) as [[reason|] self1];
      [discriminate|].
    destruct (_abort_if_unique_id_configured self1) as [[reason|] self2] eqn:Ea;
      [discriminate|].
    inversion Eo; subst. split; [reflexivity|]. split; [reflexivity|].
    now exists self1.
  - intros e self' Eo.
    destruct (validate_input_cases instance user_input) as [E | [e' E]];
      rewrite E in Eo; [|discriminate].
    rewrite lookup_singleton_eq in Eo.
    destruct (async_set_unique_id _ self_) as [[reason|] self1];
      [discriminate|].
    destruct (_abort_if_unique_id_configured self1) as [[reason|] self2];
      discriminate.
Qed.
End AuthProperties.

(** The one known account, offered to the flow. *)
Lemma validate_input_closes_session_sample :
  let run := validate_input sample_auth 1 sample_credentials in
  (exists session,
     snd run = Some session
     /\ Session.closed session = true
     /\ Session.posted session = [("user", "secret")]%string)
  /\ fst run = Returned {["title"%string := "Glowmarkt Integration"%string]}.
Proof.
  destruct (validate_input_closes_session sample_auth 1 sample_credentials
              "user" "secret" eq_refl eq_refl) as (Hs & Hacc & _).
  split; [exact Hs|].
  exact (Hacc {["token"%string := "jwt-1"%string]} "jwt-1"%string
              eq_refl eq_refl).
Defined.

(** The first account is accepted and its entry described; with that
    entry configured, a second account that the server accepts as well is
    aborted as already configured, its unique id being the same. *)
Lemma async_step_user_outcome_sample :
  let step :=
    async_step_user two_accounts sample_set_unique_id
                    sample_abort_if_configured 1 in
  let unique_id := Some "Glowmarkt Integration"%string in
  step (Some sample_credentials)
       {| flow_unique_id := None; configured := [] |}
  = (Step_returns (create_entry "Glowmarkt Integration" sample_credentials),
     {| flow_unique_id := unique_id; configured := [] |})
  /\ step (Some second_credentials)
          {| flow_unique_id := None;
             configured := ["Glowmarkt Integration"%string] |}
     = (Step_aborts "already_configured",
        {| flow_unique_id := unique_id;
           configured := ["Glowmarkt Integration"%string] |}).
Proof.
  split.
  - destruct (async_step_user_outcome two_accounts sample_flow
                sample_set_unique_id sample_abort_if_configured 1
                {| flow_unique_id := None; configured := [] |})
      as [_ H].
    destruct (H sample_credentials) as [H1 _].
    destruct (H1 "user"%string "secret"%string eq_refl eq_refl) as [Hacc _].
    exact (Hacc {["token"%string := "jwt-1"%string]} "jwt-1"%string
                eq_refl eq_refl).
  - destruct (async_step_user_outcome two_accounts sample_flow
                sample_set_unique_id sample_abort_if_configured 1
                {| flow_unique_id := None;
                   configured := ["Glowmarkt Integration"%string] |})
      as [_ H].
    destruct (H second_credentials) as [H1 _].
    destruct (H1 "second"%string "secret"%string eq_refl eq_refl) as [Hacc _].
    exact (Hacc {["token"%string := "jwt-1"%string]} "jwt-1"%string
                eq_refl eq_refl).
Defined.

(** ** Building the entities of a virtual entity *)

Section BuildEntities.
Variable api : GlowMarkt.t.
Variable ve : VirtualEntity.t.

Lemma add_usage_unfold st r :
  add_usage api ve st r
  = if is_usage r
    then
      {| entities :=
           entities st
           ++ [ E_usage (UsageSensor.__init__ r ve api);
                E_standing (length (coordinators st)) (Standing.__init__ r ve);
                E_rate (length (coordinators st)) (Rate.__init__ r ve) ];
         meters := <[classifier r := resource_id r]> (meters st);
         coordinators := coordinators st ++ [TariffCoordinator.__init__ api r] |}
    else st.
Proof. reflexivity. Qed.

Lemma usage_entities_kept rs st e :
  In e (entities st) ->
  In e (entities (fold_left (add_usage api ve) rs st)).
Proof.
  revert st. induction rs as [|r rs IH]; intros st H; simpl; [exact H|].
  apply IH. rewrite add_usage_unfold. destruct (is_usage r); [|exact H].
  cbn [entities]. apply in_or_app. now left.
Qed.


Lemma usage_no_cost rs st c :
  In (E_cost c) (entities (fold_left (add_usage api ve) rs st)) ->
  In (E_cost c) (entities st).
Proof.
  revert st. induction rs as [|r rs IH]; intros st H; simpl in H; [exact H|].
  apply IH in H. rewrite add_usage_unfold in H.
  destruct (is_usage r); [|exact H]. cbn [entities] in H.
  apply in_app_or in H. destruct H as [H|H]; [exact H|].
  simpl in H. intuition discriminate.
Qed.

(** The meter registry after the first loop: an entry is an older one or
    the id of a consumption resource of this virtual entity, for which a
    usage sensor has been built. *)
Lemma usage_meters rs st k v :
  meters (fold_left (add_usage api ve) rs st) !! k = Some v ->
  meters st !! k = Some v
  \/ exists r, In r rs /\ is_usage r = true /\ classifier r = k
       /\ resource_id r = v
       /\ In (E_usage (UsageSensor.__init__ r ve api))
             (entities (fold_left (add_usage api ve) rs st)).
Proof.
  revert st. induction rs as [|r rs IH]; intros st H; simpl in *;
    [now left|].
  destruct (IH _ H) as [H0 | (r' & Hin & Hu & Hc & Hv & He)].
  - rewrite add_usage_unfold in H0.
    destruct (is_usage r) eqn:Hu; [|now left]. cbn [meters] in H0.
    destruct (decide (classifier r = k)) as [Hk|Hk].
    + rewrite Hk, lookup_insert_eq in H0. inversion H0; subst.
      right. exists r. repeat split; auto.
      apply usage_entities_kept. rewrite add_usage_unfold, Hu.
      cbn [entities]. apply in_or_app. right. now left.
    + rewrite lookup_insert_ne in H0 by exact Hk. now left.
  - right. exists r'. repeat split; auto.
Qed.

Lemma usage_meters_none rs st k :
  meters (fold_left (add_usage api ve) rs st) !! k = None
  <-> meters st !! k = None
      /\ forall r, In r rs -> is_usage r = true -> classifier r <> k.
Proof.
  revert st. induction rs as [|r rs IH]; intros st; simpl.
  - split; [intros H; split; [exact H|intros r []]|now intros [H _]].
  - rewrite IH, add_usage_unfold. destruct (is_usage r) eqn:Hu.
    + cbn [meters]. split.
      * intros [H0 Hrs].
        destruct (decide (classifier r = k)) as [Hk|Hk].
        { rewrite Hk, lookup_insert_eq in H0. discriminate. }
        rewrite lookup_insert_ne in H0 by exact Hk.
        split; [exact H0|]. intros r' [<-|Hin] Hu'; [exact Hk|now apply Hrs].
      * intros [H0 Hrs]. split.
        { rewrite lookup_insert_ne; [exact H0|]. apply Hrs; [now left|exact Hu]. }
        intros r' Hin. apply Hrs. now right.
    + split.
      * intros [H0 Hrs]. split; [exact H0|].
        intros r' [<-|Hin] Hu'; [congruence|now apply Hrs].
      * intros [H0 Hrs]. split; [exact H0|]. intros r' Hin. apply Hrs.
        now right.
Qed.

Lemma add_cost_unfold st r :
  add_cost api ve st r
  = match cost_meter r with
    | None => Ok st
    | Some k =>
        match meters st !! k with
        | None => Raise (KeyError k)
        | Some meter_id =>
            Ok {| entities :=
                    entities st ++ [E_cost (Cost.__init__ api r ve meter_id)];
                  meters := meters st;
                  coordinators := coordinators st |}
        end
    end.
Proof.
  unfold add_cost, cost_meter, append_cost.
  destruct (String.eqb (classifier r) "gas.consumption.cost"); [reflexivity|].
  now destruct (String.eqb (classifier r) "electricity.consumption.cost").
Qed.

(** The second loop leaves the registry and the coordinators alone,
    keeps the entities built so far and appends one cost entity for each
    cost resource, attached to the registered meter of its kind. *)
Lemma add_costs_ok rs st st' :
  add_costs api ve rs st = Ok st' ->
  meters st' = meters st
  /\ coordinators st' = coordinators st
  /\ length (entities st') = (length (entities st) + count_cost rs)%nat
  /\ (forall e, In e (entities st) -> In e (entities st'))
  /\ (forall e, In e (entities st') ->
        In e (entities st)
        \/ exists r k m, In r rs /\ cost_meter r = Some k
             /\ meters st !! k = Some m
             /\ e = E_cost (Cost.__init__ api r ve m)).
Proof.
  revert st. induction rs as [|r rs IH]; intros st H; simpl in H.
  - inversion H; subst. unfold count_cost. simpl.
    repeat split; auto; lia.
  - rewrite add_cost_unfold in H. unfold count_cost. simpl.
    destruct (cost_meter r) as [k|] eqn:Hk.
    + destruct (meters st !! k) as [m|] eqn:Hm; [|discriminate].
      destruct (IH _ H) as (H1 & H2 & H3 & H4 & H5).
      cbn [meters coordinators entities] in *.
      rewrite bool_decide_eq_true_2 by (now eexists). cbn [length].
      split; [exact H1|]. split; [exact H2|]. split.
      { rewrite H3, length_app. unfold count_cost. simpl. lia. }
      split.
      { intros e He. apply H4, in_or_app. now left. }
      intros e He. destruct (H5 e He) as [Hold | (r' & k' & m' & Hin & Hc & Hl & ->)].
      * apply in_app_or in Hold. destruct Hold as [Hold|[<-|[]]]; [now left|].
        right. exists r, k, m. repeat split; auto with datatypes.
      * right. exists r', k', m'. repeat split; auto with datatypes.
    + destruct (IH _ H) as (H1 & H2 & H3 & H4 & H5).
      rewrite bool_decide_eq_false_2 by (intros [? ?]; discriminate).
      split; [exact H1|]. split; [exact H2|]. split; [exact H3|].
      split; [exact H4|].
      intros e He. destruct (H5 e He) as [Hold | (r' & k' & m' & Hin & Hc & Hl & ->)];
        [now left|].
      right. exists r', k', m'. repeat split; auto with datatypes.
Qed.

Lemma add_costs_raises rs st :
  is_ok (add_costs api ve rs st) = false
  <-> exists r k, In r rs /\ cost_meter r = Some k /\ meters st !! k = None.
Proof.
  revert st. induction rs as [|r rs IH]; intros st; simpl.
  - split; [discriminate|intros (r & k & [] & _)].
  - rewrite add_cost_unfold.
    destruct (cost_meter r) as [k|] eqn:Hk.
    + destruct (meters st !! k) as [m|] eqn:Hm.
      * rewrite IH. cbn [meters]. split.
        -- intros (r' & k' & Hin & Hc & Hn). exists r', k'. auto.
        -- intros (r' & k' & [<-|Hin] & Hc & Hn).
           ++ congruence.
           ++ exists r', k'. auto.
      * simpl. split; [intros _|reflexivity]. exists r, k. auto.
    + rewrite IH. split.
      * intros (r' & k' & Hin & Hc & Hn). exists r', k'. auto.
      * intros (r' & k' & [<-|Hin] & Hc & Hn); [congruence|].
        exists r', k'. auto.
Qed.

Lemma add_costs_exception rs st e :
  add_costs api ve rs st = Raise e -> exists k, e = KeyError k.
Proof.
  revert st. induction rs as [|r rs IH]; intros st H; simpl in H;
    [discriminate|].
  rewrite add_cost_unfold in H.
  destruct (cost_meter r) as [k|]; [|eauto].
  destruct (meters st !! k); [eauto|]. inversion H. eauto.
Qed.

Lemma cost_meter_is_usage r k r' :
  cost_meter r = Some k -> classifier r' = k -> is_usage r' = true.
Proof.
  unfold cost_meter, is_usage. intros Hc ->.
  destruct (String.eqb (classifier r) "gas.consumption.cost");
    [inversion Hc; reflexivity|].
  destruct (String.eqb (classifier r) "electricity.consumption.cost");
    [inversion Hc; reflexivity|discriminate].
Qed.


(** X17. A cost resource needs its meter: the two loops fail exactly when
    some cost resource finds no consumption resource of its kind, neither
    in the registry carried over from earlier virtual entities nor
    anywhere among the resources of this one, before or after it in the
    list. The failure is a [KeyError]. *)
Theorem virtual_entity_needs_meter rs st :
  (is_ok (add_virtual_entity api ve rs st) = false
   <-> exists r k, In r rs /\ cost_meter r = Some k
         /\ meters st !! k = None
         /\ forall r', In r' rs -> classifier r' <> k)
  /\ forall e, add_virtual_entity api ve rs st = Raise e ->
       exists k, e = KeyError k.
Proof.
  unfold add_virtual_entity. split; [|apply add_costs_exception].
  rewrite add_costs_raises. split.
  - intros (r & k & Hin & Hc & Hn). exists r, k.
    apply usage_meters_none in Hn. destruct Hn as [Hn Hrs].
    repeat split; auto. intros r' Hin' Hk.
    apply (Hrs r' Hin'); [|exact Hk]. eapply cost_meter_is_usage; eauto.
  - intros (r & k & Hin & Hc & Hn & Hrs). exists r, k.
    repeat split; auto. apply usage_meters_none. split; [exact Hn|].
    intros r' Hin' _. now apply Hrs.
Qed.
End BuildEntities.


(** ** Devices *)

Section DeviceProperties.
Variable DOMAIN : string.
Variable api : GlowMarkt.t.
Variable ve : VirtualEntity.t.

Lemma supply_type_of_usage r :
  is_usage r = true ->
  supply_type r
  = Ok (if String.eqb (classifier r) "electricity.consumption"
        then "electricity"%string else "gas"%string).
Proof.
  unfold is_usage, supply_type. intros H.
  destruct (String.eqb (classifier r) "electricity.consumption") eqn:He.
  - apply String.eqb_eq in He. now rewrite He.
  - simpl in H. apply String.eqb_eq in H. now rewrite H.
Qed.

Lemma supply_type_of_cost r k :
  cost_meter r = Some k ->
  supply_type r
  = Ok (if String.eqb k "electricity.consumption"
        then "electricity"%string else "gas"%string).
Proof.
  unfold cost_meter, supply_type. intros H.
  destruct (String.eqb (classifier r) "gas.consumption.cost") eqn:Hg.
  - apply String.eqb_eq in Hg. inversion H. now rewrite Hg.
  - destruct (String.eqb (classifier r) "electricity.consumption.cost")
      eqn:He; [|discriminate].
    apply String.eqb_eq in He. inversion H. now rewrite He.
Qed.

Lemma well_built_has_device e :
  well_built e -> is_ok (entity_device_info DOMAIN e) = true.
Proof.
  destruct e as [s|c s|c s|s]; simpl;
    unfold UsageSensor_device_info, Standing_device_info, Rate_device_info,
      Cost_device_info, device_info_of, device_name.
  - intros H. now rewrite (supply_type_of_usage _ H).
  - intros H. now rewrite (supply_type_of_usage _ H).
  - intros H. now rewrite (supply_type_of_usage _ H).
  - intros [k H]. now rewrite (supply_type_of_cost _ _ H).
Qed.

Lemma usage_well_built rs st :
  (forall e, In e (entities st) -> well_built e) ->
  forall e, In e (entities (fold_left (add_usage api ve) rs st)) ->
            well_built e.
Proof.
  revert st. induction rs as [|r rs IH]; intros st H; simpl; [exact H|].
  apply IH. rewrite add_usage_unfold.
  destruct (is_usage r) eqn:Hu; [|exact H]. cbn [entities].
  intros e He. apply in_app_or in He.
  destruct He as [He|[<-|[<-|[<-|[]]]]]; auto.
Qed.

Lemma virtual_entity_well_built rs st st' :
  add_virtual_entity api ve rs st = Ok st' ->
  (forall e, In e (entities st) -> well_built e) ->
  forall e, In e (entities st') -> well_built e.
Proof.
  unfold add_virtual_entity. intros H Hst e He.
  destruct (add_costs_ok _ _ _ _ _ H) as (_ & _ & _ & _ & Hnew).
  destruct (Hnew e He) as [Hold | (r & k & m & Hin & Hc & Hm & ->)].
  - eapply usage_well_built; eauto.
  - simpl. now exists k.
Qed.

(** X18. Grouping by device. Of the entities built for the first virtual
    entity, each has a device (its name never fails), and each cost
    sensor reports the very device of a usage sensor built beside it: the
    same identifier, manufacturer, model and name. *)
Theorem cost_shares_device rs st' :
  add_virtual_entity api ve rs setup_state0 = Ok st' ->
  (forall e, In e (entities st') ->
     is_ok (entity_device_info DOMAIN e) = true)
  /\ forall c, In (E_cost c) (entities st') ->
       exists u, In (E_usage u) (entities st')
         /\ Cost.meter_id c = resource_id (UsageSensor.resource u)
         /\ Cost_device_info DOMAIN c = UsageSensor_device_info DOMAIN u.
Proof.
  intros H. split.
  - intros e He. apply well_built_has_device.
    eapply virtual_entity_well_built; eauto. intros e' [].
  - intros c Hc. unfold add_virtual_entity in H.
    destruct (add_costs_ok _ _ _ _ _ H) as (_ & _ & _ & Hkept & Hnew).
    destruct (Hnew _ Hc) as [Hold | (r & k & m & Hin & Hk & Hm & E)].
    + apply usage_no_cost in Hold. destruct Hold.
    + inversion E; subst c. clear E.
      apply usage_meters in Hm.
      destruct Hm as [Hm | (r' & Hin' & Hu & Hcl & Hid & He)].
      * cbn in Hm. rewrite lookup_empty in Hm. discriminate.
      * exists (UsageSensor.__init__ r' ve api).
        split; [now apply Hkept|]. split; [now cbn|].
        unfold Cost_device_info, UsageSensor_device_info, device_info_of,
          device_name.
        cbn [Cost.meter_id Cost.resource Cost.virtual_entity Cost.__init__
             UsageSensor.resource UsageSensor.virtual_entity
             UsageSensor.__init__].
        rewrite (supply_type_of_cost _ _ Hk), (supply_type_of_usage _ Hu).
        now rewrite Hcl, Hid.
Qed.
End DeviceProperties.

Lemma cost_shares_device_sample :
  exists st',
    add_virtual_entity sample_api sample_ve home_resources setup_state0 = Ok st'
    /\ (forall e, In e (entities st') ->
          is_ok (entity_device_info "glowmarkt" e) = true)
    /\ forall c, In (E_cost c) (entities st') ->
         exists u, In (E_usage u) (entities st')
           /\ Cost.meter_id c = resource_id (UsageSensor.resource u)
           /\ Cost_device_info "glowmarkt" c
              = UsageSensor_device_info "glowmarkt" u.
Proof.
  eexists. split; [reflexivity|].
  exact (cost_shares_device "glowmarkt" sample_api sample_ve home_resources
           _ eq_refl).
Defined.

(** ** Setting up the sensor platform *)

Section SensorSetup.
Variable env : environment.
Variable serve_auth : list (string * string) -> http_reply (gmap string string).
Variable serve_resources : list string -> http_reply (list resource_json).
Variable DOMAIN : string.

Lemma get_resources_run api entity_id (h : HomeAssistant.t) :
  get_resources serve_resources api entity_id h
  = (match serve_resources (entity_id :: HomeAssistant.resource_requests h) with
     | Failed => Raise ClientError
     | Response status responseJson =>
         if status =? 200
         then Ok (map Resource_of_json responseJson)
         else Raise (ValueError ["Failed to retrieve virtual entities"%string])
     end, HomeAssistant.ask_resources entity_id h).
Proof.
  unfold get_resources, bind, modify, get_state.
  cbn [HomeAssistant.resource_requests HomeAssistant.ask_resources].
  destruct (serve_resources _) as [|status responseJson]; [reflexivity|].
  now destruct (status =? 200).
Qed.

Lemma setup_virtual_entities_cons api ve ves st (h : HomeAssistant.t) :
  let h1 := HomeAssistant.ask_resources (VirtualEntity.id ve) h in
  setup_virtual_entities serve_resources api (ve :: ves) st h
  = match serve_resources
            (VirtualEntity.id ve :: HomeAssistant.resource_requests h) with
    | Failed => (Raise ClientError, h1)
    | Response status responseJson =>
        if status =? 200
        then
          match add_virtual_entity api ve (map Resource_of_json responseJson)
                                   st with
          | Ok st1 => setup_virtual_entities serve_resources api ves st1 h1
          | Raise e => (Raise e, h1)
          end
        else
          (Raise (ValueError ["Failed to retrieve virtual entities"%string]),
           h1)
    end.
Proof.
  cbv zeta. cbn [setup_virtual_entities]. unfold bind at 1.
  rewrite get_resources_run.
  destruct (serve_resources _) as [|status responseJson]; [reflexivity|].
  destruct (status =? 200); [|reflexivity].
  unfold bind at 1, lift_result.
  now destruct (add_virtual_entity api ve _ st).
Qed.


Lemma stored_api_run entry_id (h : HomeAssistant.t) :
  stored_api DOMAIN entry_id h
  = (match HomeAssistant.data h with
     | None => Raise (KeyError DOMAIN)
     | Some d =>
         match d !! entry_id with
         | None => Raise (KeyError entry_id)
         | Some api => Ok api
         end
     end, h).
Proof.
  unfold stored_api, bind, get_state.
  destruct (HomeAssistant.data h) as [d|]; [|reflexivity].
  now destruct (d !! entry_id).
Qed.

(** X20. The platform setup logs in first. Without a client stored for the
    entry it raises [KeyError] and does nothing. When the login is
    refused it raises the [ValueError] of [connect]: no discovery or
    resources request has been sent and no entity is handed over. *)
Theorem sensor_setup_logs_in_first (entry : ConfigEntry.t) (h : HomeAssistant.t) :
  let id := ConfigEntry.entry_id entry in
  let run :=
    sensor_async_setup_entry env serve_auth serve_resources DOMAIN entry h in
  (HomeAssistant.data h = None -> run = (Raise (KeyError DOMAIN), h))
  /\ (forall d, HomeAssistant.data h = Some d -> d !! id = None ->
        run = (Raise (KeyError id), h))
  /\ (forall d api session status resp_json,
        HomeAssistant.data h = Some d -> d !! id = Some (api, session) ->
        serve_auth ((GlowMarkt.username api, GlowMarkt.password api)
                    :: Session.posted session)
        = Response status resp_json ->
        status <> 200 ->
        fst run = Raise (ValueError ["Failed to authenticate"%string])
        /\ HomeAssistant.net (snd run) = HomeAssistant.net h
        /\ HomeAssistant.resource_requests (snd run)
           = HomeAssistant.resource_requests h).
Proof.
  intros id run.
  assert (E : run
              = match HomeAssistant.data h with
                | None => (Raise (KeyError DOMAIN), h)
                | Some d =>
                    match d !! id with
                    | None => (Raise (KeyError id), h)
                    | Some (api, session) =>
                        (let* _ := on_session id api session
                                              (connect serve_auth api) in
                         let* virtual_entities :=
                           in_net (GlowMarkt.get_virtual_entites env api) in
                         let* st :=
                           setup_virtual_entities serve_resources api
                             virtual_entities setup_state0 in
                         ret (entities st)) h
                    end
                end).
  { subst run. unfold sensor_async_setup_entry, bind at 1.
    rewrite stored_api_run. fold id.
    destruct (HomeAssistant.data h) as [d|]; [|reflexivity].
    now destruct (d !! id) as [[api session]|]. }
  rewrite E. clear E. split; [|split].
  - intros Hd. now rewrite Hd.
  - intros d Hd Hid. now rewrite Hd, Hid.
  - intros d api session status resp_json Hd Hid Hs Hne.
    rewrite Hd, Hid. unfold bind at 1, on_session.
    rewrite connect_run. cbv zeta. cbn [Session.post Session.posted].
    rewrite Hs. apply Z.eqb_neq in Hne. rewrite Hne. now cbn.
Qed.

(** The loop over the virtual entities leaves the stored clients alone. *)
Lemma setup_virtual_entities_data api ves st (h : HomeAssistant.t) :
  HomeAssistant.data (snd (setup_virtual_entities serve_resources api ves st h))
  = HomeAssistant.data h.
Proof.
  revert st h. induction ves as [|ve ves IH]; intros st h; [reflexivity|].
  rewrite setup_virtual_entities_cons. cbv zeta.
  destruct (serve_resources _) as [|status responseJson]; [reflexivity|].
  destruct (status =? 200); [|reflexivity].
  destruct (add_virtual_entity api ve _ st) as [st1|e]; [|reflexivity].
  now rewrite IH.
Qed.

Lemma same_clients_refl id (h : HomeAssistant.t) : same_clients id h h.
Proof. unfold same_clients. now destruct (HomeAssistant.data h). Qed.

(** The platform setup keeps every stored client under its id; what it
    changes is the session of the client of the entry, in which [connect]
    posts the credentials and stores the token. *)
Lemma sensor_setup_same_clients (entry : ConfigEntry.t) (h : HomeAssistant.t) :
  same_clients (ConfigEntry.entry_id entry) h
    (snd (sensor_async_setup_entry env serve_auth serve_resources DOMAIN
                                   entry h)).
Proof.
  set (id := ConfigEntry.entry_id entry).
  unfold sensor_async_setup_entry, bind at 1. rewrite stored_api_run. fold id.
  destruct (HomeAssistant.data h) as [d|] eqn:Hd;
    [|cbn [snd]; apply same_clients_refl].
  destruct (d !! id) as [[api session]|] eqn:Hid;
    [|cbn [snd]; apply same_clients_refl].
  cbn [fst snd].
  assert (Hrest : forall h1,
            HomeAssistant.data
              (snd ((let* virtual_entities :=
                       in_net (GlowMarkt.get_virtual_entites env api) in
                     let* st :=
                       setup_virtual_entities serve_resources api
                         virtual_entities setup_state0 in
                     ret (entities st)) h1))
            = HomeAssistant.data h1).
  { intros h1. unfold bind at 1, in_net.
    destruct (GlowMarkt.get_virtual_entites env api (HomeAssistant.net h1))
      as [[ves|e] w']; [|reflexivity].
    unfold bind, ret.
    pose proof (setup_virtual_entities_data api ves setup_state0
                  (HomeAssistant.set_net w' h1)) as Hs.
    destruct (setup_virtual_entities serve_resources api ves setup_state0 _)
      as [[st|e] h2]; exact Hs. }
  unfold bind at 1, on_session.
  destruct (connect serve_auth api session) as [[[]|e] session'];
    unfold same_clients; rewrite Hd, ?Hrest;
    cbn [snd HomeAssistant.data HomeAssistant.set_data option_map];
    (split; [intros other Hne; now apply lookup_insert_ne|]);
    now rewrite lookup_insert_eq, Hid.
Qed.
End SensorSetup.

(** A stored client with unknown credentials: the setup fails at the
    login. *)
Lemma sensor_setup_logs_in_first_sample :
  let run :=
    sensor_async_setup_entry (sample_env at_1015 Failed Failed) sample_auth
      (fun _ => Failed) "glowmarkt" sample_entry hass_stranger in
  fst run = Raise (ValueError ["Failed to authenticate"%string])
  /\ HomeAssistant.net (snd run) = world0
  /\ HomeAssistant.resource_requests (snd run) = [].
Proof.
  cbv zeta.
  destruct (sensor_setup_logs_in_first (sample_env at_1015 Failed Failed)
              sample_auth (fun _ => Failed) "glowmarkt" sample_entry
              hass_stranger) as (_ & _ & H).
  refine (H _ _ _ 401 ∅ eq_refl eq_refl eq_refl _).
  discriminate.
Defined.

(** ** __init__.py: storing and removing the client *)

Section EntryLifecycle.
Variable DOMAIN : string.
Variable forward : ConfigEntry.t -> M HomeAssistant.t unit.
Variable unload_platforms : ConfigEntry.t -> M HomeAssistant.t bool.

Lemma async_setup_entry_run (entry : ConfigEntry.t) u p (h : HomeAssistant.t) :
  ConfigEntry.data entry !! "username"%string = Some u ->
  ConfigEntry.data entry !! "password"%string = Some p ->
  async_setup_entry forward entry h
  = (match fst (forward entry (with_client entry u p h)) with
     | Ok _ => Ok true
     | Raise e => Raise e
     end, snd (forward entry (with_client entry u p h))).
Proof.
  intros Hu Hp.
  unfold async_setup_entry, bind, modify, get_state, entry_value.
  rewrite Hu, Hp. unfold ret.
  change (HomeAssistant.set_data _ (HomeAssistant.count_object _))
    with (with_client entry u p h).
  now destruct (forward entry (with_client entry u p h)) as [[[]|e] h'].
Qed.

Lemma async_unload_entry_run (entry : ConfigEntry.t) (h h1 : HomeAssistant.t) ok :
  unload_platforms entry h = (Ok ok, h1) ->
  async_unload_entry DOMAIN unload_platforms entry h
  = if ok
    then
      match HomeAssistant.data h1 with
      | None => (Raise (KeyError DOMAIN), h1)
      | Some d =>
          match d !! ConfigEntry.entry_id entry with
          | None => (Raise (KeyError (ConfigEntry.entry_id entry)), h1)
          | Some _ =>
              (Ok true,
               HomeAssistant.set_data
                 (Some (delete (ConfigEntry.entry_id entry) d)) h1)
          end
      end
    else (Ok false, h1).
Proof.
  intros E. unfold async_unload_entry, bind at 1. rewrite E.
  destruct ok; [|reflexivity].
  unfold bind at 1. rewrite stored_api_run.
  destruct (HomeAssistant.data h1) as [d|] eqn:Hd; [|reflexivity].
  destruct (d !! ConfigEntry.entry_id entry); [|reflexivity].
  unfold bind, modify, ret. now rewrite Hd.
Qed.

(** X21. Setting an entry up and unloading it again. Let the forwarding,
    whatever its outcome, keep the clients stored under their ids (it
    may change the session of the client of the entry, as the login of
    the sensor platform does), and let the platforms then unload,
    keeping the clients as well. The setup returns [True] when the
    forwarding returns and raises what the forwarding raises; either
    way the client built for the entry, with the credentials of the
    entry, is stored under its id beside the clients of the other
    entries. After the unload [hass.data[DOMAIN]] holds exactly the
    clients of the other entries. *)
Theorem setup_then_unload (entry : ConfigEntry.t) u p
    (h h1 h2 : HomeAssistant.t) (r : result unit) :
  ConfigEntry.data entry !! "username"%string = Some u ->
  ConfigEntry.data entry !! "password"%string = Some p ->
  let id := ConfigEntry.entry_id entry in
  forward entry (with_client entry u p h) = (r, h1) ->
  same_clients id (with_client entry u p h) h1 ->
  unload_platforms entry h1 = (Ok true, h2) ->
  same_clients id h1 h2 ->
  let before := default ∅ (HomeAssistant.data h) in
  let api := fst (GlowMarkt__init__ (HomeAssistant.objects h) u p) in
  let set_up := async_setup_entry forward entry h in
  let unloaded := async_unload_entry DOMAIN unload_platforms entry (snd set_up) in
  set_up = (match r with Ok _ => Ok true | Raise e => Raise e end, h1)
  /\ (exists d1 session,
        HomeAssistant.data h1 = Some d1
        /\ d1 !! id = Some (api, session)
        /\ forall other, other <> id -> d1 !! other = before !! other)
  /\ fst unloaded = Ok true
  /\ HomeAssistant.data (snd unloaded) = Some (delete id before)
  /\ (before !! id = None -> HomeAssistant.data (snd unloaded) = Some before).
Proof.
  intros Hu Hp id Hf Hsame1 Hun Hsame2 before api set_up unloaded.
  assert (E1 : set_up
               = (match r with Ok _ => Ok true | Raise e => Raise e end, h1)).
  { subst set_up. rewrite (async_setup_entry_run entry u p h Hu Hp).
    now rewrite Hf. }
  unfold same_clients in Hsame1, Hsame2.
  cbn [HomeAssistant.data with_client] in Hsame1. fold id before in Hsame1.
  destruct (HomeAssistant.data h1) as [d1|] eqn:Hd1; [|destruct Hsame1].
  destruct Hsame1 as [Hother1 Hid1].
  rewrite lookup_insert_eq in Hid1.
  destruct (d1 !! id) as [[api1 session1]|] eqn:Hl1; [|discriminate].
  cbn in Hid1. inversion Hid1; subst api1. clear Hid1.
  assert (Hd1' : forall other, other <> id -> d1 !! other = before !! other).
  { intros other Hne. rewrite (Hother1 other Hne).
    now apply lookup_insert_ne. }
  destruct (HomeAssistant.data h2) as [d2|] eqn:Hd2; [|destruct Hsame2].
  destruct Hsame2 as [Hother2 Hid2].
  assert (Hl2 : is_Some (d2 !! id)).
  { destruct (d2 !! id); [eauto|discriminate]. }
  assert (E3 : fst unloaded = Ok true
               /\ HomeAssistant.data (snd unloaded) = Some (delete id before)).
  { subst unloaded. rewrite E1. cbn [snd].
    rewrite (async_unload_entry_run entry h1 h2 true Hun).
    rewrite Hd2. fold id. destruct Hl2 as [c Hc]. rewrite Hc. cbn [fst snd].
    split; [reflexivity|]. cbn [HomeAssistant.data HomeAssistant.set_data].
    f_equal. apply map_eq. intros k.
    destruct (decide (k = id)) as [->|Hne].
    - now rewrite !lookup_delete_eq.
    - rewrite !lookup_delete_ne by congruence.
      rewrite (Hother2 k Hne). now apply Hd1'. }
  destruct E3 as [E3 E4].
  split; [exact E1|]. split.
  { exists d1, session1. now repeat split. }
  split; [exact E3|]. split; [exact E4|].
  intros Hnone. rewrite E4. f_equal. now apply delete_id.
Qed.

(** X22. Unloading. When the platforms do not unload, nothing is removed.
    When they do, the client of the entry is removed and no other; an
    entry that has no client stored makes the unload raise
    [KeyError]. *)
Theorem async_unload_entry_outcome (entry : ConfigEntry.t)
    (h h1 : HomeAssistant.t) ok :
  unload_platforms entry h = (Ok ok, h1) ->
  let id := ConfigEntry.entry_id entry in
  let run := async_unload_entry DOMAIN unload_platforms entry h in
  (ok = false -> run = (Ok false, h1))
  /\ (ok = true ->
      (HomeAssistant.data h1 = None -> run = (Raise (KeyError DOMAIN), h1))
      /\ (forall d, HomeAssistant.data h1 = Some d ->
            (d !! id = None -> run = (Raise (KeyError id), h1))
            /\ (is_Some (d !! id) ->
                fst run = Ok true
                /\ exists d', HomeAssistant.data (snd run) = Some d'
                     /\ d' !! id = None
                     /\ forall other, other <> id ->
                          d' !! other = d !! other))).
Proof.
  intros E id run. subst run.
  rewrite (async_unload_entry_run entry h h1 ok E). fold id.
  split; [now intros ->|]. intros ->. split.
  - now intros ->.
  - intros d ->. split.
    + now intros ->.
    + intros [x Hx]. rewrite Hx. cbn [fst snd]. split; [reflexivity|].
      eexists. split; [reflexivity|]. split.
      * apply lookup_delete_eq.
      * intros other Hne. now apply lookup_delete_ne.
Qed.
End EntryLifecycle.

(** The forwarding a platform with the sensor platform makes. *)
Lemma forward_to_sensor_same_clients env serve_auth serve_resources DOMAIN
    (entry : ConfigEntry.t) (h : HomeAssistant.t) :
  same_clients (ConfigEntry.entry_id entry) h
    (snd (forward_to_sensor env serve_auth serve_resources DOMAIN entry h)).
Proof.
  pose proof (sensor_setup_same_clients env serve_auth serve_resources DOMAIN
                entry h) as H.
  unfold forward_to_sensor, bind, ret.
  now destruct (sensor_async_setup_entry env serve_auth serve_resources DOMAIN
                  entry h) as [[es|e] h1].
Qed.

(** The entry of the known account, the sensor platform set up by the
    forwarding: the login stores the token in the session of the stored
    client, and the unload leaves no client. *)
Lemma setup_then_unload_sample :
  let forward :=
    forward_to_sensor (sample_env at_1015 Failed Failed) sample_auth
                      (fun _ => Response 200 []) "glowmarkt" in
  let unload := fun (_ : ConfigEntry.t) => @ret HomeAssistant.t bool true in
  let set_up := async_setup_entry forward sample_entry hass0 in
  let unloaded := async_unload_entry "glowmarkt" unload sample_entry (snd set_up) in
  fst set_up = Ok true
  /\ (exists d1 session,
        HomeAssistant.data (snd set_up) = Some d1
        /\ d1 !! "entry-1"%string
           = Some (fst (GlowMarkt__init__ 0 "user" "secret"), session)
        /\ Session.headers session !! "token"%string = Some "jwt-1"%string
        /\ Session.posted session = [("user", "secret")]%string)
  /\ fst unloaded = Ok true
  /\ HomeAssistant.data (snd unloaded) = Some ∅.
Proof.
  cbv zeta.
  set (forward := forward_to_sensor (sample_env at_1015 Failed Failed)
                    sample_auth (fun _ => Response 200 []) "glowmarkt").
  set (h0 := with_client sample_entry "user" "secret" hass0).
  destruct (setup_then_unload "glowmarkt" forward (fun _ => ret true)
              sample_entry "user" "secret" hass0
              (snd (forward sample_entry h0)) (snd (forward sample_entry h0))
              (Ok tt) eq_refl eq_refl)
    as (H1 & (d1 & session & Hd1 & Hs & _) & H3 & _ & H5).
  - reflexivity.
  - apply forward_to_sensor_same_clients.
  - reflexivity.
  - apply same_clients_refl.
  - rewrite H1. cbn [fst snd]. split; [reflexivity|]. split.
    + exists d1, session. split; [exact Hd1|]. split; [exact Hs|].
      assert (E : d1 !! "entry-1"%string
                  = Some (fst (GlowMarkt__init__ 0 "user" "secret"),
                          Session.set_header "token" "jwt-1"
                            (Session.post "user" "secret"
                               (snd (GlowMarkt__init__ 0 "user" "secret"))))).
      { assert (Hd : HomeAssistant.data (snd (forward sample_entry h0))
                     = Some d1) by exact Hd1.
        vm_compute in Hd. inversion Hd. reflexivity. }
      change (ConfigEntry.entry_id sample_entry) with "entry-1"%string in Hs.
      rewrite Hs in E. inversion E. split; reflexivity.
    + rewrite H1 in H3, H5. split; [exact H3|]. apply H5. reflexivity.
Defined.

Lemma async_unload_entry_outcome_sample :
  async_unload_entry "glowmarkt" (fun _ => ret true) sample_entry hass0
  = (Raise (KeyError "glowmarkt"), hass0).
Proof.
  destruct (async_unload_entry_outcome "glowmarkt" (fun _ => ret true)
              sample_entry hass0 hass0 true eq_refl) as [_ H].
  destruct (H eq_refl) as [Hnone _]. now apply Hnone.
Defined.
